(** * qzcli: local configuration store, resource cache and name resolver

    A shallow embedding of [qzcli/config.py] and of the workspace / compute
    group resolution, job listing, cookie and availability fragments of
    [qzcli/cli.py].

    Modelling conventions.
    - Python [str] is [string], the UTF-8 bytes of the text: equality,
      containment, prefixes and the order of strings are those of the
      bytes.  [str.lower] and [str.strip] follow the Unicode tables, which
      are not reproduced: a function whose result depends on them takes the
      operation as a parameter ([lower], [strip]), and what is proved of it
      holds for every such operation.  [Str.lower] is the lowering of the
      ASCII letters, with which [str.lower] agrees on ASCII strings
      ([ascii_lowering]); the resolvers without the parameter are the
      instances at [Str.lower].
    - Python [dict] is an association list in insertion order ([Dict.t]):
      assigning to an existing key keeps the key's position.
    - A JSON object with a known set of keys is a record whose fields are
      [option]s: [None] is an absent key, so that [d.get(k, default)] is a
      [match] on the field.
    - Timestamps ([time.time()], a float) are rationals; rounding is not
      modelled.
    - A file is modelled by what reading it yields ([file]); the file system
      is an explicit state ([disk]) threaded through a state-and-exception
      monad ([M]) in which the state survives a raised exception.

    Scope of [file].  A path is missing, cannot be opened, holds text that
    is not JSON, or holds a document of the expected shape.  Two kinds of
    content are outside the type: bytes that are not UTF-8 text, and JSON
    text of another shape than the document's (a list, a field of another
    type).  On these the loaders of [config.py] raise exceptions that their
    [except] clauses do not name ([UnicodeDecodeError], [TypeError],
    [AttributeError]); likewise [Path.exists()] is taken to answer, which
    it does unless the directory cannot be searched.  The theorems below
    are about disks within this scope. *)

From Stdlib Require Import List String Ascii Bool Arith ZArith QArith Lia.
From Stdlib Require Import Permutation Sorted.
Import ListNotations.
Local Open Scope string_scope.
Local Open Scope list_scope.

(* ================================================================== *)
(** ** Python strings *)

Module Str.

Definition lower_ascii (c : ascii) : ascii :=
  let n := nat_of_ascii c in
  if (65 <=? n)%nat && (n <=? 90)%nat then ascii_of_nat (n + 32) else c.

(** [s.lower()] for a string in which only the ASCII letters have case:
    the letters A to Z are lowered, every other byte is kept. *)
Fixpoint lower (s : string) : string :=
  match s with
  | EmptyString => EmptyString
  | String c r => String (lower_ascii c) (lower r)
  end.

(** [s.isascii()] *)
Fixpoint is_ascii (s : string) : bool :=
  match s with
  | EmptyString => true
  | String c r => (nat_of_ascii c <? 128)%nat && is_ascii r
  end.

(** [s.startswith(pre)] *)
Definition startswith (s pre : string) : bool := String.prefix pre s.

(** [needle in hay] *)
Fixpoint contains (needle hay : string) : bool :=
  String.prefix needle hay
  || match hay with
     | EmptyString => false
     | String _ r => contains needle r
     end.

(** truth value of a string: [bool(s)] *)
Definition truthy (s : string) : bool := negb (s =? "").

(** [a or b] on strings *)
Definition or_else (a b : string) : string := if truthy a then a else b.

End Str.

(* ================================================================== *)
(** ** Python dictionaries with string keys *)

Module Dict.

Definition t (V : Type) : Type := list (string * V).

Definition empty {V : Type} : t V := [].

(** [d.get(k)] *)
Fixpoint get {V : Type} (d : t V) (k : string) : option V :=
  match d with
  | [] => None
  | (k', v) :: r => if k' =? k then Some v else get r k
  end.

(** [k in d] *)
Definition mem {V : Type} (d : t V) (k : string) : bool :=
  match get d k with Some _ => true | None => false end.

(** [d[k] = v]: an existing key keeps its position, a new key goes last *)
Fixpoint set {V : Type} (d : t V) (k : string) (v : V) : t V :=
  match d with
  | [] => [(k, v)]
  | (k', v') :: r =>
      if k' =? k then (k', v) :: r else (k', v') :: set r k v
  end.

(** [{**d, **d'}] *)
Definition update {V : Type} (d d' : t V) : t V :=
  fold_left (fun acc kv => set acc (fst kv) (snd kv)) d' d.

(** [{key(x): x for x in l}] *)
Definition of_list {V : Type} (key : V -> string) (l : list V) : t V :=
  fold_left (fun acc x => set acc (key x) x) l empty.

Definition keys {V : Type} (d : t V) : list string := map fst d.

(** [not d] *)
Definition is_empty {V : Type} (d : t V) : bool :=
  match d with [] => true | _ => false end.

End Dict.

(* ================================================================== *)
(** ** Documents *)

(** Scalar JSON values, as they occur in the configuration document and in
    the type-specific fields of resource records. *)
Inductive jvalue : Type :=
| JNull
| JBool (b : bool)
| JNum (q : Q)
| JStr (s : string).

Definition config : Type := Dict.t jvalue.

(** A project, compute group or spec: [id], [name] and further fields. *)
Record resource : Type := mkResource {
  res_id : string;
  res_name : option string;
  res_fields : Dict.t jvalue
}.

(** One entry of the resource cache. *)
Record workspace : Type := mkWorkspace {
  ws_id : option string;
  ws_name : option string;
  ws_projects : option (Dict.t resource);
  ws_compute_groups : option (Dict.t resource);
  ws_specs : option (Dict.t resource);
  ws_updated_at : option Q
}.

(** The [resources] argument of [save_resources]. *)
Record fetched : Type := mkFetched {
  f_projects : option (list resource);
  f_compute_groups : option (list resource);
  f_specs : option (list resource)
}.

Record token_cache : Type := mkTokenCache {
  tc_token : option string;
  tc_expires_at : option Q
}.

Record cookie_session : Type := mkCookie {
  ck_cookie : option string;
  ck_workspace_id : option string;
  ck_saved_at : option Q
}.

Definition all_resources : Type := Dict.t workspace.

Inductive category : Type := Projects | ComputeGroups | Specs.

(** The key a category is stored under. *)
Definition category_key (c : category) : string :=
  match c with
  | Projects => "projects"
  | ComputeGroups => "compute_groups"
  | Specs => "specs"
  end.

(** The environment variables the configuration reads:
    [os.environ.get(name)] for each of them. *)
Record environ : Type := mkEnviron {
  QZCLI_USERNAME : option string;
  QZCLI_PASSWORD : option string;
  QZCLI_API_URL : option string
}.

(** One element of the list [list_cached_workspaces] returns. *)
Record summary : Type := mkSummary {
  sm_id : string;
  sm_name : string;
  sm_updated_at : Q;
  sm_project_count : nat;
  sm_compute_group_count : nat;
  sm_spec_count : nat
}.

(** The [gpu] object of a node of the node-dimension listing. *)
Record gpu_info : Type := mkGpu {
  gpu_used : option Z;
  gpu_total : option Z
}.

(** A node of the node-dimension listing. *)
Record node : Type := mkNode {
  node_name : option string;
  node_gpu : option gpu_info
}.

(** A free node as [cmd_avail] records it. *)
Record free_node : Type := mkFreeNode {
  fn_name : string;
  fn_gpu_total : Z
}.

(** What [cmd_avail] records about one compute group. *)
Record group_result : Type := mkGroupResult {
  gr_workspace_id : string;
  gr_workspace_name : string;
  gr_id : string;
  gr_name : string;
  gr_gpu_type : jvalue;
  gr_total_nodes : nat;
  gr_free_nodes : nat;
  gr_free_node_list : list free_node;
  gr_specs : Dict.t resource
}.

(* ================================================================== *)
(** ** The file system *)

Inductive exn : Type :=
| OSError              (* IOError is OSError *)
| JSONDecodeError
| UnicodeDecodeError   (* a ValueError, as JSONDecodeError is *)
| EOFError.

Inductive outcome (A : Type) : Type :=
| Ret (a : A)
| Raise (e : exn).
Arguments Ret {A} a.
Arguments Raise {A} e.

(** What a path holds.  [Torn doc] is what an interrupted
    [open(path, "w")] + [json.dump(doc, f)] leaves behind: the file was
    truncated on open and only a proper prefix of the text of [doc] reached
    it. *)
Inductive file (A : Type) : Type :=
| Missing                 (* the path does not exist *)
| Unreadable              (* exists, open or read raises IOError *)
| Malformed               (* exists, json.load raises JSONDecodeError *)
| Torn (doc : A)
| Stored (doc : A).       (* exists, json.load returns doc *)
Arguments Missing {A}.
Arguments Unreadable {A}.
Arguments Malformed {A}.
Arguments Torn {A} doc.
Arguments Stored {A} doc.

(** The configuration directory: absent, present, or impossible to create
    (for instance a regular file stands at its path). *)
Inductive dir_state : Type := DirAbsent | DirPresent | DirBlocked.

Record disk : Type := mkDisk {
  CONFIG_DIR : dir_state;
  CONFIG_FILE : file config;
  TOKEN_CACHE_FILE : file token_cache;
  COOKIE_FILE : file cookie_session;
  RESOURCES_FILE : file all_resources
}.

(** How a write can go wrong. *)
Inductive write_fault : Type :=
| NoFault
| FailOpen      (* open(path, "w") raises, nothing was touched *)
| FailWrite.    (* the write raises after the file was truncated *)

(** [path.exists()] *)
Definition file_exists {A : Type} (f : file A) : bool :=
  match f with Missing => false | _ => true end.

(** [with open(path, "r") as f: json.load(f)].  A proper prefix of the
    text of a document is not JSON text; the prefix is read as one that
    ends between two characters (one that ends inside a multi-byte
    character is not UTF-8 text, see the scope of [file]). *)
Definition read_json {A : Type} (f : file A) : outcome A :=
  match f with
  | Missing => Raise OSError
  | Unreadable => Raise OSError
  | Malformed => Raise JSONDecodeError
  | Torn _ => Raise JSONDecodeError
  | Stored doc => Ret doc
  end.

(** [with open(path, "w") as f: json.dump(doc, f)] under fault [flt], in a
    directory in state [dir], on a file that held [old]. *)
Definition write_json {A : Type} (dir : dir_state) (flt : write_fault)
    (doc : A) (old : file A) : outcome unit * file A :=
  match dir with
  | DirPresent =>
      match flt with
      | NoFault => (Ret tt, Stored doc)
      | FailOpen => (Raise OSError, old)
      | FailWrite => (Raise OSError, Torn doc)
      end
  | _ => (Raise OSError, old)
  end.

(** State and exceptions; the disk survives an exception. *)
Definition M (A : Type) : Type := disk -> outcome A * disk.

Definition ret {A : Type} (a : A) : M A := fun d => (Ret a, d).

Definition raise {A : Type} (e : exn) : M A := fun d => (Raise e, d).

Definition bind {A B : Type} (m : M A) (k : A -> M B) : M B :=
  fun d =>
    match m d with
    | (Ret a, d') => k a d'
    | (Raise e, d') => (Raise e, d')
    end.

(** [try: m  except (json.JSONDecodeError, IOError): h] *)
Definition try_except {A : Type} (m : M A) (h : M A) : M A :=
  fun d =>
    match m d with
    | (Ret a, d') => (Ret a, d')
    | (Raise OSError, d') => h d'
    | (Raise JSONDecodeError, d') => h d'
    | (Raise e, d') => (Raise e, d')
    end.

Declare Scope io_scope.
Delimit Scope io_scope with io.
Notation "x <- m ;; k" := (bind m (fun x => k))
  (at level 61, m at next level, right associativity) : io_scope.
Notation "m ;;; k" := (bind m (fun _ => k))
  (at level 61, right associativity) : io_scope.

Definition set_CONFIG_DIR (s : dir_state) (d : disk) : disk :=
  mkDisk s (CONFIG_FILE d) (TOKEN_CACHE_FILE d) (COOKIE_FILE d) (RESOURCES_FILE d).

Definition set_CONFIG_FILE (f : file config) (d : disk) : disk :=
  mkDisk (CONFIG_DIR d) f (TOKEN_CACHE_FILE d) (COOKIE_FILE d) (RESOURCES_FILE d).

Definition set_TOKEN_CACHE_FILE (f : file token_cache) (d : disk) : disk :=
  mkDisk (CONFIG_DIR d) (CONFIG_FILE d) f (COOKIE_FILE d) (RESOURCES_FILE d).

Definition set_COOKIE_FILE (f : file cookie_session) (d : disk) : disk :=
  mkDisk (CONFIG_DIR d) (CONFIG_FILE d) (TOKEN_CACHE_FILE d) f (RESOURCES_FILE d).

Definition set_RESOURCES_FILE (f : file all_resources) (d : disk) : disk :=
  mkDisk (CONFIG_DIR d) (CONFIG_FILE d) (TOKEN_CACHE_FILE d) (COOKIE_FILE d) f.

(** Reading and writing one of the documents. *)
Definition load_file {A : Type} (path : disk -> file A) : M A :=
  fun d => (read_json (path d), d).

Definition exists_file {A : Type} (path : disk -> file A) : M bool :=
  fun d => (Ret (file_exists (path d)), d).

Definition dump_file {A : Type} (path : disk -> file A)
    (set_path : file A -> disk -> disk) (flt : write_fault) (doc : A) : M unit :=
  fun d =>
    let (r, f) := write_json (CONFIG_DIR d) flt doc (path d) in
    (r, set_path f d).

(** [path.unlink()]; [unlink_ok] tells whether the operating system lets
    the path be removed, which it does not when the path is a directory or
    the directory cannot be written to. *)
Definition unlink_file {A : Type} (path : disk -> file A)
    (set_path : file A -> disk -> disk) (unlink_ok : bool) : M unit :=
  fun d =>
    match path d with
    | Missing => (Raise OSError, d)
    | _ => if unlink_ok then (Ret tt, set_path Missing d) else (Raise OSError, d)
    end.

(* ================================================================== *)
(** ** config.py *)

Module Config.

Local Open Scope io_scope.

Definition DEFAULT_CONFIG : config :=
  [ ("api_base_url", JStr "https://qz.sii.edu.cn");
    ("username", JStr "");
    ("password", JStr "");
    ("token_cache_enabled", JBool true) ].

(** [CONFIG_DIR.mkdir(parents=True, exist_ok=True)] *)
Definition ensure_config_dir : M unit :=
  fun d =>
    match CONFIG_DIR d with
    | DirBlocked => (Raise OSError, d)
    | _ => (Ret tt, set_CONFIG_DIR DirPresent d)
    end.

Definition load_config : M config :=
  ensure_config_dir ;;;
  e <- exists_file CONFIG_FILE ;;
  if e then
    try_except
      (cfg <- load_file CONFIG_FILE ;;
       ret (Dict.update DEFAULT_CONFIG cfg))
      (ret DEFAULT_CONFIG)
  else ret DEFAULT_CONFIG.

Definition save_config (flt : write_fault) (cfg : config) : M unit :=
  ensure_config_dir ;;;
  dump_file CONFIG_FILE set_CONFIG_FILE flt cfg.

(** [cache.get("expires_at", 0)] *)
Definition expires_at (cache : token_cache) : Q :=
  match tc_expires_at cache with Some e => e | None => 0%Q end.

(** [a > b] on numbers *)
Definition Qgtb (a b : Q) : bool := negb (Qle_bool a b).

Definition get_token_cache (now : Q) : M (option token_cache) :=
  e <- exists_file TOKEN_CACHE_FILE ;;
  if negb e then ret None
  else
    try_except
      (cache <- load_file TOKEN_CACHE_FILE ;;
       if Qgtb (expires_at cache) (now + 300)%Q then ret (Some cache)
       else ret None)
      (ret None).

Definition save_token_cache (flt : write_fault) (now : Q)
    (token : string) (expires_in : Q) : M unit :=
  ensure_config_dir ;;;
  let cache := mkTokenCache (Some token) (Some (now + expires_in)%Q) in
  dump_file TOKEN_CACHE_FILE set_TOKEN_CACHE_FILE flt cache.

Definition clear_token_cache (unlink_ok : bool) : M unit :=
  e <- exists_file TOKEN_CACHE_FILE ;;
  if e then unlink_file TOKEN_CACHE_FILE set_TOKEN_CACHE_FILE unlink_ok
  else ret tt.

Definition save_cookie (flt : write_fault) (now : Q)
    (cookie workspace_id : string) : M unit :=
  ensure_config_dir ;;;
  let data := mkCookie (Some cookie) (Some workspace_id) (Some now) in
  dump_file COOKIE_FILE set_COOKIE_FILE flt data.

Definition get_cookie : M (option cookie_session) :=
  e <- exists_file COOKIE_FILE ;;
  if negb e then ret None
  else
    try_except
      (data <- load_file COOKIE_FILE ;; ret (Some data))
      (ret None).

Definition clear_cookie (unlink_ok : bool) : M unit :=
  e <- exists_file COOKIE_FILE ;;
  if e then unlink_file COOKIE_FILE set_COOKIE_FILE unlink_ok
  else ret tt.

Definition load_all_resources : M all_resources :=
  e <- exists_file RESOURCES_FILE ;;
  if negb e then ret Dict.empty
  else
    try_except (load_file RESOURCES_FILE) (ret Dict.empty).

(** [ws_data.get("name", "")] *)
Definition ws_alias (ws_data : workspace) : string :=
  match ws_name ws_data with Some n => n | None => "" end.

(** [all_resources.get(workspace_id, {}).get("name", "")] *)
Definition stored_alias (all : all_resources) (workspace_id : string) : string :=
  match Dict.get all workspace_id with
  | Some ws_data => ws_alias ws_data
  | None => ""
  end.

(** [{p["id"]: p for p in resources.get(key, [])}] *)
Definition by_id (l : option (list resource)) : Dict.t resource :=
  Dict.of_list res_id (match l with Some l => l | None => [] end).

(** The entry [save_resources] stores for the workspace. *)
Definition refreshed (now : Q) (all : all_resources) (workspace_id : string)
    (resources : fetched) (name : string) : workspace :=
  {| ws_id := Some workspace_id;
     ws_name := Some (Str.or_else name (stored_alias all workspace_id));
     ws_projects := Some (by_id (f_projects resources));
     ws_compute_groups := Some (by_id (f_compute_groups resources));
     ws_specs := Some (by_id (f_specs resources));
     ws_updated_at := Some now |}.

Definition save_resources (flt : write_fault) (now : Q)
    (workspace_id : string) (resources : fetched) (name : string) : M unit :=
  ensure_config_dir ;;;
  all <- load_all_resources ;;
  let all := Dict.set all workspace_id
               (refreshed now all workspace_id resources name) in
  dump_file RESOURCES_FILE set_RESOURCES_FILE flt all.

Definition get_workspace_resources (workspace_id : string) : M (option workspace) :=
  all <- load_all_resources ;;
  ret (Dict.get all workspace_id).

(** [ws_data["name"] = name] *)
Definition set_name (ws_data : workspace) (name : string) : workspace :=
  {| ws_id := ws_id ws_data;
     ws_name := Some name;
     ws_projects := ws_projects ws_data;
     ws_compute_groups := ws_compute_groups ws_data;
     ws_specs := ws_specs ws_data;
     ws_updated_at := ws_updated_at ws_data |}.

(** The entry [set_workspace_name] creates for an uncached workspace. *)
Definition blank_workspace (now : Q) (workspace_id name : string) : workspace :=
  {| ws_id := Some workspace_id;
     ws_name := Some name;
     ws_projects := Some Dict.empty;
     ws_compute_groups := Some Dict.empty;
     ws_specs := Some Dict.empty;
     ws_updated_at := Some now |}.

(** The in-memory update of [set_workspace_name]. *)
Definition rename_in (now : Q) (all : all_resources)
    (workspace_id name : string) : all_resources :=
  match Dict.get all workspace_id with
  | None => Dict.set all workspace_id (blank_workspace now workspace_id name)
  | Some ws_data => Dict.set all workspace_id (set_name ws_data name)
  end.

Definition set_workspace_name (flt : write_fault) (now : Q)
    (workspace_id name : string) : M bool :=
  all <- load_all_resources ;;
  let all := rename_in now all workspace_id name in
  ensure_config_dir ;;;
  dump_file RESOURCES_FILE set_RESOURCES_FILE flt all ;;;
  ret true.

(** [res_data.get("name", "")] *)
Definition res_alias (res_data : resource) : string :=
  match res_name res_data with Some n => n | None => "" end.

(** First loop of [find_workspace_by_name]. *)
Fixpoint exact_workspace (items : list (string * workspace)) (name : string)
    : option string :=
  match items with
  | [] => None
  | (ws_id, ws_data) :: rest =>
      if ws_alias ws_data =? name then Some ws_id
      else exact_workspace rest name
  end.

(** First loop of [find_resource_by_name]. *)
Fixpoint exact_resource (items : list (string * resource)) (name : string)
    : option resource :=
  match items with
  | [] => None
  | (_, res_data) :: rest =>
      if res_alias res_data =? name then Some res_data
      else exact_resource rest name
  end.

(** [not ws_resources] on a cache entry: the entry has no key at all. *)
Definition ws_is_empty (ws_data : workspace) : bool :=
  match ws_id ws_data, ws_name ws_data, ws_projects ws_data,
        ws_compute_groups ws_data, ws_specs ws_data, ws_updated_at ws_data with
  | None, None, None, None, None, None => true
  | _, _, _, _, _, _ => false
  end.

(** [ws_resources.get(resource_type, {})] *)
Definition category_map (resource_type : category) (ws_data : workspace)
    : Dict.t resource :=
  let m := match resource_type with
           | Projects => ws_projects ws_data
           | ComputeGroups => ws_compute_groups ws_data
           | Specs => ws_specs ws_data
           end in
  match m with Some m => m | None => Dict.empty end.

(** The resolvers, with [str.lower] as the parameter [lower]. *)
Section Lowering.

Variable lower : string -> string.

(** Second loop of [find_workspace_by_name]. *)
Fixpoint fuzzy_workspace_with (items : list (string * workspace))
    (name : string) : option string :=
  match items with
  | [] => None
  | (ws_id, ws_data) :: rest =>
      if Str.contains (lower name) (lower (ws_alias ws_data))
      then Some ws_id
      else fuzzy_workspace_with rest name
  end.

Definition find_workspace_in_with (all : all_resources) (name : string)
    : option string :=
  match exact_workspace all name with
  | Some ws_id => Some ws_id
  | None => fuzzy_workspace_with all name
  end.

Definition find_workspace_by_name_with (name : string) : M (option string) :=
  all <- load_all_resources ;;
  ret (find_workspace_in_with all name).

(** Second loop of [find_resource_by_name]. *)
Fixpoint fuzzy_resource_with (items : list (string * resource))
    (name : string) : option resource :=
  match items with
  | [] => None
  | (_, res_data) :: rest =>
      if Str.contains (lower name) (lower (res_alias res_data))
      then Some res_data
      else fuzzy_resource_with rest name
  end.

Definition find_resource_in_with (resources : Dict.t resource) (name : string)
    : option resource :=
  match exact_resource resources name with
  | Some res_data => Some res_data
  | None => fuzzy_resource_with resources name
  end.

Definition find_resource_by_name_with (workspace_id : string)
    (resource_type : category) (name : string) : M (option resource) :=
  ws_resources <- get_workspace_resources workspace_id ;;
  match ws_resources with
  | None => ret None
  | Some ws_data =>
      if ws_is_empty ws_data then ret None
      else ret (find_resource_in_with (category_map resource_type ws_data) name)
  end.

End Lowering.

(** The resolvers on names in which only the ASCII letters have case. *)
Definition find_workspace_in : all_resources -> string -> option string :=
  find_workspace_in_with Str.lower.

Definition find_workspace_by_name : string -> M (option string) :=
  find_workspace_by_name_with Str.lower.

Definition find_resource_in : Dict.t resource -> string -> option resource :=
  find_resource_in_with Str.lower.

Definition find_resource_by_name
    : string -> category -> string -> M (option resource) :=
  find_resource_by_name_with Str.lower.

(** Truth value of a scalar JSON value. *)
Definition jtruthy (v : jvalue) : bool :=
  match v with
  | JNull => false
  | JBool b => b
  | JNum q => negb (Qeq_bool q 0)
  | JStr s => Str.truthy s
  end.

(** [os.environ.get(name) or config.get(key) or ""] *)
Definition env_or_config (env_value : option string) (config_value : option jvalue)
    : jvalue :=
  let from_config :=
    match config_value with
    | Some v => if jtruthy v then v else JStr ""
    | None => JStr ""
    end in
  match env_value with
  | Some s => if Str.truthy s then JStr s else from_config
  | None => from_config
  end.

Definition get_credentials (env : environ) : M (jvalue * jvalue) :=
  config <- load_config ;;
  let username := env_or_config (QZCLI_USERNAME env) (Dict.get config "username") in
  let password := env_or_config (QZCLI_PASSWORD env) (Dict.get config "password") in
  ret (username, password).



Definition init_config (flt : write_fault) (username password : string)
    (api_base_url : option string) : M unit :=
  config <- load_config ;;
  let config := Dict.set config "username" (JStr username) in
  let config := Dict.set config "password" (JStr password) in
  let config :=
    match api_base_url with
    | Some url =>
        if Str.truthy url then Dict.set config "api_base_url" (JStr url)
        else config
    | None => config
    end in
  save_config flt config.

(** [len(ws_data.get(key, {}))] *)
Definition map_count (m : option (Dict.t resource)) : nat :=
  match m with Some m => List.length m | None => 0%nat end.

Definition summarize (ws_id : string) (ws_data : workspace) : summary :=
  {| sm_id := ws_id;
     sm_name := ws_alias ws_data;
     sm_updated_at := match ws_updated_at ws_data with
                      | Some t => t
                      | None => 0%Q
                      end;
     sm_project_count := map_count (ws_projects ws_data);
     sm_compute_group_count := map_count (ws_compute_groups ws_data);
     sm_spec_count := map_count (ws_specs ws_data) |}.

Definition list_cached_workspaces : M (list summary) :=
  all <- load_all_resources ;;
  ret (map (fun it => summarize (fst it) (snd it)) all).

End Config.

(* ================================================================== *)
(** ** cli.py: resolving workspaces and compute groups, listing jobs *)

(** Modelled from the spec: the [JobRecord] class of [qzcli/store.py], which
    is not part of the sources at hand; the fields are those of section 3
    of the specification, [created_at] being possibly absent. *)
Record JobRecord : Type := mkJob {
  job_id : string;
  job_name : string;
  job_status : string;
  job_source : string;
  job_workspace_id : string;
  job_project_name : string;
  job_created_at : option string;
  job_metadata : Dict.t string
}.

Module Cli.

Import Config.
Local Open Scope io_scope.

(** Truth value of an optional command line argument: [None] and the
    empty string are both false. *)
Definition given (arg : option string) : option string :=
  match arg with
  | Some s => if Str.truthy s then Some s else None
  | None => None
  end.

(** [ws_resources.get("name", "") if ws_resources else dflt] *)
Definition cached_name (ws_resources : option workspace) (dflt : string)
    : string :=
  match ws_resources with
  | Some ws_data => if ws_is_empty ws_data then dflt else ws_alias ws_data
  | None => dflt
  end.

(** [cmd_list_cookie]: the workspaces to query, with their names; [None]
    when the command reports an error and returns 1. *)
Definition list_cookie_workspaces (all_ws : bool)
    (workspace_input : option string) (cookie_data : cookie_session)
    : M (option (list (string * string))) :=
  if all_ws then
    all <- load_all_resources ;;
    if Dict.is_empty all then ret None
    else ret (Some (map (fun it => (fst it, ws_alias (snd it))) all))
  else
    match given workspace_input with
    | Some workspace_input =>
        if Str.startswith workspace_input "ws-" then
          ws_resources <- get_workspace_resources workspace_input ;;
          ret (Some [(workspace_input, cached_name ws_resources "")])
        else
          found <- find_workspace_by_name workspace_input ;;
          match given found with
          | Some workspace_id =>
              ws_resources <- get_workspace_resources workspace_id ;;
              ret (Some [(workspace_id,
                          cached_name ws_resources workspace_input)])
          | None => ret None
          end
    | None =>
        match given (Some (match ck_workspace_id cookie_data with
                           | Some w => w
                           | None => ""
                           end)) with
        | Some default_ws =>
            ws_resources <- get_workspace_resources default_ws ;;
            ret (Some [(default_ws, cached_name ws_resources "")])
        | None => ret None
        end
    end.

(** [cmd_avail]: the workspaces to query; [None] when the command reports
    an error and returns 1. *)
Definition avail_workspaces (workspace_input : option string)
    : M (option (list string)) :=
  match given workspace_input with
  | None =>
      all <- load_all_resources ;;
      if Dict.is_empty all then ret None
      else ret (Some (Dict.keys all))
  | Some workspace_input =>
      if Str.startswith workspace_input "ws-" then
        ret (Some [workspace_input])
      else
        found <- find_workspace_by_name workspace_input ;;
        match given found with
        | Some workspace_id => ret (Some [workspace_id])
        | None => ret None
        end
  end.

(** [cmd_workspaces]: the workspace whose resources are shown; [None] when
    the command reports an error and returns 1. *)
Definition workspaces_workspace (workspace_input : option string)
    : M (option string) :=
  cookie_data <- get_cookie ;;
  match given workspace_input with
  | None =>
      ret (given (Some (match cookie_data with
                        | Some data =>
                            match ck_workspace_id data with
                            | Some w => w
                            | None => ""
                            end
                        | None => ""
                        end)))
  | Some workspace_input =>
      if Str.startswith workspace_input "ws-" then
        ret (given (Some workspace_input))
      else
        found <- find_workspace_by_name workspace_input ;;
        ret (given found)
  end.

(** [cmd_avail]: the compute groups of one workspace that are queried
    under [--group]; [None] when the workspace is skipped. *)
Definition avail_compute_groups (workspace_id : string)
    (group_filter : option string) (compute_groups : Dict.t resource)
    : M (option (Dict.t resource)) :=
  match given group_filter with
  | Some group_filter =>
      if Str.startswith group_filter "lcg-" then
        match Dict.get compute_groups group_filter with
        | Some info => ret (Some [(group_filter, info)])
        | None => ret None
        end
      else
        found <- find_resource_by_name workspace_id ComputeGroups group_filter ;;
        match found with
        | Some found => ret (Some [(res_id found, found)])
        | None => ret None
        end
  | None => ret (Some compute_groups)
  end.

(** [x.created_at or ""] *)
Definition created_key (x : JobRecord) : string :=
  match job_created_at x with Some s => s | None => "" end.

(** [list.sort(key=created_key, reverse=True)]: a stable sort, larger keys
    first; records with equal keys keep their order. *)
Fixpoint insert_desc (x : JobRecord) (l : list JobRecord) : list JobRecord :=
  match l with
  | [] => [x]
  | y :: r =>
      if String.ltb (created_key x) (created_key y)
      then y :: insert_desc x r
      else x :: y :: r
  end.

Definition sort_desc (l : list JobRecord) : list JobRecord :=
  fold_right insert_desc [] l.

(** [l[:n]] *)
Definition slice_to {A : Type} (n : Z) (l : list A) : list A :=
  if (0 <=? n)%Z then firstn (Z.to_nat n) l
  else firstn (List.length l - Z.to_nat (- n)) l.

Definition active_statuses : list string :=
  [ "job_running"; "job_queuing"; "job_pending";
    "running"; "queuing"; "pending" ].

(** The filters and the listing, with [str.lower] as the parameter
    [lower]. *)
Section JobListing.

Variable lower : string -> string.

(** [args.status.lower() in j.status.lower()] *)
Definition status_matches (status : string) (j : JobRecord) : bool :=
  Str.contains (lower status) (lower (job_status j)).

Definition is_active (j : JobRecord) : bool :=
  existsb (String.eqb (lower (job_status j))) active_statuses
  || Str.contains "running" (lower (job_status j))
  || Str.contains "queue" (lower (job_status j)).

(** [cmd_list_cookie], from the sort to the slice: the jobs displayed. *)
Definition list_cookie_jobs (status : option string) (running : bool)
    (limit : Z) (all_jobs : list JobRecord) : list JobRecord :=
  let all_jobs := sort_desc all_jobs in
  let all_jobs :=
    match given status with
    | Some status => filter (status_matches status) all_jobs
    | None => all_jobs
    end in
  let all_jobs := if running then filter is_active all_jobs else all_jobs in
  slice_to limit all_jobs.

End JobListing.

(** [cmd_cookie]: a line of the cookie file that can be the cookie, once
    stripped: not empty, not a comment, not the word "cookie". *)
Definition usable_cookie_line (line : string) : bool :=
  Str.truthy line
  && negb (Str.startswith line "#")
  && negb (line =? "cookie").

(** The arguments of [qzcli cookie]. *)
Record cookie_args : Type := mkCookieArgs {
  ca_clear : bool;
  ca_show : bool;
  ca_cookie : option string;
  ca_workspace : option string;
  ca_file : option string;
  ca_no_test : bool
}.

(** What [args.file] gives: the path does not exist, [open] or
    [readlines] raises, or the lines are read. *)
Inductive text_file : Type :=
| NoSuchFile
| ReadFails (e : exn)
| Lines (lines : list string).

(** [cmd_cookie], from the test of the cookie on: [api_ok] tells whether
    [api.list_jobs_with_cookie] returned rather than raised. *)
Definition check_and_save_cookie (flt : write_fault) (now : Q)
    (no_test : bool) (api_ok : bool) (cookie workspace_id : string) : M Z :=
  if negb no_test && Str.truthy workspace_id && negb api_ok then ret 1%Z
  else save_cookie flt now cookie workspace_id ;;; ret 0%Z.

(** The reading of the cookie, with [str.strip] as the parameter
    [strip]. *)
Section Stripping.

Variable strip : string -> string.

(** [cmd_cookie]: the loop over the lines, up to its [break]. *)
Fixpoint first_usable_line (lines : list string) : option string :=
  match lines with
  | [] => None
  | line :: rest =>
      let line := strip line in
      if usable_cookie_line line then Some line else first_usable_line rest
  end.

(** [cmd_cookie]: the cookie after reading the file, [None] when the
    command reports that the file holds no cookie and returns 1; [cookie]
    is [args.cookie], [lines] is [f.readlines()]. *)
Definition cookie_from_file (cookie : option string) (lines : list string)
    : option string :=
  given (match first_usable_line (rev lines) with
         | Some line => Some line
         | None => cookie
         end).

(** [cmd_cookie], its exit code; [file] is what [args.file] gives, [typed]
    what [input()] does: it returns a line or raises. *)
Definition cmd_cookie (flt : write_fault) (unlink_ok : bool) (now : Q)
    (args : cookie_args) (file : text_file) (typed : outcome string)
    (api_ok : bool) : M Z :=
  if ca_clear args then clear_cookie unlink_ok ;;; ret 0%Z
  else if ca_show args then get_cookie ;;; ret 0%Z
  else
    let workspace_id :=
      match given (ca_workspace args) with Some w => w | None => "" end in
    match given (ca_file args) with
    | Some _ =>
        match file with
        | NoSuchFile => ret 1%Z
        | ReadFails e => raise e
        | Lines lines =>
            match cookie_from_file (ca_cookie args) lines with
            | Some cookie =>
                check_and_save_cookie flt now (ca_no_test args) api_ok
                  cookie workspace_id
            | None => ret 1%Z
            end
        end
    | None =>
        match given (ca_cookie args) with
        | Some cookie =>
            check_and_save_cookie flt now (ca_no_test args) api_ok
              cookie workspace_id
        | None =>
            match typed with
            | Raise e => raise e
            | Ret line =>
                let cookie := strip line in
                if Str.truthy cookie then
                  check_and_save_cookie flt now (ca_no_test args) api_ok
                    cookie workspace_id
                else ret 1%Z
            end
        end
    end.

End Stripping.


(** [node.get("gpu", {}).get("used", 0)] *)
Definition node_gpu_used (n : node) : Z :=
  match node_gpu n with
  | Some g => match gpu_used g with Some u => u | None => 0%Z end
  | None => 0%Z
  end.

(** [node.get("gpu", {}).get("total", 0)] *)
Definition node_gpu_total (n : node) : Z :=
  match node_gpu n with
  | Some g => match gpu_total g with Some t => t | None => 0%Z end
  | None => 0%Z
  end.

(** [gpu_used == 0 and gpu_total > 0] *)
Definition node_is_free (n : node) : bool :=
  (node_gpu_used n =? 0)%Z && (0 <? node_gpu_total n)%Z.

(** [cmd_avail]: the loop that collects the free nodes. *)
Fixpoint free_nodes_of (nodes : list node) : list free_node :=
  match nodes with
  | [] => []
  | n :: rest =>
      if node_is_free n then
        {| fn_name := match node_name n with Some s => s | None => "" end;
           fn_gpu_total := node_gpu_total n |} :: free_nodes_of rest
      else free_nodes_of rest
  end.

(** [cmd_avail]: the record appended to [all_results] for one compute
    group, from the nodes the API listed for it. *)
Definition avail_group_result (workspace_id ws_name : string)
    (specs : Dict.t resource) (lcg_id : string) (lcg_info : resource)
    (nodes : list node) : group_result :=
  let free_nodes := free_nodes_of nodes in
  {| gr_workspace_id := workspace_id;
     gr_workspace_name := ws_name;
     gr_id := lcg_id;
     gr_name := match res_name lcg_info with Some n => n | None => lcg_id end;
     gr_gpu_type := match Dict.get (res_fields lcg_info) "gpu_type" with
                    | Some v => v
                    | None => JStr ""
                    end;
     gr_total_nodes := List.length nodes;
     gr_free_nodes := List.length free_nodes;
     gr_free_node_list := free_nodes;
     gr_specs := specs |}.

(** [results.sort(key=lambda x: x["free_nodes"], reverse=True)] *)
Fixpoint insert_free_desc (x : group_result) (l : list group_result)
    : list group_result :=
  match l with
  | [] => [x]
  | y :: r =>
      if (gr_free_nodes x <? gr_free_nodes y)%nat
      then y :: insert_free_desc x r
      else x :: y :: r
  end.

Definition sort_free_desc (l : list group_result) : list group_result :=
  fold_right insert_free_desc [] l.

(** Truth value of [args.nodes]: given and not zero. *)
Definition nodes_required (nodes : option Z) : option Z :=
  match nodes with
  | Some n => if (n =? 0)%Z then None else Some n
  | None => None
  end.

(** [cmd_avail]: the groups with enough free nodes, most free nodes
    first. *)
Definition avail_available (required_nodes : Z)
    (all_results : list group_result) : list group_result :=
  filter (fun r => (required_nodes <=? Z.of_nat (gr_free_nodes r))%Z)
    (sort_free_desc all_results).

(** [cmd_avail], once the groups are queried: the exit code and, under
    [--nodes], the group recommended by [--export] ([available[0]]). *)
Definition avail_report (nodes : option Z) (all_results : list group_result)
    : Z * option group_result :=
  match all_results with
  | [] => (1%Z, None)
  | _ =>
      match nodes_required nodes with
      | Some required_nodes =>
          match avail_available required_nodes all_results with
          | [] => (1%Z, None)
          | best :: _ => (0%Z, Some best)
          end
      | None => (0%Z, None)
      end
  end.

(** [cmd_avail] without [--nodes]: the groups [--export] prints. *)
Definition avail_export_all (all_results : list group_result)
    : list group_result :=
  filter (fun r => (0 <? gr_free_nodes r)%nat) (sort_free_desc all_results).

End Cli.

(* ================================================================== *)
(** ** Vocabulary of the specification *)

(** The resource cache as [load_all_resources] presents it: the stored
    document, or the empty map when there is none to read. *)
Definition cached (d : disk) : all_resources :=
  match RESOURCES_FILE d with
  | Stored all => all
  | _ => Dict.empty
  end.

(** The configuration directory exists or can be created. *)
Definition dir_ok (d : disk) : bool :=
  match CONFIG_DIR d with DirBlocked => false | _ => true end.

(** [resources.get(key, [])] *)
Definition listed (l : option (list resource)) : list resource :=
  match l with Some l => l | None => [] end.

(** Sample documents and disks, used to run the code on concrete inputs. *)
Definition proj_a : resource := mkResource "proj-a" (Some "Vision") [].

Definition lcg_a : resource :=
  mkResource "lcg-a" (Some "H100-pool") [("gpu_type", JStr "H100")].

Definition alpha : workspace :=
  mkWorkspace (Some "ws-1") (Some "Alpha")
    (Some [("proj-a", proj_a)]) (Some [("lcg-a", lcg_a)]) (Some [])
    (Some 1000%Q).

Definition blank_disk : disk :=
  mkDisk DirAbsent Missing Missing Missing Missing.

Definition alpha_disk : disk :=
  mkDisk DirPresent Missing Missing
    (Stored (mkCookie (Some "old") (Some "ws-0") (Some 1%Q)))
    (Stored [("ws-1", alpha)]).

Definition blocked_disk : disk :=
  mkDisk DirBlocked Missing Missing Missing Missing.

(** A cache whose workspace "ws-1" has a project "Vision" and the compute
    groups "H100-pool" and "h100-pool-2". *)
Definition lcg_b : resource := mkResource "lcg-b" (Some "h100-pool-2") [].

Definition pools : workspace :=
  mkWorkspace (Some "ws-1") (Some "Alpha")
    (Some [("proj-a", proj_a)]) (Some [("lcg-a", lcg_a); ("lcg-b", lcg_b)])
    (Some []) (Some 1000%Q).

Definition pools_disk : disk :=
  mkDisk DirPresent Missing Missing Missing (Stored [("ws-1", pools)]).

(** A cache in which the workspace "ws-9" carries an alias that looks like
    an ID. *)
Definition alias_disk : disk :=
  mkDisk DirPresent Missing Missing Missing
    (Stored [("ws-9", Config.set_name alpha "ws-abc")]).

(** [n] occurs in [h]. *)
Definition substring (n h : string) : Prop :=
  exists pre post, h = (pre ++ n ++ post)%string.

(** Exact, case-sensitive match of a queried name against an alias. *)
Definition same_name (name alias : string) : Prop := alias = name.

(** Case-insensitive containment of the queried name in an alias: the
    lowered name occurs in the lowered alias, [lower] being [str.lower]. *)
Definition similar_name_with (lower : string -> string) (name alias : string)
    : Prop :=
  substring (lower name) (lower alias).

(** [lower] lowers ASCII strings as [str.lower] does: the letters A to Z
    become a to z and nothing else changes. *)
Definition ascii_lowering (lower : string -> string) : Prop :=
  forall s, Str.is_ascii s = true -> lower s = Str.lower s.

(** [(k, v)] is the first item, in iteration order, whose value satisfies
    [P]. *)
Definition first_such {V : Type} (P : V -> Prop) (items : list (string * V))
    (k : string) (v : V) : Prop :=
  exists before after,
    items = (before ++ (k, v) :: after)%list
    /\ P v
    /\ Forall (fun it => ~ P (snd it)) before.

(** Exact pass, then case-insensitive substring pass, first match wins;
    [pick] says what is returned for the item found. *)
Definition two_pass_with {V R : Type} (lower : string -> string)
    (alias : V -> string) (pick : string -> V -> R)
    (items : list (string * V)) (name : string) (r : option R) : Prop :=
  (exists k v,
      first_such (fun v => same_name name (alias v)) items k v
      /\ r = Some (pick k v))
  \/ (Forall (fun it => ~ same_name name (alias (snd it))) items
      /\ exists k v,
           first_such (fun v => similar_name_with lower name (alias v)) items k v
           /\ r = Some (pick k v))
  \/ (Forall (fun it => ~ same_name name (alias (snd it))
                        /\ ~ similar_name_with lower name (alias (snd it))) items
      /\ r = None).

Definition two_pass {V R : Type} (alias : V -> string) (pick : string -> V -> R)
    (items : list (string * V)) (name : string) (r : option R) : Prop :=
  two_pass_with Str.lower alias pick items name r.

(** The last element of [l] that satisfies [p]. *)
Definition find_last {A : Type} (p : A -> bool) (l : list A) : option A :=
  find p (rev l).

(** What a job is sorted on: its [created_at], the empty string when it
    has none. *)
Definition created_or_empty (j : JobRecord) : string :=
  match job_created_at j with Some s => s | None => "" end.

(** Descending order of [created_at], ties allowed. *)
Definition key_ge (a b : JobRecord) : Prop :=
  String.leb (created_or_empty b) (created_or_empty a) = true.


(** A node is free: its [gpu] object says that no GPU is used and that it
    has at least one; absent figures count as 0. *)
Definition free_gpu (n : node) : Prop :=
  exists g,
    node_gpu n = Some g
    /\ (gpu_used g = None \/ gpu_used g = Some 0%Z)
    /\ exists total, gpu_total g = Some total /\ (0 < total)%Z.

(** The list [save_resources] is given for a category. *)
Definition fetched_list (c : category) (resources : fetched) : list resource :=
  listed (match c with
          | Projects => f_projects resources
          | ComputeGroups => f_compute_groups resources
          | Specs => f_specs resources
          end).

(** A text that can be the cookie: not empty, not a comment, not the word
    "cookie". *)
Definition usable_text (c : string) : Prop :=
  c <> "" /\ (forall r, c <> String "#" r) /\ c <> "cookie".

(** Descending order of the free node counts, ties allowed. *)
Definition free_ge (a b : group_result) : Prop :=
  (gr_free_nodes b <= gr_free_nodes a)%nat.

(** No environment variable is set. *)
Definition no_env : environ := mkEnviron None None None.

(** A configuration file with a user, an empty API URL and a key of its
    own. *)
Definition sample_config_disk : disk :=
  mkDisk DirPresent
    (Stored [("username", JStr "ann"); ("api_base_url", JStr "");
             ("theme", JStr "dark")])
    Missing Missing Missing.

(** What [load_config] returns on a disk whose directory is usable. *)
Definition effective_config (d : disk) : config :=
  match CONFIG_FILE d with
  | Stored cfg => Dict.update Config.DEFAULT_CONFIG cfg
  | _ => Config.DEFAULT_CONFIG
  end.

(** Four jobs, in the order the API returned them: the second has no
    [created_at]. *)
Definition sample_jobs : list JobRecord :=
  [ mkJob "job-1" "" "job_running" "" "" "" (Some "2024-05-01") [];
    mkJob "job-0" "" "Running" "" "" "" None [];
    mkJob "job-2" "" "job_succeeded" "" "" "" (Some "2024-05-02") [];
    mkJob "job-3" "" "RUNNING" "" "" "" (Some "2024-05-03") [] ].

(** Replaces [lower] by [Str.lower] on the ASCII literals of the goal,
    [Hl] being a proof of [ascii_lowering lower]. *)
Ltac lower_literals Hl :=
  lazymatch type of Hl with
  | ascii_lowering ?lower =>
      repeat match goal with
             | |- context [lower ?n] => rewrite (Hl n eq_refl)
             end
  end.

(** Unfolds the monad and the file primitives. *)
Ltac io_unfold :=
  unfold bind, ret, raise, try_except, load_file, exists_file, dump_file,
    write_json, read_json, file_exists, Config.ensure_config_dir;
  cbv beta.

(* ================================================================== *)
(** ** Strings *)

Lemma prefix_true_iff (p s : string) :
  String.prefix p s = true <-> exists post, s = (p ++ post)%string.
Proof.
  revert s. induction p as [|c p IH]; intros s.
  - destruct s; simpl; split; intros; eauto.
  - destruct s as [|c' s]; simpl.
    + split; [discriminate | intros [post H]; discriminate].
    + destruct (Ascii.ascii_dec c c') as [->|Hne].
      * rewrite IH. split; intros [post H]; exists post; congruence.
      * split; [discriminate | intros [post H]; congruence].
Qed.

Lemma contains_true_iff (n h : string) :
  Str.contains n h = true <-> substring n h.
Proof.
  unfold substring. induction h as [|c h IH].
  - cbn [Str.contains]. rewrite orb_false_r, prefix_true_iff. split.
    + intros [post H]. exists "", post. exact H.
    + intros [pre [post H]]. destruct pre; simpl in H; [eauto | discriminate].
  - cbn [Str.contains]. rewrite orb_true_iff, prefix_true_iff, IH. split.
    + intros [[post H] | [pre [post H]]].
      * exists "", post. exact H.
      * exists (String c pre), post. simpl. congruence.
    + intros [pre [post H]]. destruct pre as [|c' pre]; simpl in H.
      * left. eauto.
      * right. exists pre, post. congruence.
Qed.


Lemma startswith_nonempty (s : string) (c : ascii) (p : string) :
  Str.startswith s (String c p) = true -> Str.truthy s = true.
Proof.
  unfold Str.startswith, Str.truthy. destruct s; simpl; [discriminate | reflexivity].
Qed.

(* ================================================================== *)
(** ** Dictionaries *)

Lemma get_set_same {V : Type} (d : Dict.t V) (k : string) (v : V) :
  Dict.get (Dict.set d k v) k = Some v.
Proof.
  induction d as [|[k' v'] d IH]; simpl.
  - rewrite String.eqb_refl. reflexivity.
  - destruct (String.eqb_spec k' k) as [->|Hne]; simpl.
    + rewrite String.eqb_refl. reflexivity.
    + destruct (String.eqb_spec k' k); [contradiction | exact IH].
Qed.

Lemma get_set_other {V : Type} (d : Dict.t V) (k k' : string) (v : V) :
  k' <> k -> Dict.get (Dict.set d k v) k' = Dict.get d k'.
Proof.
  intros Hne. induction d as [|[k0 v0] d IH]; simpl.
  - destruct (String.eqb_spec k k'); [congruence | reflexivity].
  - destruct (String.eqb_spec k0 k) as [->|Hk]; simpl.
    + destruct (String.eqb_spec k k'); [congruence | reflexivity].
    + destruct (String.eqb_spec k0 k'); [reflexivity | exact IH].
Qed.

Lemma keys_set {V : Type} (d : Dict.t V) (k : string) (v : V) :
  Dict.keys (Dict.set d k v)
  = if Dict.mem d k then Dict.keys d else (Dict.keys d ++ [k])%list.
Proof.
  unfold Dict.keys, Dict.mem. induction d as [|[k' v'] d IH]; simpl.
  - reflexivity.
  - destruct (String.eqb_spec k' k) as [->|Hne]; simpl.
    + reflexivity.
    + rewrite IH. destruct (Dict.get d k); reflexivity.
Qed.


(* ================================================================== *)
(** ** First match of a loop over the items of a dictionary *)

Section FirstMatch.

Context {V : Type}.
Variable P : V -> Prop.
Variable p : V -> bool.
Hypothesis p_reflects : forall v, p v = true <-> P v.

Lemma find_first_such (items : list (string * V)) :
  match find (fun it => p (snd it)) items with
  | Some (k, v) => first_such P items k v
  | None => Forall (fun it => ~ P (snd it)) items
  end.
Proof.
  induction items as [|[k v] items IH]; simpl.
  - constructor.
  - destruct (p v) eqn:Hv.
    + exists [], items. repeat split; [apply p_reflects; exact Hv | constructor].
    + assert (Hn : ~ P v) by (rewrite <- p_reflects, Hv; discriminate).
      destruct (find (fun it => p (snd it)) items) as [[k' v']|].
      * destruct IH as [before [after [Heq [HP Hb]]]].
        exists ((k, v) :: before), after. subst items.
        repeat split; [exact HP | constructor; assumption].
      * constructor; assumption.
Qed.

End FirstMatch.

Lemma first_such_holds {V : Type} (P : V -> Prop) items k v :
  first_such P items k v -> ~ Forall (fun it => ~ P (snd it)) items.
Proof.
  intros [before [after [Heq [HP _]]]] Hall. subst items.
  apply Forall_app in Hall. destruct Hall as [_ Hall].
  inversion Hall; subst. auto.
Qed.

Lemma first_such_functional {V : Type} (P : V -> Prop) items k v k' v' :
  first_such P items k v -> first_such P items k' v' -> k = k' /\ v = v'.
Proof.
  intros [b1 [a1 [E1 [P1 F1]]]] [b2 [a2 [E2 [P2 F2]]]].
  subst items. revert b2 E2 F2.
  induction b1 as [|x b1 IH]; intros [|y b2] E2 F2; simpl in E2.
  - inversion E2; auto.
  - inversion E2; subst. inversion F2; subst. simpl in *. contradiction.
  - inversion E2; subst. inversion F1; subst. simpl in *. contradiction.
  - inversion E2; subst. inversion F1; inversion F2; subst. eapply IH; eauto.
Qed.

Lemma Forall_and_inv_l {A : Type} (P Q : A -> Prop) l :
  Forall (fun x => P x /\ Q x) l -> Forall P l.
Proof. intros H. eapply Forall_impl; [|exact H]. intros a [Ha _]. exact Ha. Qed.

Lemma Forall_and_inv_r {A : Type} (P Q : A -> Prop) l :
  Forall (fun x => P x /\ Q x) l -> Forall Q l.
Proof. intros H. eapply Forall_impl; [|exact H]. intros a [_ Ha]. exact Ha. Qed.

(** The two-pass relation determines the result. *)
Lemma two_pass_with_functional {V R : Type} (lower : string -> string)
    (alias : V -> string) (pick : string -> V -> R) items name r r' :
  two_pass_with lower alias pick items name r ->
  two_pass_with lower alias pick items name r' ->
  r = r'.
Proof.
  intros [[k [v [H1 ->]]] | [[N1 [k [v [H1 ->]]]] | [N1 ->]]]
         [[k' [v' [H2 ->]]] | [[N2 [k' [v' [H2 ->]]]] | [N2 ->]]].
  - destruct (first_such_functional _ _ _ _ _ _ H1 H2) as [-> ->]. reflexivity.
  - exfalso. exact (first_such_holds _ _ _ _ H1 N2).
  - exfalso. exact (first_such_holds _ _ _ _ H1 (Forall_and_inv_l _ _ _ N2)).
  - exfalso. exact (first_such_holds _ _ _ _ H2 N1).
  - destruct (first_such_functional _ _ _ _ _ _ H1 H2) as [-> ->]. reflexivity.
  - exfalso. exact (first_such_holds _ _ _ _ H1 (Forall_and_inv_r _ _ _ N2)).
  - exfalso. exact (first_such_holds _ _ _ _ H2 (Forall_and_inv_l _ _ _ N1)).
  - exfalso. exact (first_such_holds _ _ _ _ H2 (Forall_and_inv_r _ _ _ N1)).
  - reflexivity.
Qed.

Lemma same_name_reflects (name alias : string) :
  (alias =? name) = true <-> same_name name alias.
Proof. apply String.eqb_eq. Qed.

Lemma similar_name_with_reflects (lower : string -> string)
    (name alias : string) :
  Str.contains (lower name) (lower alias) = true
  <-> similar_name_with lower name alias.
Proof. apply contains_true_iff. Qed.

(** The two loops of a resolver, run one after the other, realise the
    two-pass relation. *)
Lemma two_finds_two_pass {V R : Type} (lower : string -> string)
    (alias : V -> string) (pick : string -> V -> R)
    (items : list (string * V)) (name : string) :
  two_pass_with lower alias pick items name
    (match find (fun it => alias (snd it) =? name) items with
     | Some (k, v) => Some (pick k v)
     | None =>
         match find (fun it => Str.contains (lower name)
                                 (lower (alias (snd it)))) items with
         | Some (k, v) => Some (pick k v)
         | None => None
         end
     end).
Proof.
  pose proof (find_first_such (fun v => same_name name (alias v))
                (fun v => alias v =? name)
                (fun v => same_name_reflects name (alias v)) items) as He.
  pose proof (find_first_such (fun v => similar_name_with lower name (alias v))
                (fun v => Str.contains (lower name) (lower (alias v)))
                (fun v => similar_name_with_reflects lower name (alias v))
                items) as Hf.
  simpl in He, Hf.
  destruct (find (fun it => alias (snd it) =? name) items) as [[k v]|].
  - left. exists k, v. split; [exact He | reflexivity].
  - destruct (find (fun it => Str.contains (lower name)
                                (lower (alias (snd it)))) items) as [[k v]|].
    + right; left. split; [exact He|]. exists k, v. split; [exact Hf | reflexivity].
    + right; right. split; [|reflexivity].
      clear -He Hf. induction items as [|it items IH]; constructor.
      * inversion He; inversion Hf; subst. split; assumption.
      * inversion He; inversion Hf; subst. apply IH; assumption.
Qed.

Lemma exact_workspace_find items name :
  Config.exact_workspace items name
  = match find (fun it => Config.ws_alias (snd it) =? name) items with
    | Some (k, _) => Some k
    | None => None
    end.
Proof.
  induction items as [|[k v] items IH]; simpl; [reflexivity|].
  destruct (Config.ws_alias v =? name); [reflexivity | exact IH].
Qed.

Lemma fuzzy_workspace_with_find lower items name :
  Config.fuzzy_workspace_with lower items name
  = match find (fun it => Str.contains (lower name)
                            (lower (Config.ws_alias (snd it)))) items with
    | Some (k, _) => Some k
    | None => None
    end.
Proof.
  induction items as [|[k v] items IH]; simpl; [reflexivity|].
  destruct (Str.contains (lower name) (lower (Config.ws_alias v)));
    [reflexivity | exact IH].
Qed.

Lemma exact_resource_find items name :
  Config.exact_resource items name
  = match find (fun it => Config.res_alias (snd it) =? name) items with
    | Some (_, v) => Some v
    | None => None
    end.
Proof.
  induction items as [|[k v] items IH]; simpl; [reflexivity|].
  destruct (Config.res_alias v =? name); [reflexivity | exact IH].
Qed.

Lemma fuzzy_resource_with_find lower items name :
  Config.fuzzy_resource_with lower items name
  = match find (fun it => Str.contains (lower name)
                            (lower (Config.res_alias (snd it)))) items with
    | Some (_, v) => Some v
    | None => None
    end.
Proof.
  induction items as [|[k v] items IH]; simpl; [reflexivity|].
  destruct (Str.contains (lower name) (lower (Config.res_alias v)));
    [reflexivity | exact IH].
Qed.

Lemma find_workspace_in_with_two_pass (lower : string -> string)
    (all : all_resources) (name : string) :
  two_pass_with lower Config.ws_alias (fun k _ => k) all name
    (Config.find_workspace_in_with lower all name).
Proof.
  unfold Config.find_workspace_in_with.
  rewrite exact_workspace_find, fuzzy_workspace_with_find.
  pose proof (two_finds_two_pass lower Config.ws_alias (fun k _ => k) all name)
    as H.
  destruct (find (fun it => Config.ws_alias (snd it) =? name) all) as [[k v]|];
    [exact H|].
  destruct (find (fun it => Str.contains (lower name)
              (lower (Config.ws_alias (snd it)))) all) as [[k v]|]; exact H.
Qed.

Lemma find_resource_in_with_two_pass (lower : string -> string)
    (resources : Dict.t resource) (name : string) :
  two_pass_with lower Config.res_alias (fun _ v => v) resources name
    (Config.find_resource_in_with lower resources name).
Proof.
  unfold Config.find_resource_in_with.
  rewrite exact_resource_find, fuzzy_resource_with_find.
  pose proof (two_finds_two_pass lower Config.res_alias (fun _ v => v)
                resources name) as H.
  destruct (find (fun it => Config.res_alias (snd it) =? name) resources)
    as [[k v]|]; [exact H|].
  destruct (find (fun it => Str.contains (lower name)
              (lower (Config.res_alias (snd it)))) resources) as [[k v]|];
    exact H.
Qed.

Lemma find_workspace_in_two_pass (all : all_resources) (name : string) :
  two_pass Config.ws_alias (fun k _ => k) all name
    (Config.find_workspace_in all name).
Proof. apply find_workspace_in_with_two_pass. Qed.

Lemma find_resource_in_two_pass (resources : Dict.t resource) (name : string) :
  two_pass Config.res_alias (fun _ v => v) resources name
    (Config.find_resource_in resources name).
Proof. apply find_resource_in_with_two_pass. Qed.

(* ================================================================== *)
(** ** Running the loads *)

Lemma load_all_resources_run (d : disk) :
  Config.load_all_resources d = (Ret (cached d), d).
Proof.
  unfold Config.load_all_resources, cached. io_unfold.
  destruct (RESOURCES_FILE d) eqn:E; cbn; rewrite ?E; reflexivity.
Qed.

Lemma get_workspace_resources_run (workspace_id : string) (d : disk) :
  Config.get_workspace_resources workspace_id d
  = (Ret (Dict.get (cached d) workspace_id), d).
Proof.
  unfold Config.get_workspace_resources, bind.
  rewrite load_all_resources_run. reflexivity.
Qed.

Lemma find_workspace_by_name_with_run (lower : string -> string)
    (name : string) (d : disk) :
  Config.find_workspace_by_name_with lower name d
  = (Ret (Config.find_workspace_in_with lower (cached d) name), d).
Proof.
  unfold Config.find_workspace_by_name_with, bind.
  rewrite load_all_resources_run. reflexivity.
Qed.

Lemma find_workspace_by_name_run (name : string) (d : disk) :
  Config.find_workspace_by_name name d
  = (Ret (Config.find_workspace_in (cached d) name), d).
Proof. apply find_workspace_by_name_with_run. Qed.

Lemma find_resource_by_name_with_run (lower : string -> string)
    workspace_id resource_type name (d : disk) :
  Config.find_resource_by_name_with lower workspace_id resource_type name d
  = (Ret (match Dict.get (cached d) workspace_id with
          | None => None
          | Some ws_data =>
              if Config.ws_is_empty ws_data then None
              else Config.find_resource_in_with lower
                     (Config.category_map resource_type ws_data) name
          end), d).
Proof.
  unfold Config.find_resource_by_name_with, bind.
  rewrite get_workspace_resources_run.
  destruct (Dict.get (cached d) workspace_id) as [ws_data|]; [|reflexivity].
  destruct (Config.ws_is_empty ws_data); reflexivity.
Qed.

Lemma find_resource_by_name_run workspace_id resource_type name (d : disk) :
  Config.find_resource_by_name workspace_id resource_type name d
  = (Ret (match Dict.get (cached d) workspace_id with
          | None => None
          | Some ws_data =>
              if Config.ws_is_empty ws_data then None
              else Config.find_resource_in
                     (Config.category_map resource_type ws_data) name
          end), d).
Proof. apply find_resource_by_name_with_run. Qed.


Lemma ascii_lowering_lower : ascii_lowering Str.lower.
Proof. intros s _. reflexivity. Qed.

Lemma ws_is_empty_category_map resource_type ws_data :
  Config.ws_is_empty ws_data = true ->
  Config.category_map resource_type ws_data = Dict.empty.
Proof.
  unfold Config.ws_is_empty, Config.category_map.
  destruct ws_data as [i n p c s u]; simpl.
  destruct i, n, p, c, s, u; try discriminate.
  destruct resource_type; reflexivity.
Qed.

Lemma get_cookie_run (d : disk) :
  Config.get_cookie d
  = (Ret (match COOKIE_FILE d with Stored data => Some data | _ => None end), d).
Proof.
  unfold Config.get_cookie. io_unfold.
  destruct (COOKIE_FILE d) eqn:E; cbn; rewrite ?E; reflexivity.
Qed.

Lemma Qgtb_true_iff (a b : Q) : Config.Qgtb a b = true <-> (b < a)%Q.
Proof.
  unfold Config.Qgtb. rewrite negb_true_iff. split.
  - intros H. apply Qnot_le_lt. intros Hle.
    apply Qle_bool_iff in Hle. congruence.
  - intros H. destruct (Qle_bool a b) eqn:E; [|reflexivity].
    apply Qle_bool_iff in E. exfalso. exact (Qlt_not_le _ _ H E).
Qed.

(* ================================================================== *)
(** ** Name resolution *)

(** C2. [find_workspace_by_name], [lower] being what [str.lower] does:
    the call returns and leaves the disk alone; its result is the ID of the
    first cached workspace whose alias equals the query (case-sensitive),
    else the ID of the first cached workspace, in iteration order, whose
    lowered alias contains the lowered query, else nothing; no other result
    fits that description.  With the aliases "GPU-Team" and
    "gpu-team-backup" cached, in either order, the query "GPU-Team" yields
    the ID of the workspace named "GPU-Team"; the query "TEAM", which equals
    neither alias and is contained in both once case is ignored, yields the
    workspace that comes first in the cache; "Backup" yields the second
    workspace and "cpu" nothing. *)
Theorem find_workspace_by_name_two_pass (lower : string -> string)
    (name : string) (d : disk) :
  (exists r,
      Config.find_workspace_by_name_with lower name d = (Ret r, d)
      /\ two_pass_with lower Config.ws_alias (fun ws_id _ => ws_id)
           (cached d) name r
      /\ forall r',
           two_pass_with lower Config.ws_alias (fun ws_id _ => ws_id)
             (cached d) name r'
           -> r' = r)
  /\ forall (id1 id2 : string) (a b : workspace),
       let gpu_team := Config.set_name a "GPU-Team" in
       let backup := Config.set_name b "gpu-team-backup" in
       let d1 := set_RESOURCES_FILE
                   (Stored [(id1, gpu_team); (id2, backup)]) d in
       let d2 := set_RESOURCES_FILE
                   (Stored [(id2, backup); (id1, gpu_team)]) d in
       Config.find_workspace_by_name_with lower "GPU-Team" d1
       = (Ret (Some id1), d1)
       /\ Config.find_workspace_by_name_with lower "GPU-Team" d2
          = (Ret (Some id1), d2)
       /\ (ascii_lowering lower ->
           Config.find_workspace_by_name_with lower "TEAM" d1
           = (Ret (Some id1), d1)
           /\ Config.find_workspace_by_name_with lower "TEAM" d2
              = (Ret (Some id2), d2)
           /\ Config.find_workspace_by_name_with lower "Backup" d1
              = (Ret (Some id2), d1)
           /\ Config.find_workspace_by_name_with lower "cpu" d1
              = (Ret None, d1)).
Proof.
  split.
  - exists (Config.find_workspace_in_with lower (cached d) name).
    split; [apply find_workspace_by_name_with_run|].
    split; [apply find_workspace_in_with_two_pass|].
    intros r' Hr'.
    exact (two_pass_with_functional _ _ _ _ _ _ _ Hr'
             (find_workspace_in_with_two_pass _ _ _)).
  - intros id1 id2 a b gpu_team backup d1 d2.
    unfold d1, d2. rewrite !find_workspace_by_name_with_run.
    split; [reflexivity|]. split; [reflexivity|].
    intros Hl.
    unfold cached, set_RESOURCES_FILE, Config.find_workspace_in_with; cbn.
    lower_literals Hl.
    repeat split; reflexivity.
Qed.

Lemma find_workspace_by_name_two_pass_witness :
  let d1 := set_RESOURCES_FILE
              (Stored [("ws-1", Config.set_name alpha "GPU-Team");
                       ("ws-2", Config.set_name alpha "gpu-team-backup")])
              blank_disk in
  Config.find_workspace_by_name_with Str.lower "GPU-Team" d1
  = (Ret (Some "ws-1"), d1)
  /\ Config.find_workspace_by_name_with Str.lower "TEAM" d1
     = (Ret (Some "ws-1"), d1)
  /\ Config.find_workspace_by_name_with Str.lower "Backup" d1
     = (Ret (Some "ws-2"), d1).
Proof.
  destruct (proj2 (find_workspace_by_name_two_pass Str.lower "" blank_disk)
              "ws-1" "ws-2" alpha alpha) as [H1 [_ H3]].
  destruct (H3 ascii_lowering_lower) as [H4 [_ [H5 _]]].
  split; [exact H1|]. split; [exact H4 | exact H5].
Defined.

(** C7. [find_resource_by_name], [lower] being what [str.lower] does: the
    call returns and leaves the disk alone.  It returns nothing when the
    workspace has no cache entry; otherwise it searches the map the entry
    holds for the requested category ([projects], [compute_groups] or
    [specs]; the empty map when the entry has none), and only that map: the
    record returned is the first one whose name equals the query, else the
    first one, in iteration order, whose lowered name contains the lowered
    query, else nothing.  On a cache whose workspace "ws-1" has the project
    "Vision" and the compute groups "H100-pool" and "h100-pool-2": among
    the compute groups "H100-POOL" finds "H100-pool", "h100-pool-2" finds
    the group of that name and "vision" finds nothing; among the projects
    "vision" finds the project; in a workspace that is not cached nothing
    is found. *)
Theorem find_resource_by_name_two_pass (lower : string -> string)
    (workspace_id : string) (resource_type : category) (name : string)
    (d : disk) :
  (exists r,
      Config.find_resource_by_name_with lower workspace_id resource_type name d
      = (Ret r, d)
      /\ match Dict.get (cached d) workspace_id with
         | None => r = None
         | Some ws_data =>
             let stored := match resource_type with
                           | Projects => ws_projects ws_data
                           | ComputeGroups => ws_compute_groups ws_data
                           | Specs => ws_specs ws_data
                           end in
             let resources := match stored with
                              | Some m => m
                              | None => Dict.empty
                              end in
             two_pass_with lower Config.res_alias (fun _ res_data => res_data)
               resources name r
             /\ forall r',
                  two_pass_with lower Config.res_alias
                    (fun _ res_data => res_data) resources name r'
                  -> r' = r
         end)
  /\ (ascii_lowering lower ->
      Config.find_resource_by_name_with lower "ws-1" ComputeGroups "H100-POOL"
        pools_disk = (Ret (Some lcg_a), pools_disk)
      /\ Config.find_resource_by_name_with lower "ws-1" ComputeGroups
           "h100-pool-2" pools_disk = (Ret (Some lcg_b), pools_disk)
      /\ Config.find_resource_by_name_with lower "ws-1" ComputeGroups "vision"
           pools_disk = (Ret None, pools_disk)
      /\ Config.find_resource_by_name_with lower "ws-1" Projects "vision"
           pools_disk = (Ret (Some proj_a), pools_disk)
      /\ Config.find_resource_by_name_with lower "ws-2" Projects "vision"
           pools_disk = (Ret None, pools_disk)).
Proof.
  split.
  - eexists. split; [apply find_resource_by_name_with_run|].
    destruct (Dict.get (cached d) workspace_id) as [ws_data|]; [|reflexivity].
    cbv zeta.
    change (match
              match resource_type with
              | Projects => ws_projects ws_data
              | ComputeGroups => ws_compute_groups ws_data
              | Specs => ws_specs ws_data
              end
            with
            | Some m => m
            | None => Dict.empty
            end) with (Config.category_map resource_type ws_data).
    assert (H : two_pass_with lower Config.res_alias (fun _ res_data => res_data)
                  (Config.category_map resource_type ws_data) name
                  (if Config.ws_is_empty ws_data then None
                   else Config.find_resource_in_with lower
                          (Config.category_map resource_type ws_data) name)).
    { destruct (Config.ws_is_empty ws_data) eqn:E.
      - rewrite (ws_is_empty_category_map _ _ E).
        right; right. split; [constructor | reflexivity].
      - apply find_resource_in_with_two_pass. }
    split; [exact H|].
    intros r' Hr'. exact (two_pass_with_functional _ _ _ _ _ _ _ Hr' H).
  - intros Hl. rewrite !find_resource_by_name_with_run.
    unfold Config.find_resource_in_with; cbn.
    lower_literals Hl.
    repeat split; reflexivity.
Qed.

Lemma find_resource_by_name_two_pass_witness :
  Config.find_resource_by_name_with Str.lower "ws-1" ComputeGroups "H100-POOL"
    pools_disk = (Ret (Some lcg_a), pools_disk)
  /\ Config.find_resource_by_name_with Str.lower "ws-1" ComputeGroups "vision"
       pools_disk = (Ret None, pools_disk)
  /\ Config.find_resource_by_name_with Str.lower "ws-1" Projects "vision"
       pools_disk = (Ret (Some proj_a), pools_disk).
Proof.
  destruct (proj2 (find_resource_by_name_two_pass Str.lower "" Projects ""
                     blank_disk) ascii_lowering_lower)
    as [H1 [_ [H3 [H4 _]]]].
  split; [exact H1|]. split; [exact H3 | exact H4].
Defined.

(* ================================================================== *)
(** ** Token cache and cookie *)

Lemma get_token_cache_run (now : Q) (d : disk) :
  Config.get_token_cache now d
  = (Ret (match TOKEN_CACHE_FILE d with
          | Stored cache =>
              if Config.Qgtb (Config.expires_at cache) (now + 300)%Q
              then Some cache else None
          | _ => None
          end), d).
Proof.
  unfold Config.get_token_cache. io_unfold.
  destruct (TOKEN_CACHE_FILE d) as [| | |doc|doc] eqn:E; cbn; rewrite ?E;
    try reflexivity.
  destruct (Config.Qgtb (Config.expires_at doc) (now + 300)%Q); reflexivity.
Qed.

Lemma ensure_config_dir_run (d : disk) :
  Config.ensure_config_dir d
  = if dir_ok d then (Ret tt, set_CONFIG_DIR DirPresent d) else (Raise OSError, d).
Proof.
  unfold Config.ensure_config_dir, dir_ok. destruct (CONFIG_DIR d); reflexivity.
Qed.

(** C9. When the configuration directory can be created and the write goes
    through, [save_cookie] returns, the cookie document is exactly the
    record just built from its arguments, whatever the file held before,
    and [get_cookie] then returns that record: its [cookie] and
    [workspace_id] are the values saved. *)
Theorem save_cookie_get_cookie (now : Q) (cookie workspace_id : string)
    (d : disk) :
  dir_ok d = true ->
  exists d',
    Config.save_cookie NoFault now cookie workspace_id d = (Ret tt, d')
    /\ COOKIE_FILE d'
       = Stored (mkCookie (Some cookie) (Some workspace_id) (Some now))
    /\ exists data,
         Config.get_cookie d' = (Ret (Some data), d')
         /\ ck_cookie data = Some cookie
         /\ ck_workspace_id data = Some workspace_id.
Proof.
  intros Hdir. unfold Config.save_cookie, bind.
  rewrite ensure_config_dir_run, Hdir.
  eexists. split; [reflexivity|]. split; [reflexivity|].
  eexists. rewrite get_cookie_run. repeat split.
Qed.

Lemma save_cookie_get_cookie_witness :
  exists d',
    Config.save_cookie NoFault 2%Q "sid=abc" "ws-1" alpha_disk = (Ret tt, d')
    /\ COOKIE_FILE d' = Stored (mkCookie (Some "sid=abc") (Some "ws-1") (Some 2%Q))
    /\ exists data,
         Config.get_cookie d' = (Ret (Some data), d')
         /\ ck_cookie data = Some "sid=abc"
         /\ ck_workspace_id data = Some "ws-1".
Proof.
  apply (save_cookie_get_cookie 2%Q "sid=abc" "ws-1" alpha_disk). reflexivity.
Defined.

(* ================================================================== *)
(** ** Loading the configuration *)

Lemma load_config_run (d : disk) :
  Config.load_config d
  = if dir_ok d then
      (Ret (match CONFIG_FILE d with
            | Stored cfg => Dict.update Config.DEFAULT_CONFIG cfg
            | _ => Config.DEFAULT_CONFIG
            end), set_CONFIG_DIR DirPresent d)
    else (Raise OSError, d).
Proof.
  unfold Config.load_config, bind at 1.
  rewrite ensure_config_dir_run. destruct (dir_ok d); [|reflexivity].
  io_unfold.
  destruct (CONFIG_FILE d) eqn:E; unfold set_CONFIG_DIR; cbn; rewrite ?E;
    reflexivity.
Qed.

(** [load_config] creates the configuration directory before it looks at
    the file, outside its [try]: on a disk where the directory cannot be
    created the configuration file is missing and the call raises the I/O
    error. *)
Example load_config_blocked_dir_raises :
  CONFIG_FILE blocked_disk = Missing
  /\ Config.load_config blocked_disk = (Raise OSError, blocked_disk).
Proof. split; reflexivity. Qed.

(* ================================================================== *)
(** ** Writing the resource cache *)

Lemma save_resources_run (flt : write_fault) (now : Q) (workspace_id : string)
    (resources : fetched) (name : string) (d : disk) :
  Config.save_resources flt now workspace_id resources name d
  = if dir_ok d then
      let doc := Dict.set (cached d) workspace_id
                   (Config.refreshed now (cached d) workspace_id resources name) in
      let d1 := set_CONFIG_DIR DirPresent d in
      match flt with
      | NoFault => (Ret tt, set_RESOURCES_FILE (Stored doc) d1)
      | FailOpen => (Raise OSError, d1)
      | FailWrite => (Raise OSError, set_RESOURCES_FILE (Torn doc) d1)
      end
    else (Raise OSError, d).
Proof.
  unfold Config.save_resources, bind.
  rewrite ensure_config_dir_run. destruct (dir_ok d); [|reflexivity].
  rewrite load_all_resources_run.
  change (cached (set_CONFIG_DIR DirPresent d)) with (cached d).
  destruct flt; reflexivity.
Qed.

Lemma set_workspace_name_run (flt : write_fault) (now : Q)
    (workspace_id name : string) (d : disk) :
  Config.set_workspace_name flt now workspace_id name d
  = if dir_ok d then
      let doc := Config.rename_in now (cached d) workspace_id name in
      let d1 := set_CONFIG_DIR DirPresent d in
      match flt with
      | NoFault => (Ret true, set_RESOURCES_FILE (Stored doc) d1)
      | FailOpen => (Raise OSError, d1)
      | FailWrite => (Raise OSError, set_RESOURCES_FILE (Torn doc) d1)
      end
    else (Raise OSError, d).
Proof.
  unfold Config.set_workspace_name, bind.
  rewrite load_all_resources_run, ensure_config_dir_run.
  destruct (dir_ok d); [|reflexivity].
  destruct flt; reflexivity.
Qed.

(** C1, as stated, fails: the cache file is opened with mode "w", which
    truncates it, and the document is written into it in place.  On a disk
    whose cache holds the workspace "ws-1", a [save_resources] (and likewise
    a [set_workspace_name]) whose write fails leaves a torn file behind: the
    stored document is gone and the next load yields the empty map. *)
Lemma failed_write_truncates_cache :
  Config.load_all_resources alpha_disk = (Ret [("ws-1", alpha)], alpha_disk)
  /\ (exists d',
        Config.save_resources FailWrite 2000%Q "ws-1"
          (mkFetched (Some [proj_a]) None None) "" alpha_disk
        = (Raise OSError, d')
        /\ RESOURCES_FILE d' <> RESOURCES_FILE alpha_disk
        /\ Config.load_all_resources d' = (Ret [], d'))
  /\ (exists d',
        Config.set_workspace_name FailWrite 2000%Q "ws-1" "Beta" alpha_disk
        = (Raise OSError, d')
        /\ RESOURCES_FILE d' <> RESOURCES_FILE alpha_disk
        /\ Config.load_all_resources d' = (Ret [], d')).
Proof.
  split; [reflexivity|]. split.
  - exists (snd (Config.save_resources FailWrite 2000%Q "ws-1"
                   (mkFetched (Some [proj_a]) None None) "" alpha_disk)).
    split; [reflexivity|]. split; [discriminate | reflexivity].
  - exists (snd (Config.set_workspace_name FailWrite 2000%Q "ws-1" "Beta"
                   alpha_disk)).
    split; [reflexivity|]. split; [discriminate | reflexivity].
Qed.

(** C1, amended. A [save_resources] or [set_workspace_name] that fails
    raises an I/O error and either failed before the cache file was opened
    for writing (the configuration directory could not be created, or the
    open itself failed), and then the file is as it was; or failed during
    the write, and then the file, truncated on open, holds only a part of
    the new document. *)
Theorem failed_write_old_or_torn (flt : write_fault) (now : Q)
    (workspace_id name : string) (resources : fetched) (d : disk) :
  (forall e d',
      Config.save_resources flt now workspace_id resources name d = (Raise e, d')
      -> e = OSError
         /\ ((RESOURCES_FILE d' = RESOURCES_FILE d
              /\ (dir_ok d = false \/ flt = FailOpen))
             \/ (flt = FailWrite
                 /\ dir_ok d = true
                 /\ RESOURCES_FILE d'
                    = Torn (Dict.set (cached d) workspace_id
                              (Config.refreshed now (cached d) workspace_id
                                 resources name)))))
  /\ (forall e d',
        Config.set_workspace_name flt now workspace_id name d = (Raise e, d')
        -> e = OSError
           /\ ((RESOURCES_FILE d' = RESOURCES_FILE d
                /\ (dir_ok d = false \/ flt = FailOpen))
               \/ (flt = FailWrite
                   /\ dir_ok d = true
                   /\ RESOURCES_FILE d'
                      = Torn (Config.rename_in now (cached d) workspace_id
                                name)))).
Proof.
  split; intros e d' H.
  - rewrite save_resources_run in H. destruct (dir_ok d) eqn:Hdir.
    + destruct flt; cbv zeta in H; inversion H; subst; clear H.
      * split; [reflexivity|]. left. split; [reflexivity | right; reflexivity].
      * split; [reflexivity|]. right. repeat split.
    + inversion H; subst. split; [reflexivity|]. left. split; [reflexivity | left; reflexivity].
  - rewrite set_workspace_name_run in H. destruct (dir_ok d) eqn:Hdir.
    + destruct flt; cbv zeta in H; inversion H; subst; clear H.
      * split; [reflexivity|]. left. split; [reflexivity | right; reflexivity].
      * split; [reflexivity|]. right. repeat split.
    + inversion H; subst. split; [reflexivity|]. left. split; [reflexivity | left; reflexivity].
Qed.

Lemma failed_write_old_or_torn_witness :
  let d := alpha_disk in
  let d' := snd (Config.set_workspace_name FailWrite 2000%Q "ws-1" "Beta" d) in
  OSError = OSError
  /\ ((RESOURCES_FILE d' = RESOURCES_FILE d
       /\ (dir_ok d = false \/ FailWrite = FailOpen))
      \/ (FailWrite = FailWrite
          /\ dir_ok d = true
          /\ RESOURCES_FILE d'
             = Torn (Config.rename_in 2000%Q (cached d) "ws-1" "Beta"))).
Proof.
  apply (proj2 (failed_write_old_or_torn FailWrite 2000%Q "ws-1" "Beta"
                  (mkFetched None None None) alpha_disk) OSError).
  reflexivity.
Defined.

(* ================================================================== *)
(** ** What [save_resources] and [set_workspace_name] store *)

Lemma find_app_last {A : Type} (p : A -> bool) (l : list A) (x : A) :
  find p (l ++ [x])
  = match find p l with
    | Some y => Some y
    | None => if p x then Some x else None
    end.
Proof.
  induction l as [|y l IH]; simpl; [reflexivity|].
  destruct (p y); [reflexivity | exact IH].
Qed.

Lemma get_fold_set {V : Type} (key : V -> string) (l : list V)
    (acc : Dict.t V) (k : string) :
  Dict.get (fold_left (fun acc x => Dict.set acc (key x) x) l acc) k
  = match find_last (fun x => key x =? k) l with
    | Some x => Some x
    | None => Dict.get acc k
    end.
Proof.
  unfold find_last. revert acc.
  induction l as [|x l IH]; intros acc; simpl; [reflexivity|].
  rewrite IH, find_app_last.
  destruct (find (fun x0 => key x0 =? k) (rev l)); [reflexivity|].
  destruct (String.eqb_spec (key x) k) as [<-|Hne].
  - apply get_set_same.
  - apply get_set_other. congruence.
Qed.

(** Looking an ID up in [{p["id"]: p for p in l}] gives the last element
    of [l] with that ID. *)
Lemma get_of_list {V : Type} (key : V -> string) (l : list V) (k : string) :
  Dict.get (Dict.of_list key l) k = find_last (fun x => key x =? k) l.
Proof.
  unfold Dict.of_list. rewrite get_fold_set.
  destruct (find_last (fun x => key x =? k) l); reflexivity.
Qed.

Lemma or_else_nonempty (name dflt : string) :
  name <> "" -> Str.or_else name dflt = name.
Proof.
  intros H. unfold Str.or_else, Str.truthy.
  destruct (String.eqb_spec name ""); [contradiction | reflexivity].
Qed.

(** C3. When the configuration directory can be created and the write goes
    through, [save_resources] returns and the cache then holds, under the
    workspace ID, an entry whose three maps are built from the supplied
    lists alone, each record stored under its own [id] (the last one when an
    ID repeats), whose [updated_at] is the current time, and whose alias is
    the supplied name when that is non-empty and the alias stored before
    (the empty string when there was none) otherwise; the entries of the
    other workspaces are as they were. *)
Theorem save_resources_replaces_entry (now : Q) (workspace_id : string)
    (resources : fetched) (name : string) (d : disk) :
  dir_ok d = true ->
  exists d' entry,
    Config.save_resources NoFault now workspace_id resources name d = (Ret tt, d')
    /\ Dict.get (cached d') workspace_id = Some entry
    /\ (exists projects compute_groups specs,
          ws_projects entry = Some projects
          /\ ws_compute_groups entry = Some compute_groups
          /\ ws_specs entry = Some specs
          /\ forall k,
               Dict.get projects k
               = find_last (fun p => res_id p =? k) (listed (f_projects resources))
               /\ Dict.get compute_groups k
                  = find_last (fun g => res_id g =? k)
                      (listed (f_compute_groups resources))
               /\ Dict.get specs k
                  = find_last (fun s => res_id s =? k)
                      (listed (f_specs resources)))
    /\ ws_updated_at entry = Some now
    /\ (name <> "" -> ws_name entry = Some name)
    /\ (name = "" ->
        Config.ws_alias entry
        = match Dict.get (cached d) workspace_id with
          | Some previous => Config.ws_alias previous
          | None => ""
          end)
    /\ forall other,
         other <> workspace_id ->
         Dict.get (cached d') other = Dict.get (cached d) other.
Proof.
  intros Hdir. rewrite save_resources_run, Hdir. cbv zeta.
  eexists. eexists. split; [reflexivity|].
  change (cached (set_RESOURCES_FILE (Stored ?doc) _)) with doc.
  split; [apply get_set_same|].
  split.
  { eexists. eexists. eexists. repeat split; apply get_of_list. }
  split; [reflexivity|].
  split.
  { intros Hname. cbn. rewrite (or_else_nonempty _ _ Hname). reflexivity. }
  split.
  { intros ->. reflexivity. }
  intros other Hother. apply get_set_other. exact Hother.
Qed.

Lemma save_resources_replaces_entry_witness :
  exists d' entry,
    Config.save_resources NoFault 2000%Q "ws-1"
      (mkFetched (Some [proj_a]) None None) "" alpha_disk = (Ret tt, d')
    /\ Dict.get (cached d') "ws-1" = Some entry
    /\ ws_updated_at entry = Some 2000%Q
    /\ Config.ws_alias entry = "Alpha"
    /\ ws_compute_groups entry = Some [].
Proof.
  destruct (save_resources_replaces_entry 2000%Q "ws-1"
              (mkFetched (Some [proj_a]) None None) "" alpha_disk eq_refl)
    as [d' [entry [Hrun [Hget [_ [Hup [_ [Halias _]]]]]]]].
  exists d', entry. split; [exact Hrun|]. split; [exact Hget|].
  split; [exact Hup|]. split; [exact (Halias eq_refl)|].
  rewrite save_resources_run in Hrun. cbn in Hrun.
  inversion Hrun; subst d'. cbn in Hget. inversion Hget. reflexivity.
Defined.

Lemma set_workspace_name_value (flt : write_fault) (now : Q)
    (workspace_id name : string) (d : disk) :
  fst (Config.set_workspace_name flt now workspace_id name d) = Ret true
  \/ fst (Config.set_workspace_name flt now workspace_id name d) = Raise OSError.
Proof.
  rewrite set_workspace_name_run.
  destruct (dir_ok d), flt; cbn; auto.
Qed.

(** C6. Whenever [set_workspace_name] returns, it returns true, and it does
    return when the configuration directory can be created and the write
    goes through.  A workspace without a cache entry then gets a new entry
    with the given name and three empty maps; an existing entry gets the
    given name and keeps its [id], [projects], [compute_groups], [specs]
    and [updated_at]; the entries of all other workspaces, their order, and
    the other files are as they were. *)
Theorem set_workspace_name_changes_alias_only (now : Q)
    (workspace_id name : string) (d : disk) :
  dir_ok d = true ->
  exists d',
    Config.set_workspace_name NoFault now workspace_id name d = (Ret true, d')
    /\ (forall flt d0,
          fst (Config.set_workspace_name flt now workspace_id name d0) = Ret true
          \/ fst (Config.set_workspace_name flt now workspace_id name d0)
             = Raise OSError)
    /\ (Dict.get (cached d) workspace_id = None ->
        Dict.get (cached d') workspace_id
        = Some (mkWorkspace (Some workspace_id) (Some name)
                  (Some Dict.empty) (Some Dict.empty) (Some Dict.empty)
                  (Some now))
        /\ Dict.keys (cached d') = (Dict.keys (cached d) ++ [workspace_id])%list)
    /\ (forall ws_data,
          Dict.get (cached d) workspace_id = Some ws_data ->
          (exists ws_data',
              Dict.get (cached d') workspace_id = Some ws_data'
              /\ ws_name ws_data' = Some name
              /\ ws_id ws_data' = ws_id ws_data
              /\ ws_projects ws_data' = ws_projects ws_data
              /\ ws_compute_groups ws_data' = ws_compute_groups ws_data
              /\ ws_specs ws_data' = ws_specs ws_data
              /\ ws_updated_at ws_data' = ws_updated_at ws_data)
          /\ Dict.keys (cached d') = Dict.keys (cached d))
    /\ (forall other,
          other <> workspace_id ->
          Dict.get (cached d') other = Dict.get (cached d) other)
    /\ CONFIG_FILE d' = CONFIG_FILE d
    /\ TOKEN_CACHE_FILE d' = TOKEN_CACHE_FILE d
    /\ COOKIE_FILE d' = COOKIE_FILE d.
Proof.
  intros Hdir. rewrite set_workspace_name_run, Hdir. cbv zeta.
  eexists. split; [reflexivity|].
  split; [intros flt d0; apply set_workspace_name_value|].
  change (cached (set_RESOURCES_FILE (Stored ?doc) _)) with doc.
  unfold Config.rename_in.
  split.
  { intros Hnone. rewrite Hnone. split; [apply get_set_same|].
    rewrite keys_set. unfold Dict.mem. rewrite Hnone. reflexivity. }
  split.
  { intros ws_data Hsome. rewrite Hsome. split.
    - eexists. split; [apply get_set_same|]. repeat split.
    - rewrite keys_set. unfold Dict.mem. rewrite Hsome. reflexivity. }
  split.
  { intros other Hother.
    destruct (Dict.get (cached d) workspace_id);
      apply get_set_other; exact Hother. }
  repeat split.
Qed.

Lemma set_workspace_name_changes_alias_only_witness :
  exists d',
    Config.set_workspace_name NoFault 2000%Q "ws-1" "Beta" alpha_disk
    = (Ret true, d')
    /\ cached d' = [("ws-1", Config.set_name alpha "Beta")].
Proof.
  destruct (set_workspace_name_changes_alias_only 2000%Q "ws-1" "Beta"
              alpha_disk eq_refl) as [d' [Hrun _]].
  exists d'. split; [exact Hrun|].
  rewrite set_workspace_name_run in Hrun. cbn in Hrun.
  inversion Hrun. reflexivity.
Defined.

(* ================================================================== *)
(** ** The order on strings *)

Lemma ascii_compare_refl (c : ascii) : Ascii.compare c c = Eq.
Proof. unfold Ascii.compare. apply N.compare_refl. Qed.

Lemma string_compare_refl (s : string) : String.compare s s = Eq.
Proof.
  induction s as [|c s IH]; simpl; [reflexivity|].
  rewrite ascii_compare_refl. exact IH.
Qed.

Lemma ascii_compare_lt_trans (a b c : ascii) :
  Ascii.compare a b = Lt -> Ascii.compare b c = Lt -> Ascii.compare a c = Lt.
Proof.
  unfold Ascii.compare. rewrite !N.compare_lt_iff. apply N.lt_trans.
Qed.

Lemma string_leb_trans (a b c : string) :
  String.leb a b = true -> String.leb b c = true -> String.leb a c = true.
Proof.
  unfold String.leb. revert b c.
  induction a as [|x a IH]; intros [|y b] [|z c]; simpl; try reflexivity;
    try discriminate.
  destruct (Ascii.compare x y) eqn:Exy; try discriminate;
    destruct (Ascii.compare y z) eqn:Eyz; try discriminate; intros Hab Hbc.
  - apply Ascii.compare_eq_iff in Exy, Eyz. subst.
    rewrite ascii_compare_refl. eapply IH; eassumption.
  - apply Ascii.compare_eq_iff in Exy. subst. rewrite Eyz. reflexivity.
  - apply Ascii.compare_eq_iff in Eyz. subst. rewrite Exy. reflexivity.
  - rewrite (ascii_compare_lt_trans _ _ _ Exy Eyz). reflexivity.
Qed.

Lemma string_ltb_leb (a b : string) :
  String.ltb a b = true -> String.leb a b = true.
Proof.
  unfold String.ltb, String.leb. destruct (String.compare a b); congruence.
Qed.

Lemma string_ltb_false_leb (a b : string) :
  String.ltb a b = false -> String.leb b a = true.
Proof.
  unfold String.ltb, String.leb. rewrite (String.compare_antisym b a).
  destruct (String.compare a b); simpl; congruence.
Qed.

Lemma string_ltb_irrefl (a : string) : String.ltb a a = false.
Proof. unfold String.ltb. rewrite string_compare_refl. reflexivity. Qed.

Lemma string_leb_empty (s : string) : String.leb s "" = true -> s = "".
Proof. destruct s; [reflexivity | discriminate]. Qed.

(* ================================================================== *)
(** ** Sorting and slicing the job list *)

Lemma insert_desc_perm (x : JobRecord) (l : list JobRecord) :
  Permutation (Cli.insert_desc x l) (x :: l).
Proof.
  induction l as [|y l IH]; simpl; [apply Permutation_refl|].
  destruct (String.ltb (Cli.created_key x) (Cli.created_key y)).
  - eapply Permutation_trans; [apply perm_skip; exact IH | apply perm_swap].
  - apply Permutation_refl.
Qed.

Lemma sort_desc_perm (l : list JobRecord) : Permutation (Cli.sort_desc l) l.
Proof.
  induction l as [|x l IH]; simpl; [constructor|].
  eapply Permutation_trans; [apply insert_desc_perm | apply perm_skip; exact IH].
Qed.

Lemma key_ge_trans (a b c : JobRecord) :
  key_ge a b -> key_ge b c -> key_ge a c.
Proof. unfold key_ge. intros Hab Hbc. eapply string_leb_trans; eassumption. Qed.

Lemma insert_desc_sorted (x : JobRecord) (l : list JobRecord) :
  StronglySorted key_ge l -> StronglySorted key_ge (Cli.insert_desc x l).
Proof.
  induction l as [|y l IH]; intros Hs; simpl.
  - constructor; constructor.
  - inversion Hs as [|? ? Hl Hy]; subst.
    destruct (String.ltb (Cli.created_key x) (Cli.created_key y)) eqn:E.
    + constructor; [apply IH; exact Hl|].
      eapply Permutation_Forall; [apply Permutation_sym, insert_desc_perm|].
      constructor; [exact (string_ltb_leb _ _ E) | exact Hy].
    + assert (Hxy : key_ge x y) by exact (string_ltb_false_leb _ _ E).
      constructor; [exact Hs|].
      constructor; [exact Hxy|].
      eapply Forall_impl; [|exact Hy]. intros z Hz.
      exact (key_ge_trans _ _ _ Hxy Hz).
Qed.

Lemma sort_desc_sorted (l : list JobRecord) :
  StronglySorted key_ge (Cli.sort_desc l).
Proof.
  induction l as [|x l IH]; simpl; [constructor|].
  apply insert_desc_sorted. exact IH.
Qed.

(** The sort is stable: records with the same key keep their order. *)
Lemma insert_desc_stable (k : string) (x : JobRecord) (l : list JobRecord) :
  filter (fun j => Cli.created_key j =? k) (Cli.insert_desc x l)
  = filter (fun j => Cli.created_key j =? k) (x :: l).
Proof.
  induction l as [|y l IH]; [reflexivity|].
  cbn [Cli.insert_desc].
  destruct (String.ltb (Cli.created_key x) (Cli.created_key y)) eqn:E;
    [|reflexivity].
  cbn [filter] in *. rewrite IH.
  destruct (String.eqb_spec (Cli.created_key x) k) as [Hx|Hx];
    destruct (String.eqb_spec (Cli.created_key y) k) as [Hy|Hy];
    try reflexivity.
  rewrite Hx, Hy, string_ltb_irrefl in E. discriminate.
Qed.

Lemma sort_desc_stable (k : string) (l : list JobRecord) :
  filter (fun j => Cli.created_key j =? k) (Cli.sort_desc l)
  = filter (fun j => Cli.created_key j =? k) l.
Proof.
  induction l as [|x l IH]; [reflexivity|].
  cbn [Cli.sort_desc fold_right]. rewrite insert_desc_stable.
  cbn [filter]. fold (Cli.sort_desc l). rewrite IH. reflexivity.
Qed.

Lemma sorted_tail_after_missing (l before after : list JobRecord)
    (x : JobRecord) :
  StronglySorted key_ge l ->
  l = (before ++ x :: after)%list ->
  job_created_at x = None ->
  Forall (fun y => created_or_empty y = "") after.
Proof.
  intros Hs -> Hx.
  assert (Hk : created_or_empty x = "")
    by (unfold created_or_empty; rewrite Hx; reflexivity).
  revert Hs.
  induction before as [|b before IH]; simpl; intros Hs.
  - inversion Hs as [|? ? _ Hall]; subst.
    eapply Forall_impl; [|exact Hall]. intros y Hy.
    unfold key_ge in Hy. rewrite Hk in Hy. apply string_leb_empty. exact Hy.
  - inversion Hs; subst. apply IH. assumption.
Qed.

Lemma filter_perm {A : Type} (p : A -> bool) (l l' : list A) :
  Permutation l l' -> Permutation (filter p l) (filter p l').
Proof.
  induction 1 as [|x l l' _ IH|x y l|l l' l'' _ IH1 _ IH2]; simpl.
  - constructor.
  - destruct (p x); [apply perm_skip|]; exact IH.
  - destruct (p x), (p y); try apply Permutation_refl. apply perm_swap.
  - eapply Permutation_trans; eassumption.
Qed.

Lemma slice_to_prefix {A : Type} (n : Z) (l : list A) :
  exists rest, l = (Cli.slice_to n l ++ rest)%list.
Proof.
  unfold Cli.slice_to. destruct (0 <=? n)%Z.
  - exists (skipn (Z.to_nat n) l). symmetry. apply firstn_skipn.
  - exists (skipn (List.length l - Z.to_nat (- n)) l). symmetry. apply firstn_skipn.
Qed.

Lemma slice_to_length {A : Type} (n : Z) (l : list A) :
  Z.of_nat (List.length (Cli.slice_to n l))
  = if (0 <=? n)%Z then Z.min n (Z.of_nat (List.length l))
    else Z.max 0 (Z.of_nat (List.length l) + n).
Proof.
  unfold Cli.slice_to. destruct (Z.leb_spec 0 n); rewrite length_firstn; lia.
Qed.

Lemma status_matches_iff (lower : string -> string) (status : string)
    (j : JobRecord) :
  Cli.status_matches lower status j = true
  <-> substring (lower status) (lower (job_status j)).
Proof. apply contains_true_iff. Qed.

(** C5. The jobs [cmd_list_cookie] displays are obtained in three steps,
    [lower] being what [str.lower] does.  The records are first sorted on
    [created_at], larger values first, a missing value counting as the
    empty string: the sorted list is a rearrangement of the input, in
    descending order, records with equal values in their original order,
    and nothing with a non-empty [created_at] comes after a record without
    one.  Then, when a status filter is given, exactly the records whose
    lowered status contains the lowered filter are kept, in sorted order.
    The limit is applied last: the result is the slice [[:limit]] of the
    kept records, a prefix of them; when [limit] is not negative these are
    their first [limit] elements.  Of four jobs with the statuses
    "job_running", "Running" (no [created_at]), "job_succeeded" and
    "RUNNING", the filter "running" keeps three, newest first and the one
    without [created_at] last, and under the limit 2 the two newest of
    these three. *)
Theorem list_cookie_jobs_pipeline (lower : string -> string)
    (status : option string) (limit : Z) (jobs : list JobRecord) :
  let sorted := Cli.sort_desc jobs in
  let kept := match Cli.given status with
              | Some s => filter (Cli.status_matches lower s) sorted
              | None => sorted
              end in
  Permutation sorted jobs
  /\ StronglySorted key_ge sorted
  /\ (forall k,
        filter (fun j => created_or_empty j =? k) sorted
        = filter (fun j => created_or_empty j =? k) jobs)
  /\ (forall before x after,
        sorted = (before ++ x :: after)%list ->
        job_created_at x = None ->
        Forall (fun y => job_created_at y = None \/ job_created_at y = Some "")
          after)
  /\ (forall s j,
        Cli.status_matches lower s j = true
        <-> substring (lower s) (lower (job_status j)))
  /\ (forall s,
        Cli.given status = Some s ->
        (forall j,
            In j kept
            <-> In j jobs /\ substring (lower s) (lower (job_status j)))
        /\ Permutation kept (filter (Cli.status_matches lower s) jobs))
  /\ (Cli.given status = None -> kept = sorted)
  /\ (forall running,
        Cli.list_cookie_jobs lower status running limit jobs
        = Cli.slice_to limit
            (if running then filter (Cli.is_active lower) kept else kept))
  /\ Cli.list_cookie_jobs lower status false limit jobs
     = Cli.slice_to limit kept
  /\ (exists rest, kept = (Cli.slice_to limit kept ++ rest)%list)
  /\ Z.of_nat (List.length (Cli.slice_to limit kept))
     = (if (0 <=? limit)%Z then Z.min limit (Z.of_nat (List.length kept))
        else Z.max 0 (Z.of_nat (List.length kept) + limit))
  /\ ((0 <= limit)%Z -> Cli.slice_to limit kept = firstn (Z.to_nat limit) kept)
  /\ (ascii_lowering lower ->
      map job_id (Cli.list_cookie_jobs lower (Some "running") false 20
                    sample_jobs)
      = ["job-3"; "job-1"; "job-0"]
      /\ map job_id (Cli.list_cookie_jobs lower (Some "running") false 2
                       sample_jobs)
         = ["job-3"; "job-1"]
      /\ map job_id (Cli.list_cookie_jobs lower None false 3 sample_jobs)
         = ["job-3"; "job-2"; "job-1"]).
Proof.
  intros sorted kept.
  assert (Hperm : Permutation sorted jobs) by apply sort_desc_perm.
  assert (Hsorted : StronglySorted key_ge sorted) by apply sort_desc_sorted.
  split; [exact Hperm|]. split; [exact Hsorted|].
  split; [intros k; exact (sort_desc_stable k jobs)|].
  split.
  { intros before x after Heq Hx.
    pose proof (sorted_tail_after_missing _ _ _ _ Hsorted Heq Hx) as Ht.
    eapply Forall_impl; [|exact Ht]. intros y Hy. unfold created_or_empty in Hy.
    destruct (job_created_at y); [right; rewrite Hy|left]; reflexivity. }
  split; [intros s j; apply status_matches_iff|].
  split.
  { intros s Hs. subst kept. rewrite Hs. split.
    - intros j. rewrite filter_In, status_matches_iff. split.
      + intros [Hin Hm]. split; [|exact Hm].
        eapply Permutation_in; [exact Hperm | exact Hin].
      + intros [Hin Hm]. split; [|exact Hm].
        eapply Permutation_in; [apply Permutation_sym; exact Hperm | exact Hin].
    - apply filter_perm. exact Hperm. }
  split.
  { intros Hs. subst kept. rewrite Hs. reflexivity. }
  split.
  { intros running. unfold Cli.list_cookie_jobs. subst kept sorted.
    destruct (Cli.given status); reflexivity. }
  split.
  { unfold Cli.list_cookie_jobs. subst kept sorted.
    destruct (Cli.given status); reflexivity. }
  split; [apply slice_to_prefix|].
  split; [apply slice_to_length|].
  split.
  { intros Hlimit. unfold Cli.slice_to.
    destruct (Z.leb_spec 0 limit); [reflexivity | lia]. }
  intros Hl. unfold Cli.list_cookie_jobs, Cli.status_matches; cbn.
  lower_literals Hl. repeat split; reflexivity.
Qed.

Lemma list_cookie_jobs_pipeline_witness :
  map job_id (Cli.list_cookie_jobs Str.lower (Some "running") false 20
                sample_jobs)
  = ["job-3"; "job-1"; "job-0"]
  /\ map job_id (Cli.list_cookie_jobs Str.lower (Some "running") false 2
                   sample_jobs)
     = ["job-3"; "job-1"].
Proof.
  pose proof (list_cookie_jobs_pipeline Str.lower None 0 []) as H.
  cbv zeta in H.
  destruct H as (_ & _ & _ & _ & _ & _ & _ & _ & _ & _ & _ & _ & H).
  destruct (H ascii_lowering_lower) as [H1 [H2 _]].
  split; [exact H1 | exact H2].
Defined.

(* ================================================================== *)
(** ** Tokens that are already IDs *)

Lemma given_startswith (token : string) (c : ascii) (p : string) :
  Str.startswith token (String c p) = true ->
  Cli.given (Some token) = Some token.
Proof.
  intros H. unfold Cli.given. rewrite (startswith_nonempty _ _ _ H). reflexivity.
Qed.

Lemma given_nonempty (token : string) :
  token <> "" -> Cli.given (Some token) = Some token.
Proof.
  intros H. unfold Cli.given, Str.truthy.
  destruct (String.eqb_spec token ""); [contradiction | reflexivity].
Qed.

(** C8. A workspace token that starts with "ws-" is used as the workspace
    ID as it stands, by [cmd_avail], [cmd_workspaces] and [cmd_list_cookie],
    whatever the cache holds: no name is looked up.  A compute group token that starts
    with "lcg-" is used as the key into the workspace's compute groups, and
    names play no part either.  Only a token without the prefix goes
    through [find_workspace_by_name], respectively
    [find_resource_by_name]. *)
Theorem id_prefix_skips_name_lookup (token : string) (d : disk) :
  (Str.startswith token "ws-" = true ->
   Cli.avail_workspaces (Some token) d = (Ret (Some [token]), d)
   /\ Cli.workspaces_workspace (Some token) d = (Ret (Some token), d)
   /\ forall cookie_data,
        Cli.list_cookie_workspaces false (Some token) cookie_data d
        = (Ret (Some [(token,
                       Cli.cached_name (Dict.get (cached d) token) "")]), d))
  /\ (Str.startswith token "ws-" = false ->
      token <> "" ->
      Cli.avail_workspaces (Some token) d
      = (Ret (match Cli.given (Config.find_workspace_in (cached d) token) with
              | Some workspace_id => Some [workspace_id]
              | None => None
              end), d)
      /\ Cli.workspaces_workspace (Some token) d
         = (Ret (Cli.given (Config.find_workspace_in (cached d) token)), d)
      /\ forall cookie_data,
           Cli.list_cookie_workspaces false (Some token) cookie_data d
           = (Ret (match Cli.given (Config.find_workspace_in (cached d) token) with
                   | Some workspace_id =>
                       Some [(workspace_id,
                              Cli.cached_name
                                (Dict.get (cached d) workspace_id) token)]
                   | None => None
                   end), d))
  /\ (Str.startswith token "lcg-" = true ->
      forall workspace_id compute_groups,
        Cli.avail_compute_groups workspace_id (Some token) compute_groups d
        = (Ret (match Dict.get compute_groups token with
                | Some info => Some [(token, info)]
                | None => None
                end), d))
  /\ (Str.startswith token "lcg-" = false ->
      token <> "" ->
      forall workspace_id compute_groups,
      exists found,
        Config.find_resource_by_name workspace_id ComputeGroups token d
        = (Ret found, d)
        /\ Cli.avail_compute_groups workspace_id (Some token) compute_groups d
           = (Ret (match found with
                   | Some found => Some [(res_id found, found)]
                   | None => None
                   end), d)).
Proof.
  split; [|split; [|split]].
  - intros Hpre. split; [|split].
    + unfold Cli.avail_workspaces.
      rewrite (given_startswith _ _ _ Hpre), Hpre. reflexivity.
    + unfold Cli.workspaces_workspace, bind. rewrite get_cookie_run.
      rewrite (given_startswith _ _ _ Hpre), Hpre.
      rewrite (given_startswith _ _ _ Hpre). reflexivity.
    + intros cookie_data. unfold Cli.list_cookie_workspaces.
      rewrite (given_startswith _ _ _ Hpre), Hpre. unfold bind.
      rewrite get_workspace_resources_run. reflexivity.
  - intros Hpre Hne. split; [|split].
    + unfold Cli.avail_workspaces.
      rewrite (given_nonempty _ Hne), Hpre. unfold bind.
      rewrite find_workspace_by_name_run.
      destruct (Cli.given (Config.find_workspace_in (cached d) token));
        reflexivity.
    + unfold Cli.workspaces_workspace, bind. rewrite get_cookie_run.
      rewrite (given_nonempty _ Hne), Hpre, find_workspace_by_name_run.
      reflexivity.
    + intros cookie_data. unfold Cli.list_cookie_workspaces.
      rewrite (given_nonempty _ Hne), Hpre. unfold bind.
      rewrite find_workspace_by_name_run.
      destruct (Cli.given (Config.find_workspace_in (cached d) token));
        [|reflexivity].
      rewrite get_workspace_resources_run. reflexivity.
  - intros Hpre workspace_id compute_groups. unfold Cli.avail_compute_groups.
    rewrite (given_startswith _ _ _ Hpre), Hpre.
    destruct (Dict.get compute_groups token); reflexivity.
  - intros Hpre Hne workspace_id compute_groups.
    eexists. split; [apply find_resource_by_name_run|].
    unfold Cli.avail_compute_groups.
    rewrite (given_nonempty _ Hne), Hpre. unfold bind.
    rewrite find_resource_by_name_run.
    destruct (Dict.get (cached d) workspace_id) as [ws_data|]; [|reflexivity].
    destruct (Config.ws_is_empty ws_data); [reflexivity|].
    destruct (Config.find_resource_in _ token); reflexivity.
Qed.

Lemma id_prefix_skips_name_lookup_witness :
  Config.find_workspace_by_name "ws-abc" alias_disk
  = (Ret (Some "ws-9"), alias_disk)
  /\ Cli.avail_workspaces (Some "ws-abc") alias_disk
     = (Ret (Some ["ws-abc"]), alias_disk).
Proof.
  split; [reflexivity|].
  exact (proj1 (proj1 (id_prefix_skips_name_lookup "ws-abc" alias_disk) eq_refl)).
Defined.

(* ================================================================== *)
(** ** More on dictionaries *)

Lemma get_app {V : Type} (d1 d2 : Dict.t V) (k : string) :
  Dict.get (d1 ++ d2)%list k
  = match Dict.get d1 k with Some v => Some v | None => Dict.get d2 k end.
Proof.
  induction d1 as [|[k' v'] d1 IH]; simpl; [reflexivity|].
  destruct (k' =? k); [reflexivity | exact IH].
Qed.

Lemma get_In {V : Type} (d : Dict.t V) (k : string) (v : V) :
  Dict.get d k = Some v -> In (k, v) d.
Proof.
  induction d as [|[k' v'] d IH]; simpl; [discriminate|].
  destruct (String.eqb_spec k' k) as [->|Hne].
  - intros H. inversion H. left. reflexivity.
  - intros H. right. apply IH. exact H.
Qed.

Lemma get_None_iff {V : Type} (d : Dict.t V) (k : string) :
  Dict.get d k = None <-> ~ In k (Dict.keys d).
Proof.
  unfold Dict.keys. induction d as [|[k' v'] d IH]; simpl.
  - split; [intros _ [] | reflexivity].
  - destruct (String.eqb_spec k' k) as [->|Hne].
    + split; [discriminate | intros H; exfalso; apply H; left; reflexivity].
    + rewrite IH. split.
      * intros H [Heq | Hin]; [contradiction | exact (H Hin)].
      * intros H Hin. apply H. right. exact Hin.
Qed.

Lemma get_Some_key {V : Type} (d : Dict.t V) (k : string) :
  Dict.get d k <> None <-> In k (Dict.keys d).
Proof.
  split.
  - intros H. destruct (in_dec string_dec k (Dict.keys d)) as [Hin|Hnin];
      [exact Hin|]. exfalso. apply H. apply get_None_iff. exact Hnin.
  - intros Hin H. apply get_None_iff in H. exact (H Hin).
Qed.

(** Assigning to a key either replaces the first binding of the key, where
    it stands, or appends a binding. *)
Lemma set_shape {V : Type} (d : Dict.t V) (k : string) (v : V) :
  match Dict.get d k with
  | Some old =>
      exists before after,
        d = (before ++ (k, old) :: after)%list
        /\ Dict.set d k v = (before ++ (k, v) :: after)%list
        /\ Forall (fun it => fst it <> k) before
  | None => Dict.set d k v = (d ++ [(k, v)])%list
  end.
Proof.
  induction d as [|[k' v'] d IH]; simpl; [reflexivity|].
  destruct (String.eqb_spec k' k) as [->|Hne].
  - exists [], d. repeat split. constructor.
  - destruct (Dict.get d k) as [old|].
    + destruct IH as [before [after [E1 [E2 F]]]].
      exists ((k', v') :: before), after. simpl. rewrite <- E1, <- E2.
      repeat split. constructor; [exact Hne | exact F].
    + rewrite IH. reflexivity.
Qed.

Lemma In_set {V : Type} (d : Dict.t V) (k : string) (v : V) (k' : string) (v' : V) :
  In (k', v') (Dict.set d k v) -> (k' = k /\ v' = v) \/ In (k', v') d.
Proof.
  induction d as [|[k0 v0] d IH]; simpl.
  - intros [H | []]. inversion H. left. split; reflexivity.
  - destruct (String.eqb_spec k0 k) as [->|Hne]; simpl.
    + intros [H | H]; [inversion H; left; split; reflexivity | right; right; exact H].
    + intros [H | H]; [right; left; exact H|].
      destruct (IH H) as [Hl | Hr]; [left; exact Hl | right; right; exact Hr].
Qed.

Lemma NoDup_keys_set {V : Type} (d : Dict.t V) (k : string) (v : V) :
  NoDup (Dict.keys d) -> NoDup (Dict.keys (Dict.set d k v)).
Proof.
  intros H. rewrite keys_set. unfold Dict.mem.
  destruct (Dict.get d k) eqn:E; [exact H|].
  apply get_None_iff in E.
  apply NoDup_rev in H. rewrite <- (rev_involutive (Dict.keys d ++ [k])).
  apply NoDup_rev. rewrite rev_app_distr. simpl.
  constructor; [|exact H]. rewrite <- in_rev. exact E.
Qed.

Lemma NoDup_keys_fold_set {V A : Type} (key : A -> string) (val : A -> V)
    (l : list A) (acc : Dict.t V) :
  NoDup (Dict.keys acc) ->
  NoDup (Dict.keys (fold_left (fun acc x => Dict.set acc (key x) (val x)) l acc)).
Proof.
  revert acc. induction l as [|x l IH]; intros acc H; simpl; [exact H|].
  apply IH. apply NoDup_keys_set. exact H.
Qed.

Lemma NoDup_keys_update {V : Type} (d d' : Dict.t V) :
  NoDup (Dict.keys d) -> NoDup (Dict.keys (Dict.update d d')).
Proof. apply (NoDup_keys_fold_set fst snd). Qed.

Lemma NoDup_keys_of_list {V : Type} (key : V -> string) (l : list V) :
  NoDup (Dict.keys (Dict.of_list key l)).
Proof. apply (NoDup_keys_fold_set key (fun x => x)). constructor. Qed.

Lemma get_rev_NoDup {V : Type} (d : Dict.t V) (k : string) :
  NoDup (Dict.keys d) -> Dict.get (rev d) k = Dict.get d k.
Proof.
  induction d as [|[k0 v0] d IH]; intros H; [reflexivity|].
  inversion H as [|? ? Hnin Hd]; subst.
  cbn [rev]. rewrite get_app, (IH Hd). cbn [Dict.get].
  destruct (String.eqb_spec k0 k) as [->|Hne].
  - apply get_None_iff in Hnin. rewrite Hnin. reflexivity.
  - destruct (Dict.get d k); reflexivity.
Qed.

(** In [{**d, **d'}] a key has its last binding in [d'], else its binding
    in [d]. *)
Lemma get_update {V : Type} (d d' : Dict.t V) (k : string) :
  Dict.get (Dict.update d d') k
  = match Dict.get (rev d') k with
    | Some v => Some v
    | None => Dict.get d k
    end.
Proof.
  unfold Dict.update. revert d.
  induction d' as [|[k0 v0] d' IH]; intros d; [reflexivity|].
  cbn [fold_left rev fst snd]. rewrite IH, get_app.
  destruct (Dict.get (rev d') k); [reflexivity|].
  cbn [Dict.get]. destruct (String.eqb_spec k0 k) as [->|Hne].
  - apply get_set_same.
  - apply get_set_other. congruence.
Qed.

(* ================================================================== *)
(** ** The configuration document *)

Lemma save_config_run (flt : write_fault) (cfg : config) (d : disk) :
  Config.save_config flt cfg d
  = if dir_ok d then
      let d1 := set_CONFIG_DIR DirPresent d in
      match flt with
      | NoFault => (Ret tt, set_CONFIG_FILE (Stored cfg) d1)
      | FailOpen => (Raise OSError, d1)
      | FailWrite => (Raise OSError, set_CONFIG_FILE (Torn cfg) d1)
      end
    else (Raise OSError, d).
Proof.
  unfold Config.save_config, bind.
  rewrite ensure_config_dir_run. destruct (dir_ok d); [|reflexivity].
  destruct flt; reflexivity.
Qed.

Lemma NoDup_keys_DEFAULT_CONFIG : NoDup (Dict.keys Config.DEFAULT_CONFIG).
Proof.
  unfold Config.DEFAULT_CONFIG, Dict.keys. simpl.
  repeat constructor; simpl; intuition discriminate.
Qed.

Lemma NoDup_keys_effective_config (d : disk) :
  NoDup (Dict.keys (effective_config d)).
Proof.
  unfold effective_config. destruct (CONFIG_FILE d);
    try apply NoDup_keys_DEFAULT_CONFIG.
  apply NoDup_keys_update, NoDup_keys_DEFAULT_CONFIG.
Qed.

Lemma effective_config_defaults (d : disk) (k : string) :
  In k (Dict.keys Config.DEFAULT_CONFIG) ->
  Dict.get (effective_config d) k <> None.
Proof.
  intros Hin. apply get_Some_key in Hin.
  unfold effective_config. destruct (CONFIG_FILE d); try exact Hin.
  rewrite get_update. destruct (Dict.get (rev doc) k); [discriminate | exact Hin].
Qed.

(** X1. Saving a configuration and loading it again does not give the
    saved dictionary back but the defaults overlaid with it: a key of the
    saved dictionary has the saved value, any other key has its default, so
    the four default keys are always present; the loaded dictionary has no
    repeated key. *)
Theorem save_config_load_config (cfg : config) (d : disk) :
  dir_ok d = true ->
  NoDup (Dict.keys cfg) ->
  exists d' loaded,
    Config.save_config NoFault cfg d = (Ret tt, d')
    /\ Config.load_config d' = (Ret loaded, d')
    /\ (forall k,
          Dict.get loaded k
          = match Dict.get cfg k with
            | Some v => Some v
            | None => Dict.get Config.DEFAULT_CONFIG k
            end)
    /\ (forall k,
          In k (Dict.keys Config.DEFAULT_CONFIG) -> Dict.get loaded k <> None)
    /\ NoDup (Dict.keys loaded).
Proof.
  intros Hdir Hnd. rewrite save_config_run, Hdir. cbv zeta.
  eexists. eexists. split; [reflexivity|].
  rewrite load_config_run.
  split; [reflexivity|].
  change (CONFIG_FILE (set_CONFIG_FILE (Stored cfg) _)) with (Stored cfg).
  split.
  { intros k. rewrite get_update, (get_rev_NoDup _ _ Hnd). reflexivity. }
  split.
  { intros k Hin. apply get_Some_key in Hin. rewrite get_update.
    destruct (Dict.get (rev cfg) k); [discriminate | exact Hin]. }
  apply NoDup_keys_update, NoDup_keys_DEFAULT_CONFIG.
Qed.

Lemma save_config_load_config_witness :
  exists d' loaded,
    Config.save_config NoFault [("username", JStr "ann")] blank_disk = (Ret tt, d')
    /\ Config.load_config d' = (Ret loaded, d')
    /\ Dict.get loaded "username" = Some (JStr "ann")
    /\ Dict.get loaded "token_cache_enabled" = Some (JBool true).
Proof.
  assert (Hnd : NoDup (Dict.keys [("username", JStr "ann")]))
    by (repeat constructor; simpl; intuition).
  destruct (save_config_load_config [("username", JStr "ann")] blank_disk
              eq_refl Hnd) as [d' [loaded [H1 [H2 [H3 _]]]]].
  exists d', loaded. split; [exact H1|]. split; [exact H2|].
  split; rewrite H3; reflexivity.
Defined.

Lemma load_config_effective (d : disk) :
  dir_ok d = true ->
  Config.load_config d = (Ret (effective_config d), set_CONFIG_DIR DirPresent d).
Proof. intros H. rewrite load_config_run, H. reflexivity. Qed.

(** The dictionary [init_config] writes, from the one it loaded. *)
Lemma init_config_run (flt : write_fault) (username password : string)
    (api_base_url : option string) (d : disk) :
  dir_ok d = true ->
  Config.init_config flt username password api_base_url d
  = Config.save_config flt
      (let config := Dict.set (effective_config d) "username" (JStr username) in
       let config := Dict.set config "password" (JStr password) in
       match api_base_url with
       | Some url =>
           if Str.truthy url then Dict.set config "api_base_url" (JStr url)
           else config
       | None => config
       end)
      (set_CONFIG_DIR DirPresent d).
Proof.
  intros H. unfold Config.init_config, bind at 1.
  rewrite (load_config_effective _ H). reflexivity.
Qed.

(** Loading gives a dictionary with the default keys and without repeated
    keys back unchanged, key by key. *)
Lemma get_update_defaults_absorbed (cfg : config) (k : string) :
  NoDup (Dict.keys cfg) ->
  (forall k', In k' (Dict.keys Config.DEFAULT_CONFIG) -> Dict.get cfg k' <> None) ->
  Dict.get (Dict.update Config.DEFAULT_CONFIG cfg) k = Dict.get cfg k.
Proof.
  intros Hnd Hdef. rewrite get_update, (get_rev_NoDup _ _ Hnd).
  destruct (Dict.get cfg k) eqn:E; [reflexivity|].
  destruct (Dict.get Config.DEFAULT_CONFIG k) eqn:E'; [|reflexivity].
  exfalso. apply (Hdef k); [|exact E].
  apply get_Some_key. rewrite E'. discriminate.
Qed.

Lemma get_set_not_None {V : Type} (d : Dict.t V) (k k' : string) (v : V) :
  Dict.get d k' <> None -> Dict.get (Dict.set d k v) k' <> None.
Proof.
  intros H. destruct (string_dec k' k) as [->|Hne].
  - rewrite get_set_same. discriminate.
  - rewrite (get_set_other _ _ _ _ Hne). exact H.
Qed.

(** X2. [init_config] stores the user name and the password, and the API
    URL when one is given and not empty, on top of the configuration in
    force: loading afterwards gives these values, the API URL in force
    before when none was given, and every other key as it was; with no
    environment variable set [get_credentials] then returns exactly the
    user name and the password passed in. *)
Theorem init_config_then_load (username password : string)
    (api_base_url : option string) (d : disk) :
  dir_ok d = true ->
  exists d' before after,
    Config.load_config d = (Ret before, set_CONFIG_DIR DirPresent d)
    /\ Config.init_config NoFault username password api_base_url d = (Ret tt, d')
    /\ Config.load_config d' = (Ret after, d')
    /\ Dict.get after "username" = Some (JStr username)
    /\ Dict.get after "password" = Some (JStr password)
    /\ Dict.get after "api_base_url"
       = match Cli.given api_base_url with
         | Some url => Some (JStr url)
         | None => Dict.get before "api_base_url"
         end
    /\ (forall k,
          k <> "username" -> k <> "password" -> k <> "api_base_url" ->
          Dict.get after k = Dict.get before k)
    /\ Config.get_credentials no_env d'
       = (Ret (JStr username, JStr password), d').
Proof.
  intros Hdir.
  rewrite (init_config_run _ _ _ _ _ Hdir), save_config_run.
  change (dir_ok (set_CONFIG_DIR DirPresent d)) with true. cbv iota zeta.
  set (before := effective_config d).
  set (c1 := Dict.set before "username" (JStr username)).
  set (c2 := Dict.set c1 "password" (JStr password)).
  set (written := match api_base_url with
                  | Some url =>
                      if Str.truthy url
                      then Dict.set c2 "api_base_url" (JStr url) else c2
                  | None => c2
                  end).
  assert (Hnd2 : NoDup (Dict.keys c2))
    by (apply NoDup_keys_set, NoDup_keys_set, NoDup_keys_effective_config).
  assert (Hdef2 : forall k', In k' (Dict.keys Config.DEFAULT_CONFIG) ->
                             Dict.get c2 k' <> None).
  { intros k' Hin. apply get_set_not_None, get_set_not_None.
    apply effective_config_defaults. exact Hin. }
  assert (Hnd : NoDup (Dict.keys written)).
  { subst written. destruct api_base_url as [url|]; [|exact Hnd2].
    destruct (Str.truthy url); [apply NoDup_keys_set|]; exact Hnd2. }
  assert (Hdef : forall k', In k' (Dict.keys Config.DEFAULT_CONFIG) ->
                            Dict.get written k' <> None).
  { intros k' Hin. subst written. destruct api_base_url as [url|];
      [|exact (Hdef2 k' Hin)].
    destruct (Str.truthy url); [apply get_set_not_None|]; exact (Hdef2 k' Hin). }
  assert (Hload : forall k,
             Dict.get (Dict.update Config.DEFAULT_CONFIG written) k
             = Dict.get written k)
    by (intros k; apply get_update_defaults_absorbed; assumption).
  assert (Huser : Dict.get written "username" = Some (JStr username)).
  { subst written. assert (H2 : Dict.get c2 "username" = Some (JStr username)).
    { subst c2. rewrite get_set_other by discriminate. apply get_set_same. }
    destruct api_base_url as [url|]; [|exact H2].
    destruct (Str.truthy url); [|exact H2].
    rewrite get_set_other by discriminate. exact H2. }
  assert (Hpass : Dict.get written "password" = Some (JStr password)).
  { subst written. assert (H2 : Dict.get c2 "password" = Some (JStr password))
      by apply get_set_same.
    destruct api_base_url as [url|]; [|exact H2].
    destruct (Str.truthy url); [|exact H2].
    rewrite get_set_other by discriminate. exact H2. }
  exists (set_CONFIG_FILE (Stored written) (set_CONFIG_DIR DirPresent d)),
    before, (Dict.update Config.DEFAULT_CONFIG written).
  split; [apply load_config_effective; exact Hdir|].
  split; [reflexivity|].
  split; [rewrite load_config_run; reflexivity|].
  split; [rewrite Hload; exact Huser|].
  split; [rewrite Hload; exact Hpass|].
  split.
  { rewrite Hload. subst written. unfold Cli.given.
    destruct api_base_url as [url|].
    - destruct (Str.truthy url); [apply get_set_same|].
      subst c2 c1. rewrite !get_set_other by discriminate. reflexivity.
    - subst c2 c1. rewrite !get_set_other by discriminate. reflexivity. }
  split.
  { intros k Hu Hp Ha. rewrite Hload. subst written.
    assert (H2 : Dict.get c2 k = Dict.get before k)
      by (subst c2 c1; rewrite !get_set_other by assumption; reflexivity).
    destruct api_base_url as [url|]; [|exact H2].
    destruct (Str.truthy url); [|exact H2].
    rewrite get_set_other by assumption. exact H2. }
  unfold Config.get_credentials, bind. rewrite load_config_run.
  change (dir_ok (set_CONFIG_FILE (Stored written) (set_CONFIG_DIR DirPresent d)))
    with true. cbv iota.
  change (CONFIG_FILE (set_CONFIG_FILE (Stored written) _)) with (Stored written).
  cbv iota. rewrite !Hload, Huser, Hpass.
  unfold ret, Config.env_or_config, no_env. cbn [QZCLI_USERNAME QZCLI_PASSWORD Config.jtruthy].
  assert (Hs : forall s, (if Str.truthy s then JStr s else JStr "") = JStr s).
  { intros s. unfold Str.truthy. destruct (String.eqb_spec s ""); subst; reflexivity. }
  rewrite !Hs. reflexivity.
Qed.

Lemma init_config_then_load_witness :
  exists d' before after,
    Config.load_config sample_config_disk
    = (Ret before, set_CONFIG_DIR DirPresent sample_config_disk)
    /\ Config.init_config NoFault "bob" "pw" (Some "") sample_config_disk
       = (Ret tt, d')
    /\ Config.load_config d' = (Ret after, d')
    /\ Dict.get after "username" = Some (JStr "bob")
    /\ Dict.get after "theme" = Some (JStr "dark")
    /\ Config.get_credentials no_env d' = (Ret (JStr "bob", JStr "pw"), d').
Proof.
  destruct (init_config_then_load "bob" "pw" (Some "") sample_config_disk eq_refl)
    as [d' [before [after [H1 [H2 [H3 [H4 [_ [_ [H7 H8]]]]]]]]]].
  exists d', before, after.
  split; [exact H1|]. split; [exact H2|]. split; [exact H3|].
  split; [exact H4|]. split; [|exact H8].
  rewrite H7 by discriminate.
  rewrite load_config_run in H1. inversion H1. reflexivity.
Defined.









(* ================================================================== *)
(** ** Token cache, cookie, and the independence of the documents *)

Lemma save_token_cache_run (flt : write_fault) (now : Q) (token : string)
    (expires_in : Q) (d : disk) :
  Config.save_token_cache flt now token expires_in d
  = if dir_ok d then
      let cache := mkTokenCache (Some token) (Some (now + expires_in)%Q) in
      let d1 := set_CONFIG_DIR DirPresent d in
      match flt with
      | NoFault => (Ret tt, set_TOKEN_CACHE_FILE (Stored cache) d1)
      | FailOpen => (Raise OSError, d1)
      | FailWrite => (Raise OSError, set_TOKEN_CACHE_FILE (Torn cache) d1)
      end
    else (Raise OSError, d).
Proof.
  unfold Config.save_token_cache, bind.
  rewrite ensure_config_dir_run. destruct (dir_ok d); [|reflexivity].
  destruct flt; reflexivity.
Qed.

Lemma save_cookie_run (flt : write_fault) (now : Q) (cookie workspace_id : string)
    (d : disk) :
  Config.save_cookie flt now cookie workspace_id d
  = if dir_ok d then
      let data := mkCookie (Some cookie) (Some workspace_id) (Some now) in
      let d1 := set_CONFIG_DIR DirPresent d in
      match flt with
      | NoFault => (Ret tt, set_COOKIE_FILE (Stored data) d1)
      | FailOpen => (Raise OSError, d1)
      | FailWrite => (Raise OSError, set_COOKIE_FILE (Torn data) d1)
      end
    else (Raise OSError, d).
Proof.
  unfold Config.save_cookie, bind.
  rewrite ensure_config_dir_run. destruct (dir_ok d); [|reflexivity].
  destruct flt; reflexivity.
Qed.

(** X5. A token saved at time [saved] with a lifetime of [expires_in]
    seconds is handed out by [get_token_cache] at time [now] exactly while
    more than 300 seconds of its lifetime remain; in particular a token
    whose lifetime is at most 300 seconds is never handed out from the time
    it was saved on. *)
Theorem save_token_cache_get_token_cache (saved expires_in : Q)
    (token : string) (d : disk) :
  dir_ok d = true ->
  exists d',
    Config.save_token_cache NoFault saved token expires_in d = (Ret tt, d')
    /\ (forall now,
          (now + 300 < saved + expires_in)%Q ->
          Config.get_token_cache now d'
          = (Ret (Some (mkTokenCache (Some token) (Some (saved + expires_in)%Q))),
             d'))
    /\ (forall now,
          (saved + expires_in <= now + 300)%Q ->
          Config.get_token_cache now d' = (Ret None, d'))
    /\ ((expires_in <= 300)%Q ->
        forall now, (saved <= now)%Q ->
                    Config.get_token_cache now d' = (Ret None, d')).
Proof.
  intros Hdir. rewrite save_token_cache_run, Hdir. cbv zeta.
  eexists. split; [reflexivity|].
  assert (Hget : forall now,
             Config.get_token_cache now
               (set_TOKEN_CACHE_FILE
                  (Stored (mkTokenCache (Some token) (Some (saved + expires_in)%Q)))
                  (set_CONFIG_DIR DirPresent d))
             = (Ret (if Config.Qgtb (saved + expires_in)%Q (now + 300)%Q
                     then Some (mkTokenCache (Some token)
                                  (Some (saved + expires_in)%Q))
                     else None),
                set_TOKEN_CACHE_FILE
                  (Stored (mkTokenCache (Some token) (Some (saved + expires_in)%Q)))
                  (set_CONFIG_DIR DirPresent d))).
  { intros now. rewrite get_token_cache_run. reflexivity. }
  assert (Hnone : forall now, (saved + expires_in <= now + 300)%Q ->
                    Config.Qgtb (saved + expires_in)%Q (now + 300)%Q = false).
  { intros now Hle.
    destruct (Config.Qgtb (saved + expires_in)%Q (now + 300)%Q) eqn:E;
      [|reflexivity].
    apply Qgtb_true_iff in E. exfalso. exact (Qlt_not_le _ _ E Hle). }
  split.
  { intros now Hlt. rewrite Hget.
    apply Qgtb_true_iff in Hlt. rewrite Hlt. reflexivity. }
  split.
  { intros now Hle. rewrite Hget, (Hnone now Hle). reflexivity. }
  intros Hshort now Hnow. rewrite Hget, Hnone; [reflexivity|].
  apply Qplus_le_compat; assumption.
Qed.

Lemma save_token_cache_get_token_cache_witness :
  exists d',
    Config.save_token_cache NoFault 1000%Q "tok" 3600%Q blank_disk = (Ret tt, d')
    /\ Config.get_token_cache 4000%Q d'
       = (Ret (Some (mkTokenCache (Some "tok") (Some (1000 + 3600)%Q))), d')
    /\ Config.get_token_cache 4300%Q d' = (Ret None, d').
Proof.
  destruct (save_token_cache_get_token_cache 1000%Q 3600%Q "tok" blank_disk
              eq_refl) as [d' [H1 [H2 [H3 _]]]].
  exists d'. split; [exact H1|]. split.
  - apply H2. reflexivity.
  - apply H3. discriminate.
Defined.

Lemma clear_token_cache_run (unlink_ok : bool) (d : disk) :
  Config.clear_token_cache unlink_ok d
  = match TOKEN_CACHE_FILE d with
    | Missing => (Ret tt, d)
    | _ => if unlink_ok then (Ret tt, set_TOKEN_CACHE_FILE Missing d)
           else (Raise OSError, d)
    end.
Proof.
  unfold Config.clear_token_cache, unlink_file. io_unfold.
  destruct (TOKEN_CACHE_FILE d) eqn:E; cbn; rewrite ?E; reflexivity.
Qed.

Lemma clear_cookie_run (unlink_ok : bool) (d : disk) :
  Config.clear_cookie unlink_ok d
  = match COOKIE_FILE d with
    | Missing => (Ret tt, d)
    | _ => if unlink_ok then (Ret tt, set_COOKIE_FILE Missing d)
           else (Raise OSError, d)
    end.
Proof.
  unfold Config.clear_cookie, unlink_file. io_unfold.
  destruct (COOKIE_FILE d) eqn:E; cbn; rewrite ?E; reflexivity.
Qed.

(** X6. [clear_token_cache] and [clear_cookie] return when there is no
    file, and nothing changes then.  When there is a file they either
    remove it or raise the I/O error of the removal and change nothing.
    Whenever they return, the file is gone: [get_token_cache], at any time,
    and [get_cookie] then return no value, whatever the file held, the
    other files are untouched, and clearing again returns and changes
    nothing, whether or not a removal would succeed. *)
Theorem clear_then_get_nothing (unlink_ok : bool) (d : disk) :
  (forall r d',
      Config.clear_token_cache unlink_ok d = (r, d') ->
      (TOKEN_CACHE_FILE d = Missing -> r = Ret tt /\ d' = d)
      /\ (unlink_ok = true -> r = Ret tt)
      /\ (r = Ret tt \/ (r = Raise OSError /\ unlink_ok = false /\ d' = d))
      /\ (r = Ret tt ->
          TOKEN_CACHE_FILE d' = Missing
          /\ (forall now, Config.get_token_cache now d' = (Ret None, d'))
          /\ (forall again, Config.clear_token_cache again d' = (Ret tt, d'))
          /\ CONFIG_DIR d' = CONFIG_DIR d
          /\ CONFIG_FILE d' = CONFIG_FILE d
          /\ COOKIE_FILE d' = COOKIE_FILE d
          /\ RESOURCES_FILE d' = RESOURCES_FILE d))
  /\ (forall r d',
        Config.clear_cookie unlink_ok d = (r, d') ->
        (COOKIE_FILE d = Missing -> r = Ret tt /\ d' = d)
        /\ (unlink_ok = true -> r = Ret tt)
        /\ (r = Ret tt \/ (r = Raise OSError /\ unlink_ok = false /\ d' = d))
        /\ (r = Ret tt ->
            COOKIE_FILE d' = Missing
            /\ Config.get_cookie d' = (Ret None, d')
            /\ (forall again, Config.clear_cookie again d' = (Ret tt, d'))
            /\ CONFIG_DIR d' = CONFIG_DIR d
            /\ CONFIG_FILE d' = CONFIG_FILE d
            /\ TOKEN_CACHE_FILE d' = TOKEN_CACHE_FILE d
            /\ RESOURCES_FILE d' = RESOURCES_FILE d)).
Proof.
  split; intros r d' H.
  - rewrite clear_token_cache_run in H.
    assert (Hgone : forall d0, TOKEN_CACHE_FILE d0 = Missing ->
               (forall now, Config.get_token_cache now d0 = (Ret None, d0))
               /\ (forall again, Config.clear_token_cache again d0 = (Ret tt, d0))).
    { intros d0 H0. split.
      - intros now. rewrite get_token_cache_run, H0. reflexivity.
      - intros again. rewrite clear_token_cache_run, H0. reflexivity. }
    destruct (TOKEN_CACHE_FILE d) eqn:E; [|destruct unlink_ok ..];
      inversion H; subst; clear H;
      (split; [try discriminate; intros _; split; reflexivity|]);
      (split; [try discriminate; intros _; reflexivity|]);
      (split; [try (left; reflexivity); right; repeat split|]);
      try discriminate;
      intros _;
      (split; [try exact E; reflexivity|]);
      (split; [apply Hgone; try exact E; reflexivity|]);
      (split; [apply Hgone; try exact E; reflexivity|]);
      repeat split.
  - rewrite clear_cookie_run in H.
    assert (Hgone : forall d0, COOKIE_FILE d0 = Missing ->
               Config.get_cookie d0 = (Ret None, d0)
               /\ (forall again, Config.clear_cookie again d0 = (Ret tt, d0))).
    { intros d0 H0. split.
      - rewrite get_cookie_run, H0. reflexivity.
      - intros again. rewrite clear_cookie_run, H0. reflexivity. }
    destruct (COOKIE_FILE d) eqn:E; [|destruct unlink_ok ..];
      inversion H; subst; clear H;
      (split; [try discriminate; intros _; split; reflexivity|]);
      (split; [try discriminate; intros _; reflexivity|]);
      (split; [try (left; reflexivity); right; repeat split|]);
      try discriminate;
      intros _;
      (split; [try exact E; reflexivity|]);
      (split; [apply Hgone; try exact E; reflexivity|]);
      (split; [apply Hgone; try exact E; reflexivity|]);
      repeat split.
Qed.

Lemma clear_then_get_nothing_witness :
  Config.clear_cookie true alpha_disk
  = (Ret tt, set_COOKIE_FILE Missing alpha_disk)
  /\ Config.get_cookie (set_COOKIE_FILE Missing alpha_disk)
     = (Ret None, set_COOKIE_FILE Missing alpha_disk)
  /\ Config.clear_cookie false alpha_disk = (Raise OSError, alpha_disk).
Proof.
  split; [reflexivity|]. split; [|reflexivity].
  exact (proj1 (proj2 (proj2 (proj2 (proj2 (proj2
           (clear_then_get_nothing true alpha_disk) (Ret tt)
           (set_COOKIE_FILE Missing alpha_disk) eq_refl))) eq_refl))).
Defined.

(** X7. Each writer touches one file only, whether it succeeds or fails:
    [save_config] and [init_config] leave the token cache, the cookie and
    the resource cache as they were, [save_token_cache] the configuration,
    the cookie and the resource cache, [save_cookie] the configuration, the
    token cache and the resource cache, and [save_resources] and
    [set_workspace_name] the configuration, the token cache and the
    cookie. *)
Theorem writers_touch_one_file (flt : write_fault) (now : Q) (d : disk) :
  (forall cfg,
      let d' := snd (Config.save_config flt cfg d) in
      TOKEN_CACHE_FILE d' = TOKEN_CACHE_FILE d
      /\ COOKIE_FILE d' = COOKIE_FILE d
      /\ RESOURCES_FILE d' = RESOURCES_FILE d)
  /\ (forall username password api_base_url,
        let d' := snd (Config.init_config flt username password api_base_url d) in
        TOKEN_CACHE_FILE d' = TOKEN_CACHE_FILE d
        /\ COOKIE_FILE d' = COOKIE_FILE d
        /\ RESOURCES_FILE d' = RESOURCES_FILE d)
  /\ (forall token expires_in,
        let d' := snd (Config.save_token_cache flt now token expires_in d) in
        CONFIG_FILE d' = CONFIG_FILE d
        /\ COOKIE_FILE d' = COOKIE_FILE d
        /\ RESOURCES_FILE d' = RESOURCES_FILE d)
  /\ (forall cookie workspace_id,
        let d' := snd (Config.save_cookie flt now cookie workspace_id d) in
        CONFIG_FILE d' = CONFIG_FILE d
        /\ TOKEN_CACHE_FILE d' = TOKEN_CACHE_FILE d
        /\ RESOURCES_FILE d' = RESOURCES_FILE d)
  /\ (forall workspace_id resources name,
        let d' := snd (Config.save_resources flt now workspace_id resources name d) in
        CONFIG_FILE d' = CONFIG_FILE d
        /\ TOKEN_CACHE_FILE d' = TOKEN_CACHE_FILE d
        /\ COOKIE_FILE d' = COOKIE_FILE d)
  /\ (forall workspace_id name,
        let d' := snd (Config.set_workspace_name flt now workspace_id name d) in
        CONFIG_FILE d' = CONFIG_FILE d
        /\ TOKEN_CACHE_FILE d' = TOKEN_CACHE_FILE d
        /\ COOKIE_FILE d' = COOKIE_FILE d).
Proof.
  split; [|split; [|split; [|split; [|split]]]].
  - intros cfg d'. subst d'. rewrite save_config_run.
    destruct (dir_ok d), flt; repeat split.
  - intros username password api_base_url d'. subst d'.
    destruct (dir_ok d) eqn:Hdir.
    + rewrite (init_config_run _ _ _ _ _ Hdir), save_config_run.
      change (dir_ok (set_CONFIG_DIR DirPresent d)) with true.
      destruct flt; repeat split.
    + unfold Config.init_config, bind. rewrite load_config_run, Hdir.
      repeat split.
  - intros token expires_in d'. subst d'. rewrite save_token_cache_run.
    destruct (dir_ok d), flt; repeat split.
  - intros cookie workspace_id d'. subst d'. rewrite save_cookie_run.
    destruct (dir_ok d), flt; repeat split.
  - intros workspace_id resources name d'. subst d'. rewrite save_resources_run.
    destruct (dir_ok d), flt; repeat split.
  - intros workspace_id name d'. subst d'. rewrite set_workspace_name_run.
    destruct (dir_ok d), flt; repeat split.
Qed.

(* ================================================================== *)
(** ** More on the resource cache *)

Lemma list_cached_workspaces_run (d : disk) :
  Config.list_cached_workspaces d
  = (Ret (map (fun it => Config.summarize (fst it) (snd it)) (cached d)), d).
Proof.
  unfold Config.list_cached_workspaces, bind.
  rewrite load_all_resources_run. reflexivity.
Qed.

Lemma In_fold_set {V A : Type} (key : A -> string) (val : A -> V) (l : list A)
    (acc : Dict.t V) (k : string) (v : V) :
  In (k, v) (fold_left (fun acc x => Dict.set acc (key x) (val x)) l acc) ->
  In (k, v) acc \/ exists x, In x l /\ key x = k /\ val x = v.
Proof.
  revert acc. induction l as [|x l IH]; intros acc H; simpl in H; [left; exact H|].
  destruct (IH _ H) as [Hacc | [y [Hy [Hk Hv]]]].
  - destruct (In_set _ _ _ _ _ Hacc) as [[-> ->] | Hin].
    + right. exists x. split; [left; reflexivity | split; reflexivity].
    + left. exact Hin.
  - right. exists y. split; [right; exact Hy | split; assumption].
Qed.

Lemma In_of_list {V : Type} (key : V -> string) (l : list V) (k : string) (v : V) :
  In (k, v) (Dict.of_list key l) -> In v l /\ key v = k.
Proof.
  intros H. destruct (In_fold_set key (fun x => x) l [] k v H) as [[] | [x [Hx [Hk Hv]]]].
  subst. split; [exact Hx | reflexivity].
Qed.

Lemma find_last_Some {A : Type} (p : A -> bool) (l : list A) (x : A) :
  find_last p l = Some x -> In x l /\ p x = true.
Proof.
  unfold find_last. intros H. apply find_some in H.
  rewrite <- in_rev in H. exact H.
Qed.

Lemma find_last_None {A : Type} (p : A -> bool) (l : list A) :
  find_last p l = None -> forall x, In x l -> p x = false.
Proof.
  unfold find_last. intros H x Hin.
  apply (find_none _ _ H). rewrite <- in_rev. exact Hin.
Qed.

Lemma keys_of_list_iff {V : Type} (key : V -> string) (l : list V) (k : string) :
  In k (Dict.keys (Dict.of_list key l)) <-> In k (map key l).
Proof.
  rewrite <- get_Some_key, get_of_list. split.
  - intros H. destruct (find_last (fun x => key x =? k) l) as [x|] eqn:E;
      [|contradiction].
    apply find_last_Some in E. destruct E as [Hin Hk].
    apply String.eqb_eq in Hk. subst k. apply in_map. exact Hin.
  - intros Hin H. apply in_map_iff in Hin. destruct Hin as [x [Hk Hin]].
    pose proof (find_last_None _ _ H x Hin) as Hf. cbv beta in Hf.
    rewrite Hk, String.eqb_refl in Hf. discriminate.
Qed.

(** A dictionary built from a list has as many entries as the list has
    distinct keys. *)
Lemma length_of_list {V : Type} (key : V -> string) (l : list V) :
  List.length (Dict.of_list key l)
  = List.length (nodup string_dec (map key l)).
Proof.
  rewrite <- (length_map fst (Dict.of_list key l)).
  apply Permutation_length. apply NoDup_Permutation.
  - apply NoDup_keys_of_list.
  - apply NoDup_nodup.
  - intros k. rewrite nodup_In. apply keys_of_list_iff.
Qed.

Lemma length_nodup_le {A : Type} (dec : forall x y : A, {x = y} + {x <> y})
    (l : list A) :
  (List.length (nodup dec l) <= List.length l)%nat.
Proof.
  induction l as [|x l IH]; simpl; [lia|].
  destruct (in_dec dec x l); simpl; lia.
Qed.

Lemma NoDup_map_inj {A B : Type} (f : A -> B) (l : list A) (x y : A) :
  NoDup (map f l) -> In x l -> In y l -> f x = f y -> x = y.
Proof.
  induction l as [|a l IH]; simpl; intros Hnd Hx Hy Hf; [contradiction|].
  inversion Hnd as [|? ? Hnin Hnd']; subst.
  destruct Hx as [->|Hx], Hy as [->|Hy].
  - reflexivity.
  - exfalso. apply Hnin. rewrite Hf. apply in_map. exact Hy.
  - exfalso. apply Hnin. rewrite <- Hf. apply in_map. exact Hx.
  - apply IH; assumption.
Qed.

Lemma get_of_list_NoDup {V : Type} (key : V -> string) (l : list V) (x : V) :
  NoDup (map key l) -> In x l ->
  Dict.get (Dict.of_list key l) (key x) = Some x.
Proof.
  intros Hnd Hin. rewrite get_of_list.
  destruct (find_last (fun y => key y =? key x) l) as [y|] eqn:E.
  - apply find_last_Some in E. destruct E as [Hy Hk].
    apply String.eqb_eq in Hk.
    rewrite (NoDup_map_inj key l y x Hnd Hy Hin Hk). reflexivity.
  - pose proof (find_last_None _ _ E x Hin) as Hf. cbv beta in Hf.
    rewrite String.eqb_refl in Hf. discriminate.
Qed.

Lemma cached_after_save_resources (now : Q) (workspace_id : string)
    (resources : fetched) (name : string) (d : disk) :
  dir_ok d = true ->
  exists d',
    Config.save_resources NoFault now workspace_id resources name d = (Ret tt, d')
    /\ cached d'
       = Dict.set (cached d) workspace_id
           (Config.refreshed now (cached d) workspace_id resources name).
Proof.
  intros Hdir. rewrite save_resources_run, Hdir. cbv zeta.
  eexists. split; reflexivity.
Qed.

Lemma cached_after_set_workspace_name (now : Q) (workspace_id name : string)
    (d : disk) :
  dir_ok d = true ->
  exists d',
    Config.set_workspace_name NoFault now workspace_id name d = (Ret true, d')
    /\ cached d' = Config.rename_in now (cached d) workspace_id name.
Proof.
  intros Hdir. rewrite set_workspace_name_run, Hdir. cbv zeta.
  eexists. split; reflexivity.
Qed.

Lemma category_map_refreshed (c : category) (now : Q) (all : all_resources)
    (workspace_id : string) (resources : fetched) (name : string) :
  Config.category_map c (Config.refreshed now all workspace_id resources name)
  = Dict.of_list res_id (fetched_list c resources).
Proof. destruct c; reflexivity. Qed.

(** X9. After [save_resources], [list_cached_workspaces] reports for the
    workspace, under the time of the save, as many projects, compute groups
    and specs as the supplied lists have distinct IDs: records that repeat
    an ID are counted once, so no count exceeds the length of its list. *)
Theorem save_resources_counts (now : Q) (workspace_id name : string)
    (resources : fetched) (d : disk) :
  dir_ok d = true ->
  exists d' listing s,
    Config.save_resources NoFault now workspace_id resources name d = (Ret tt, d')
    /\ Config.list_cached_workspaces d' = (Ret listing, d')
    /\ In s listing
    /\ sm_id s = workspace_id
    /\ sm_updated_at s = now
    /\ sm_project_count s
       = List.length (nodup string_dec
                        (map res_id (fetched_list Projects resources)))
    /\ sm_compute_group_count s
       = List.length (nodup string_dec
                        (map res_id (fetched_list ComputeGroups resources)))
    /\ sm_spec_count s
       = List.length (nodup string_dec
                        (map res_id (fetched_list Specs resources)))
    /\ (sm_project_count s <= List.length (fetched_list Projects resources))%nat
    /\ (sm_compute_group_count s
        <= List.length (fetched_list ComputeGroups resources))%nat
    /\ (sm_spec_count s <= List.length (fetched_list Specs resources))%nat.
Proof.
  intros Hdir.
  destruct (cached_after_save_resources now workspace_id resources name d Hdir)
    as [d' [Hrun Hc]].
  set (entry := Config.refreshed now (cached d) workspace_id resources name) in *.
  exists d', (map (fun it => Config.summarize (fst it) (snd it)) (cached d')),
    (Config.summarize workspace_id entry).
  split; [exact Hrun|].
  split; [apply list_cached_workspaces_run|].
  split.
  { apply (in_map (fun it => Config.summarize (fst it) (snd it))
             (cached d') (workspace_id, entry)).
    apply get_In. rewrite Hc. apply get_set_same. }
  split; [reflexivity|]. split; [reflexivity|].
  assert (Hp : sm_project_count (Config.summarize workspace_id entry)
               = List.length (nodup string_dec
                                (map res_id (fetched_list Projects resources))))
    by apply (length_of_list res_id).
  assert (Hg : sm_compute_group_count (Config.summarize workspace_id entry)
               = List.length (nodup string_dec
                                (map res_id (fetched_list ComputeGroups resources))))
    by apply (length_of_list res_id).
  assert (Hs : sm_spec_count (Config.summarize workspace_id entry)
               = List.length (nodup string_dec
                                (map res_id (fetched_list Specs resources))))
    by apply (length_of_list res_id).
  split; [exact Hp|]. split; [exact Hg|]. split; [exact Hs|].
  rewrite Hp, Hg, Hs.
  repeat split;
    (eapply Nat.le_trans; [apply length_nodup_le | rewrite length_map; apply Nat.le_refl]).
Qed.

Lemma save_resources_counts_witness :
  exists d' listing s,
    Config.save_resources NoFault 2000%Q "ws-1"
      (mkFetched (Some [proj_a; proj_a]) None None) "" alpha_disk = (Ret tt, d')
    /\ Config.list_cached_workspaces d' = (Ret listing, d')
    /\ In s listing
    /\ sm_id s = "ws-1"
    /\ sm_project_count s = 1%nat.
Proof.
  destruct (save_resources_counts 2000%Q "ws-1" ""
              (mkFetched (Some [proj_a; proj_a]) None None) alpha_disk eq_refl)
    as [d' [listing [s [H1 [H2 [H3 [H4 [_ [H6 _]]]]]]]]].
  exists d', listing, s. split; [exact H1|]. split; [exact H2|].
  split; [exact H3|]. split; [exact H4|]. rewrite H6. reflexivity.
Defined.

(** X10. Naming a workspace that is not cached adds one line at the end of
    what [list_cached_workspaces] reports, with the name, the current time
    and three zero counts; naming a cached workspace keeps the lines, their
    order, their times and their counts, and changes no name but that of
    the workspace. *)
Theorem set_workspace_name_in_listing (now : Q) (workspace_id name : string)
    (d : disk) :
  dir_ok d = true ->
  exists d' before after,
    Config.list_cached_workspaces d = (Ret before, d)
    /\ Config.set_workspace_name NoFault now workspace_id name d = (Ret true, d')
    /\ Config.list_cached_workspaces d' = (Ret after, d')
    /\ (Dict.get (cached d) workspace_id = None ->
        after = (before ++ [mkSummary workspace_id name now 0 0 0])%list)
    /\ (Dict.get (cached d) workspace_id <> None ->
        map sm_id after = map sm_id before
        /\ map sm_updated_at after = map sm_updated_at before
        /\ map sm_project_count after = map sm_project_count before
        /\ map sm_compute_group_count after = map sm_compute_group_count before
        /\ map sm_spec_count after = map sm_spec_count before
        /\ Forall2 (fun b a => sm_id b <> workspace_id -> a = b) before after
        /\ exists s, In s after /\ sm_id s = workspace_id /\ sm_name s = name).
Proof.
  intros Hdir.
  destruct (cached_after_set_workspace_name now workspace_id name d Hdir)
    as [d' [Hrun Hc]].
  exists d'. eexists. eexists.
  split; [apply list_cached_workspaces_run|].
  split; [exact Hrun|].
  split; [apply list_cached_workspaces_run|].
  rewrite Hc. unfold Config.rename_in.
  destruct (Dict.get (cached d) workspace_id) as [old|] eqn:E.
  - split; [discriminate|]. intros _.
    pose proof (set_shape (cached d) workspace_id (Config.set_name old name)) as Hs.
    rewrite E in Hs. destruct Hs as [bef [aft [E1 [E2 Hb]]]].
    rewrite E2, E1, !map_app. cbn [map fst snd]. rewrite ?map_app. cbn [map].
    repeat split.
    + apply Forall2_app.
      * clear -Hb. induction bef as [|x bef IH]; constructor.
        -- intros _. reflexivity.
        -- apply IH. inversion Hb; assumption.
      * constructor.
        -- intros H. exfalso. apply H. reflexivity.
        -- clear. induction aft as [|x aft IH]; constructor; auto.
    + exists (Config.summarize workspace_id (Config.set_name old name)).
      split; [|split; reflexivity].
      apply in_or_app. right. left. reflexivity.
  - split; [|intros H; exfalso; apply H; reflexivity]. intros _.
    pose proof (set_shape (cached d) workspace_id
                  (Config.blank_workspace now workspace_id name)) as Hs.
    rewrite E in Hs. rewrite Hs, map_app. reflexivity.
Qed.

Lemma set_workspace_name_in_listing_witness :
  exists d' after,
    Config.set_workspace_name NoFault 2000%Q "ws-2" "Gamma" alpha_disk
    = (Ret true, d')
    /\ Config.list_cached_workspaces d' = (Ret after, d')
    /\ after = [mkSummary "ws-1" "Alpha" 1000%Q 1 1 0;
                mkSummary "ws-2" "Gamma" 2000%Q 0 0 0].
Proof.
  destruct (set_workspace_name_in_listing 2000%Q "ws-2" "Gamma" alpha_disk eq_refl)
    as [d' [before [after [H1 [H2 [H3 [H4 _]]]]]]].
  exists d', after. split; [exact H2|]. split; [exact H3|].
  rewrite (H4 eq_refl). rewrite list_cached_workspaces_run in H1.
  inversion H1. reflexivity.
Defined.

(* ================================================================== *)
(** ** More on name resolution *)




Lemma first_such_In {V : Type} (P : V -> Prop) items k v :
  first_such P items k v -> In (k, v) items /\ P v.
Proof.
  intros [before [after [-> [HP _]]]]. split; [|exact HP].
  apply in_or_app. right. left. reflexivity.
Qed.


(** When some item matches exactly, the result is the first such item. *)
Lemma two_pass_exact {V R : Type} (alias : V -> string)
    (pick : string -> V -> R) items name r k0 v0 :
  two_pass alias pick items name r ->
  In (k0, v0) items -> alias v0 = name ->
  exists k v, first_such (fun v => same_name name (alias v)) items k v
              /\ r = Some (pick k v).
Proof.
  intros [[k [v [H1 ->]]] | [[N1 _] | [N1 _]]] Hin Ha.
  - exists k, v. split; [exact H1 | reflexivity].
  - exfalso. rewrite Forall_forall in N1. exact (N1 _ Hin Ha).
  - exfalso. rewrite Forall_forall in N1. exact (proj1 (N1 _ Hin) Ha).
Qed.



Lemma In_rename_in (now : Q) (all : all_resources) (workspace_id name : string)
    (k : string) (v : workspace) :
  In (k, v) (Config.rename_in now all workspace_id name) ->
  k = workspace_id \/ In (k, v) all.
Proof.
  unfold Config.rename_in. intros H.
  destruct (Dict.get all workspace_id);
    destruct (In_set _ _ _ _ _ H) as [[-> _] | Hin]; auto.
Qed.

Lemma get_rename_in_alias (now : Q) (all : all_resources)
    (workspace_id name : string) :
  exists ws_data,
    Dict.get (Config.rename_in now all workspace_id name) workspace_id
    = Some ws_data
    /\ Config.ws_alias ws_data = name.
Proof.
  unfold Config.rename_in. destruct (Dict.get all workspace_id);
    eexists; (split; [apply get_set_same | reflexivity]).
Qed.

(** X13. A name given with [set_workspace_name] resolves: afterwards
    [find_workspace_by_name] on that name returns a workspace whose alias
    is exactly the name, and it returns the workspace just named whenever
    no other cached workspace already carried that alias. *)
Theorem named_workspace_is_found (now : Q) (workspace_id name : string)
    (d : disk) :
  dir_ok d = true ->
  exists d' found ws_data,
    Config.set_workspace_name NoFault now workspace_id name d = (Ret true, d')
    /\ Config.find_workspace_by_name name d' = (Ret (Some found), d')
    /\ In (found, ws_data) (cached d')
    /\ Config.ws_alias ws_data = name
    /\ ((forall k v, In (k, v) (cached d) -> Config.ws_alias v = name ->
                     k = workspace_id)
        -> found = workspace_id).
Proof.
  intros Hdir.
  destruct (cached_after_set_workspace_name now workspace_id name d Hdir)
    as [d' [Hrun Hc]].
  destruct (get_rename_in_alias now (cached d) workspace_id name)
    as [e [Hget Halias]].
  rewrite <- Hc in Hget.
  destruct (two_pass_exact _ _ _ _ _ workspace_id e
              (find_workspace_in_two_pass (cached d') name)
              (get_In _ _ _ Hget) Halias) as [k [v [Hfirst Hr]]].
  destruct (first_such_In _ _ _ _ Hfirst) as [Hin Hsame].
  exists d', k, v. split; [exact Hrun|].
  split; [rewrite find_workspace_by_name_run, Hr; reflexivity|].
  split; [exact Hin|]. split; [exact Hsame|].
  intros Huniq. rewrite Hc in Hin.
  destruct (In_rename_in _ _ _ _ _ _ Hin) as [Hk | Hold]; [exact Hk|].
  exact (Huniq _ _ Hold Hsame).
Qed.

Lemma named_workspace_is_found_witness :
  exists d',
    Config.set_workspace_name NoFault 2000%Q "ws-2" "Gamma" alpha_disk
    = (Ret true, d')
    /\ Config.find_workspace_by_name "Gamma" d' = (Ret (Some "ws-2"), d').
Proof.
  destruct (named_workspace_is_found 2000%Q "ws-2" "Gamma" alpha_disk eq_refl)
    as [d' [found [ws_data [H1 [H2 [_ [_ H5]]]]]]].
  exists d'. split; [exact H1|].
  rewrite H2. rewrite H5; [reflexivity|].
  intros k v [Hin | []] Ha. inversion Hin; subst. discriminate.
Defined.

(** X14. A resource saved with [save_resources] resolves by its name: when
    the supplied list of a category has no repeated ID,
    [find_resource_by_name] on the name of one of its records returns a
    record of that list with exactly that name, and that very record when
    no other record of the list has the same name. *)
Theorem saved_resource_is_found (now : Q) (workspace_id name : string)
    (resources : fetched) (c : category) (p : resource) (d : disk) :
  dir_ok d = true ->
  NoDup (map res_id (fetched_list c resources)) ->
  In p (fetched_list c resources) ->
  exists d' found,
    Config.save_resources NoFault now workspace_id resources name d = (Ret tt, d')
    /\ Config.find_resource_by_name workspace_id c (Config.res_alias p) d'
       = (Ret (Some found), d')
    /\ In found (fetched_list c resources)
    /\ Config.res_alias found = Config.res_alias p
    /\ ((forall q, In q (fetched_list c resources) ->
                   Config.res_alias q = Config.res_alias p -> q = p)
        -> found = p).
Proof.
  intros Hdir Hnd Hin.
  destruct (cached_after_save_resources now workspace_id resources name d Hdir)
    as [d' [Hrun Hc]].
  set (entry := Config.refreshed now (cached d) workspace_id resources name) in *.
  assert (Hmap : Config.category_map c entry
                 = Dict.of_list res_id (fetched_list c resources))
    by apply category_map_refreshed.
  assert (Hp : In (res_id p, p) (Config.category_map c entry)).
  { rewrite Hmap. apply get_In. apply get_of_list_NoDup; assumption. }
  destruct (two_pass_exact _ _ _ _ _ (res_id p) p
              (find_resource_in_two_pass (Config.category_map c entry)
                 (Config.res_alias p)) Hp eq_refl) as [k [v [Hfirst Hr]]].
  destruct (first_such_In _ _ _ _ Hfirst) as [Hv Hsame].
  rewrite Hmap in Hv. apply In_of_list in Hv. destruct Hv as [Hvl _].
  exists d', v. split; [exact Hrun|].
  split.
  { rewrite find_resource_by_name_run, Hc, get_set_same.
    change (Config.ws_is_empty entry) with false. cbv iota.
    rewrite Hr. reflexivity. }
  split; [exact Hvl|]. split; [exact Hsame|].
  intros Huniq. exact (Huniq v Hvl Hsame).
Qed.

Lemma saved_resource_is_found_witness :
  exists d' found,
    Config.save_resources NoFault 2000%Q "ws-1"
      (mkFetched None (Some [lcg_a]) None) "" alpha_disk = (Ret tt, d')
    /\ Config.find_resource_by_name "ws-1" ComputeGroups "H100-pool" d'
       = (Ret (Some found), d')
    /\ found = lcg_a.
Proof.
  assert (Hnd : NoDup (map res_id (fetched_list ComputeGroups
                                     (mkFetched None (Some [lcg_a]) None))))
    by (repeat constructor; simpl; intuition).
  destruct (saved_resource_is_found 2000%Q "ws-1" ""
              (mkFetched None (Some [lcg_a]) None) ComputeGroups lcg_a
              alpha_disk eq_refl Hnd (or_introl eq_refl))
    as [d' [found [H1 [H2 [_ [_ H5]]]]]].
  exists d', found. split; [exact H1|]. split; [exact H2|].
  apply H5. intros q [Hq | []] _. symmetry. exact Hq.
Defined.

(* ================================================================== *)
(** ** The cookie command *)

Lemma given_Some_nonempty (o : option string) (s : string) :
  Cli.given o = Some s -> o = Some s /\ s <> "".
Proof.
  unfold Cli.given, Str.truthy. destruct o as [x|]; [|discriminate].
  destruct (String.eqb_spec x ""); simpl; [discriminate|].
  intros H. inversion H; subst. split; [reflexivity | assumption].
Qed.

Lemma usable_cookie_line_iff (line : string) :
  Cli.usable_cookie_line line = true <-> usable_text line.
Proof.
  unfold Cli.usable_cookie_line, usable_text, Str.truthy, Str.startswith.
  rewrite !andb_true_iff, !negb_true_iff, !String.eqb_neq. split.
  - intros [[H1 H2] H3]. repeat split; try assumption.
    intros r ->. simpl in H2. destruct r; discriminate.
  - intros [H1 [H2 H3]]. repeat split; try assumption.
    destruct (String.prefix "#" line) eqn:E; [|reflexivity].
    apply prefix_true_iff in E. destruct E as [post E].
    exfalso. exact (H2 post E).
Qed.

Lemma usable_cookie_line_false (line : string) :
  Cli.usable_cookie_line line = false <-> ~ usable_text line.
Proof.
  rewrite <- usable_cookie_line_iff.
  destruct (Cli.usable_cookie_line line); split; congruence.
Qed.

Lemma first_usable_line_spec (strip : string -> string) (lines : list string) :
  match Cli.first_usable_line strip lines with
  | Some c =>
      exists before line after,
        lines = (before ++ line :: after)%list
        /\ c = strip line
        /\ usable_text c
        /\ Forall (fun l => ~ usable_text (strip l)) before
  | None => Forall (fun l => ~ usable_text (strip l)) lines
  end.
Proof.
  induction lines as [|l lines IH]; simpl; [constructor|].
  destruct (Cli.usable_cookie_line (strip l)) eqn:E.
  - exists [], l, lines. split; [reflexivity|]. split; [reflexivity|].
    split; [apply usable_cookie_line_iff; exact E | constructor].
  - apply usable_cookie_line_false in E.
    destruct (Cli.first_usable_line strip lines) as [c|].
    + destruct IH as [before [line [after [H1 [H2 [H3 H4]]]]]].
      exists (l :: before), line, after. subst lines.
      split; [reflexivity|]. split; [exact H2|]. split; [exact H3|].
      constructor; assumption.
    + constructor; assumption.
Qed.

(** X15. The cookie [cmd_cookie] reads from a file, [strip] being what
    [str.strip] does: it is the stripped form of the last line whose
    stripped form is neither empty, nor a comment (a line that starts with
    "#"), nor the word "cookie".  When the file has no such line the cookie
    given on the command line is kept, and none is found when that is
    absent or empty.  The cookie found is never the empty string. *)
Theorem cookie_from_file_last_usable (strip : string -> string)
    (cookie : option string) (lines : list string) :
  ((exists before line after,
       lines = (before ++ line :: after)%list
       /\ Forall (fun l => ~ usable_text (strip l)) after
       /\ usable_text (strip line)
       /\ Cli.cookie_from_file strip cookie lines = Some (strip line))
   \/ (Forall (fun l => ~ usable_text (strip l)) lines
       /\ Cli.cookie_from_file strip cookie lines
          = match cookie with
            | Some "" => None
            | Some c => Some c
            | None => None
            end))
  /\ Cli.cookie_from_file strip cookie lines <> Some "".
Proof.
  split.
  - unfold Cli.cookie_from_file.
    pose proof (first_usable_line_spec strip (rev lines)) as H.
    destruct (Cli.first_usable_line strip (rev lines)) as [c|].
    + left. destruct H as [before [line [after [H1 [H2 [H3 H4]]]]]].
      exists (rev after), line, (rev before). subst c.
      split.
      { rewrite <- (rev_involutive lines), H1, rev_app_distr. simpl.
        rewrite <- app_assoc. reflexivity. }
      split; [apply Forall_rev; exact H4|].
      split; [exact H3|].
      unfold Cli.given, Str.truthy. destruct H3 as [Hne _].
      destruct (String.eqb_spec (strip line) ""); [contradiction | reflexivity].
    + right. split.
      * rewrite <- (rev_involutive lines). apply Forall_rev. exact H.
      * unfold Cli.given, Str.truthy. destruct cookie as [[|a c]|]; reflexivity.
  - intros H. unfold Cli.cookie_from_file in H.
    apply given_Some_nonempty in H. destruct H as [_ H]. apply H. reflexivity.
Qed.

Lemma check_and_save_cookie_run (flt : write_fault) (now : Q)
    (no_test api_ok : bool) (cookie workspace_id : string) (d : disk) :
  Cli.check_and_save_cookie flt now no_test api_ok cookie workspace_id d
  = if negb no_test && Str.truthy workspace_id && negb api_ok then (Ret 1%Z, d)
    else if dir_ok d then
      let data := mkCookie (Some cookie) (Some workspace_id) (Some now) in
      let d1 := set_CONFIG_DIR DirPresent d in
      match flt with
      | NoFault => (Ret 0%Z, set_COOKIE_FILE (Stored data) d1)
      | FailOpen => (Raise OSError, d1)
      | FailWrite => (Raise OSError, set_COOKIE_FILE (Torn data) d1)
      end
    else (Raise OSError, d).
Proof.
  unfold Cli.check_and_save_cookie.
  destruct (negb no_test && Str.truthy workspace_id && negb api_ok);
    [reflexivity|].
  unfold bind. rewrite save_cookie_run.
  destruct (dir_ok d); [|reflexivity]. destruct flt; reflexivity.
Qed.

(** What a run of [check_and_save_cookie] can come to: the test fails and
    nothing is touched, or the test is passed or skipped and the cookie is
    stored or the write raises. *)
Lemma check_and_save_cookie_cases (flt : write_fault) (now : Q)
    (no_test api_ok : bool) (cookie workspace_id : string) (d : disk) :
  let run := Cli.check_and_save_cookie flt now no_test api_ok cookie
               workspace_id d in
  (run = (Ret 1%Z, d)
   /\ no_test = false /\ workspace_id <> "" /\ api_ok = false)
  \/ ((no_test = true \/ workspace_id = "" \/ api_ok = true)
      /\ ((fst run = Ret 0%Z
           /\ COOKIE_FILE (snd run)
              = Stored (mkCookie (Some cookie) (Some workspace_id) (Some now)))
          \/ fst run = Raise OSError)).
Proof.
  cbv zeta. rewrite check_and_save_cookie_run. unfold Str.truthy.
  destruct no_test, (String.eqb_spec workspace_id ""), api_ok; simpl;
    try (left; repeat split; assumption);
    (right; split; [auto|]);
    (destruct (dir_ok d); [|right; reflexivity]);
    (destruct flt; cbv zeta;
     [left; split; reflexivity | right; reflexivity | right; reflexivity]).
Qed.

(** The outcomes of [cmd_cookie], by the way the command ends. *)
Lemma cmd_cookie_outcomes (strip : string -> string) (flt : write_fault)
    (unlink_ok : bool) (now : Q) (args : Cli.cookie_args)
    (file : Cli.text_file) (typed : outcome string) (api_ok : bool)
    (d : disk) :
  forall r d',
    Cli.cmd_cookie strip flt unlink_ok now args file typed api_ok d = (r, d') ->
    (forall z, r = Ret z -> z = 0%Z \/ z = 1%Z)
    /\ (r = Ret 1%Z ->
        d' = d /\ Cli.ca_clear args = false /\ Cli.ca_show args = false)
    /\ (Cli.ca_clear args = true ->
        (r = Ret 0%Z
         /\ COOKIE_FILE d' = Missing
         /\ Config.get_cookie d' = (Ret None, d'))
        \/ (r = Raise OSError /\ unlink_ok = false /\ d' = d))
    /\ (Cli.ca_clear args = false -> Cli.ca_show args = true -> d' = d)
    /\ (Cli.ca_clear args = false -> Cli.ca_show args = false ->
        r = Ret 0%Z ->
        exists cookie,
          cookie <> ""
          /\ COOKIE_FILE d'
             = Stored (mkCookie (Some cookie)
                         (Some (match Cli.ca_workspace args with
                                | Some w => w
                                | None => ""
                                end))
                         (Some now))
          /\ (forall c,
                Cli.ca_file args = None -> Cli.ca_cookie args = Some c ->
                c <> "" -> cookie = c))
    /\ (Cli.ca_clear args = false -> Cli.ca_show args = false ->
        Cli.ca_no_test args = false -> api_ok = false ->
        forall w, Cli.ca_workspace args = Some w -> w <> "" ->
        r <> Ret 0%Z /\ d' = d).
Proof.
  intros r d' Hrun. unfold Cli.cmd_cookie in Hrun.
  destruct (Cli.ca_clear args) eqn:Hclear.
  { unfold bind in Hrun. rewrite clear_cookie_run in Hrun.
    assert (Hcase : (r = Ret 0%Z /\ COOKIE_FILE d' = Missing)
                    \/ (r = Raise OSError /\ unlink_ok = false /\ d' = d)).
    { destruct (COOKIE_FILE d) eqn:E; [|destruct unlink_ok ..];
        inversion Hrun; subst; clear Hrun;
        try (left; split; [reflexivity | try exact E; reflexivity]);
        right; repeat split. }
    split.
    { intros z Hz. destruct Hcase as [[H _] | [H _]]; rewrite H in Hz;
        inversion Hz. left. reflexivity. }
    split.
    { intros H1. destruct Hcase as [[H _] | [H _]]; rewrite H in H1;
        discriminate. }
    split.
    { intros _. destruct Hcase as [[H1 H2] | H]; [left | right; exact H].
      split; [exact H1|]. split; [exact H2|].
      rewrite get_cookie_run, H2. reflexivity. }
    split; [discriminate|]. split; discriminate. }
  destruct (Cli.ca_show args) eqn:Hshow.
  { unfold bind in Hrun. rewrite get_cookie_run in Hrun.
    inversion Hrun; subst; clear Hrun.
    split; [intros z Hz; inversion Hz; left; reflexivity|].
    split; [discriminate|]. split; [discriminate|].
    split; [reflexivity|]. split; discriminate. }
  set (workspace_id := match Cli.given (Cli.ca_workspace args) with
                       | Some w => w
                       | None => ""
                       end) in Hrun.
  assert (Hws : workspace_id = match Cli.ca_workspace args with
                               | Some w => w
                               | None => ""
                               end).
  { unfold workspace_id, Cli.given, Str.truthy.
    destruct (Cli.ca_workspace args) as [w|]; [|reflexivity].
    destruct (String.eqb_spec w ""); simpl; congruence. }
  rewrite <- Hws.
  (* the command stops before the test: nothing is touched *)
  assert (Hstop : forall o : outcome Z,
             (o = Ret 1%Z \/ exists e, o = Raise e) ->
             (o, d) = (r, d') ->
             (forall z, r = Ret z -> z = 0%Z \/ z = 1%Z)
             /\ (r = Ret 1%Z -> d' = d /\ false = false /\ false = false)
             /\ (false = true ->
                 (r = Ret 0%Z /\ COOKIE_FILE d' = Missing
                  /\ Config.get_cookie d' = (Ret None, d'))
                 \/ (r = Raise OSError /\ unlink_ok = false /\ d' = d))
             /\ (false = false -> false = true -> d' = d)
             /\ (false = false -> false = false -> r = Ret 0%Z ->
                 exists cookie,
                   cookie <> ""
                   /\ COOKIE_FILE d'
                      = Stored (mkCookie (Some cookie) (Some workspace_id)
                                  (Some now))
                   /\ (forall c,
                         Cli.ca_file args = None ->
                         Cli.ca_cookie args = Some c -> c <> "" -> cookie = c))
             /\ (false = false -> false = false ->
                 Cli.ca_no_test args = false -> api_ok = false ->
                 forall w, Cli.ca_workspace args = Some w -> w <> "" ->
                 r <> Ret 0%Z /\ d' = d)).
  { intros o Ho Heq. inversion Heq; subst; clear Heq.
    split.
    { intros z Hz. destruct Ho as [Ho | [e Ho]]; rewrite Ho in Hz;
        inversion Hz. right. reflexivity. }
    split; [intros _; repeat split|]. split; [discriminate|].
    split; [discriminate|].
    split.
    { intros _ _ Hz. destruct Ho as [Ho | [e Ho]]; rewrite Ho in Hz;
        discriminate. }
    intros _ _ _ _ w _ _. split; [|reflexivity].
    intros Hz. destruct Ho as [Ho | [e Ho]]; rewrite Ho in Hz; discriminate. }
  (* the command reaches the test with a cookie that is not empty *)
  assert (Hsave : forall cookie, cookie <> "" ->
             (forall c, Cli.ca_file args = None ->
                        Cli.ca_cookie args = Some c -> c <> "" -> cookie = c) ->
             Cli.check_and_save_cookie flt now (Cli.ca_no_test args) api_ok
               cookie workspace_id d = (r, d') ->
             (forall z, r = Ret z -> z = 0%Z \/ z = 1%Z)
             /\ (r = Ret 1%Z -> d' = d /\ false = false /\ false = false)
             /\ (false = true ->
                 (r = Ret 0%Z /\ COOKIE_FILE d' = Missing
                  /\ Config.get_cookie d' = (Ret None, d'))
                 \/ (r = Raise OSError /\ unlink_ok = false /\ d' = d))
             /\ (false = false -> false = true -> d' = d)
             /\ (false = false -> false = false -> r = Ret 0%Z ->
                 exists cookie,
                   cookie <> ""
                   /\ COOKIE_FILE d'
                      = Stored (mkCookie (Some cookie) (Some workspace_id)
                                  (Some now))
                   /\ (forall c,
                         Cli.ca_file args = None ->
                         Cli.ca_cookie args = Some c -> c <> "" -> cookie = c))
             /\ (false = false -> false = false ->
                 Cli.ca_no_test args = false -> api_ok = false ->
                 forall w, Cli.ca_workspace args = Some w -> w <> "" ->
                 r <> Ret 0%Z /\ d' = d)).
  { intros cookie Hne Hsrc Heq.
    pose proof (check_and_save_cookie_cases flt now (Cli.ca_no_test args) api_ok
                  cookie workspace_id d) as Hc. cbv zeta in Hc.
    rewrite Heq in Hc. simpl in Hc.
    destruct Hc as [[Hc _] | [Hpass [[Hr Hf] | Hr]]].
    - inversion Hc; subst r d'.
      split; [intros z Hz; inversion Hz; right; reflexivity|].
      split; [intros _; repeat split|]. split; [discriminate|].
      split; [discriminate|]. split; [discriminate|].
      intros _ _ _ _ w _ _. split; [discriminate | reflexivity].
    - subst r.
      split; [intros z Hz; inversion Hz; left; reflexivity|].
      split; [discriminate|]. split; [discriminate|]. split; [discriminate|].
      split.
      { intros _ _ _. exists cookie. repeat split; assumption. }
      intros _ _ Hnt Hapi w Hw Hwne. exfalso.
      rewrite Hws, Hw in Hpass.
      destruct Hpass as [H | [H | H]]; congruence.
    - subst r.
      split; [discriminate|]. split; [discriminate|]. split; [discriminate|].
      split; [discriminate|]. split; [discriminate|].
      intros _ _ Hnt Hapi w Hw Hwne. exfalso.
      rewrite Hws, Hw in Hpass.
      destruct Hpass as [H | [H | H]]; congruence. }
  destruct (Cli.given (Cli.ca_file args)) as [path|] eqn:Hfile.
  - destruct file as [|e|lines].
    + apply (Hstop (Ret 1%Z)); [left; reflexivity | exact Hrun].
    + apply (Hstop (Raise e)); [right; eexists; reflexivity | exact Hrun].
    + destruct (Cli.cookie_from_file strip (Cli.ca_cookie args) lines)
        as [cookie|] eqn:E.
      * apply (Hsave cookie); [| |exact Hrun].
        -- unfold Cli.cookie_from_file in E.
           apply given_Some_nonempty in E. apply E.
        -- intros c Hf. apply given_Some_nonempty in Hfile.
           destruct Hfile as [Hfile _]. congruence.
      * apply (Hstop (Ret 1%Z)); [left; reflexivity | exact Hrun].
  - destruct (Cli.given (Cli.ca_cookie args)) as [cookie|] eqn:E.
    + apply given_Some_nonempty in E. destruct E as [E Hne].
      apply (Hsave cookie); [exact Hne | | exact Hrun].
      intros c _ Hc _. congruence.
    + assert (Hnone : forall c, Cli.ca_cookie args = Some c -> c <> "" -> False).
      { intros c Hc Hne. unfold Cli.given, Str.truthy in E. rewrite Hc in E.
        destruct (String.eqb_spec c ""); [contradiction | discriminate]. }
      destruct typed as [line|e].
      * destruct (Str.truthy (strip line)) eqn:Ht.
        -- apply (Hsave (strip line)); [| |exact Hrun].
           ++ unfold Str.truthy in Ht. intros H. rewrite H in Ht. discriminate.
           ++ intros c _ Hc Hne. exfalso. exact (Hnone c Hc Hne).
        -- apply (Hstop (Ret 1%Z)); [left; reflexivity | exact Hrun].
      * apply (Hstop (Raise e)); [right; eexists; reflexivity | exact Hrun].
Qed.

(** X16. [cmd_cookie], [strip] being what [str.strip] does.  Whenever it
    returns, it returns 0 or 1.  When it returns 1 nothing on disk has
    changed, and neither [--clear] nor [--show] was given.  With [--clear]
    it returns 0 once the cookie file is gone, and raises, changing
    nothing, when the file cannot be removed.  With [--show] (and no
    [--clear]) it changes nothing.  Otherwise, when it returns 0 the
    cookie file holds a cookie that is not empty, with the workspace given
    on the command line (the empty string when none was given) and the
    current time; without [--file], a cookie given on the command line is
    the one stored.  A cookie that fails the test is not stored: with a
    workspace, without [--no-test] and with an API that rejects the
    cookie, the command does not return 0 and changes nothing.  An
    exception raised while the cookie file is read, or by [input()] when
    the cookie has to be typed, reaches the caller, and nothing is
    changed. *)
Theorem cmd_cookie_effects (strip : string -> string) (flt : write_fault)
    (unlink_ok : bool) (now : Q) (args : Cli.cookie_args)
    (file : Cli.text_file) (typed : outcome string) (api_ok : bool)
    (d : disk) :
  forall r d',
    Cli.cmd_cookie strip flt unlink_ok now args file typed api_ok d = (r, d') ->
    (forall z, r = Ret z -> z = 0%Z \/ z = 1%Z)
    /\ (r = Ret 1%Z ->
        d' = d /\ Cli.ca_clear args = false /\ Cli.ca_show args = false)
    /\ (Cli.ca_clear args = true ->
        (r = Ret 0%Z
         /\ COOKIE_FILE d' = Missing
         /\ Config.get_cookie d' = (Ret None, d'))
        \/ (r = Raise OSError /\ unlink_ok = false /\ d' = d))
    /\ (Cli.ca_clear args = false -> Cli.ca_show args = true -> d' = d)
    /\ (Cli.ca_clear args = false -> Cli.ca_show args = false ->
        r = Ret 0%Z ->
        exists cookie,
          cookie <> ""
          /\ COOKIE_FILE d'
             = Stored (mkCookie (Some cookie)
                         (Some (match Cli.ca_workspace args with
                                | Some w => w
                                | None => ""
                                end))
                         (Some now))
          /\ (forall c,
                Cli.ca_file args = None -> Cli.ca_cookie args = Some c ->
                c <> "" -> cookie = c))
    /\ (Cli.ca_clear args = false -> Cli.ca_show args = false ->
        Cli.ca_no_test args = false -> api_ok = false ->
        forall w, Cli.ca_workspace args = Some w -> w <> "" ->
        r <> Ret 0%Z /\ d' = d)
    /\ (Cli.ca_clear args = false -> Cli.ca_show args = false ->
        forall path e,
          Cli.ca_file args = Some path -> path <> "" ->
          file = Cli.ReadFails e ->
          r = Raise e /\ d' = d)
    /\ (Cli.ca_clear args = false -> Cli.ca_show args = false ->
        Cli.given (Cli.ca_file args) = None ->
        Cli.given (Cli.ca_cookie args) = None ->
        forall e, typed = Raise e -> r = Raise e /\ d' = d).
Proof.
  intros r d' Hrun.
  destruct (cmd_cookie_outcomes strip flt unlink_ok now args file typed api_ok
              d r d' Hrun) as (H1 & H2 & H3 & H4 & H5 & H6).
  repeat (split; [assumption|]).
  unfold Cli.cmd_cookie in Hrun. split.
  - intros Hc Hs path e Hf Hp ->. rewrite Hc, Hs, Hf in Hrun.
    rewrite (given_nonempty _ Hp) in Hrun.
    inversion Hrun. split; reflexivity.
  - intros Hc Hs Hf Hk e ->. rewrite Hc, Hs, Hf, Hk in Hrun.
    inversion Hrun. split; reflexivity.
Qed.

Lemma cmd_cookie_effects_witness :
  let args := Cli.mkCookieArgs false false (Some "sid=1") (Some "ws-1") None
                true in
  let run := Cli.cmd_cookie (fun s => s) NoFault true 2%Q args Cli.NoSuchFile
               (Ret "") false alpha_disk in
  fst run = Ret 0%Z
  /\ exists cookie,
       cookie <> ""
       /\ COOKIE_FILE (snd run)
          = Stored (mkCookie (Some cookie) (Some "ws-1") (Some 2%Q))
       /\ (forall c,
             Cli.ca_file args = None -> Cli.ca_cookie args = Some c ->
             c <> "" -> cookie = c).
Proof.
  split; [reflexivity|].
  exact (proj1 (proj2 (proj2 (proj2 (proj2
           (cmd_cookie_effects (fun s => s) NoFault true 2%Q
              (Cli.mkCookieArgs false false (Some "sid=1") (Some "ws-1") None
                 true)
              Cli.NoSuchFile (Ret "") false alpha_disk
              (Ret 0%Z)
              (snd (Cli.cmd_cookie (fun s => s) NoFault true 2%Q
                      (Cli.mkCookieArgs false false (Some "sid=1")
                         (Some "ws-1") None true)
                      Cli.NoSuchFile (Ret "") false alpha_disk))
              eq_refl)))))
           eq_refl eq_refl eq_refl).
Defined.

(* ================================================================== *)
(** ** Free nodes and the recommendation of [cmd_avail] *)

Lemma node_is_free_iff (n : node) :
  Cli.node_is_free n = true <-> free_gpu n.
Proof.
  unfold Cli.node_is_free, Cli.node_gpu_used, Cli.node_gpu_total, free_gpu.
  rewrite andb_true_iff, Z.eqb_eq, Z.ltb_lt.
  destruct (node_gpu n) as [[used total]|]; simpl.
  - split.
    + intros [Hu Ht]. eexists. split; [reflexivity|]. simpl. split.
      * destruct used as [u|]; [right; rewrite Hu|left]; reflexivity.
      * destruct total as [t|]; [exists t; split; [reflexivity | exact Ht] | lia].
    + intros [g [Hg [Hu [t [Ht Hpos]]]]]. inversion Hg; subst g; simpl in *.
      subst total. split; [|exact Hpos].
      destruct Hu as [-> | ->]; reflexivity.
  - split; [lia|]. intros [g [Hg _]]. discriminate.
Qed.

Lemma free_nodes_of_map (nodes : list node) :
  Cli.free_nodes_of nodes
  = map (fun n => {| fn_name := match node_name n with
                                | Some s => s
                                | None => ""
                                end;
                     fn_gpu_total := Cli.node_gpu_total n |})
      (filter Cli.node_is_free nodes).
Proof.
  induction nodes as [|n nodes IH]; simpl; [reflexivity|].
  destruct (Cli.node_is_free n); simpl; rewrite IH; reflexivity.
Qed.

Lemma filter_length_all {A : Type} (p : A -> bool) (l : list A) :
  List.length (filter p l) = List.length l <-> Forall (fun x => p x = true) l.
Proof.
  induction l as [|x l IH]; simpl.
  - split; [constructor | reflexivity].
  - pose proof (filter_length_le p l) as Hle.
    destruct (p x) eqn:E; simpl.
    + split.
      * intros H. constructor; [exact E|]. apply IH. lia.
      * intros H. inversion H; subst. f_equal. apply IH. assumption.
    + split; [lia|]. intros H. inversion H; subst. congruence.
Qed.

(** X17. In the record [cmd_avail] keeps for a compute group, the free
    nodes listed are, in the order of the listing, the nodes whose [gpu]
    object says that no GPU is used (or gives no [used]) and gives a
    positive [total], each with its name (the empty string when it has
    none) and that total; a node without a [gpu] object is not free.  The
    number of free nodes is the length of that list; it never exceeds the
    number of nodes and equals it exactly when every node is free. *)
Theorem avail_group_result_counts (workspace_id ws_name : string)
    (specs : Dict.t resource) (lcg_id : string) (lcg_info : resource)
    (nodes : list node) :
  let r := Cli.avail_group_result workspace_id ws_name specs lcg_id lcg_info
             nodes in
  gr_total_nodes r = List.length nodes
  /\ gr_free_nodes r = List.length (gr_free_node_list r)
  /\ (exists free,
        gr_free_node_list r
        = map (fun n => {| fn_name := match node_name n with
                                      | Some s => s
                                      | None => ""
                                      end;
                           fn_gpu_total :=
                             match node_gpu n with
                             | Some {| gpu_total := Some t |} => t
                             | _ => 0%Z
                             end |}) free
        /\ (forall n, In n free <-> In n nodes /\ free_gpu n)
        /\ exists p, free = filter p nodes)
  /\ (gr_free_nodes r <= gr_total_nodes r)%nat
  /\ (gr_free_nodes r = gr_total_nodes r <-> Forall free_gpu nodes)
  /\ Forall (fun f => (0 < fn_gpu_total f)%Z) (gr_free_node_list r)
  /\ (forall n, In n nodes -> node_gpu n = None -> ~ free_gpu n).
Proof.
  intros r. subst r. unfold Cli.avail_group_result. cbn [gr_total_nodes
    gr_free_nodes gr_free_node_list].
  rewrite free_nodes_of_map.
  split; [reflexivity|]. split; [reflexivity|].
  split.
  { exists (filter Cli.node_is_free nodes). split.
    - apply map_ext. intros n. unfold Cli.node_gpu_total.
      destruct (node_gpu n) as [[u [t|]]|]; reflexivity.
    - split; [|eexists; reflexivity].
      intros n. rewrite filter_In, node_is_free_iff. reflexivity. }
  rewrite length_map.
  split; [apply filter_length_le|].
  split.
  { rewrite filter_length_all.
    split; intros H; (eapply Forall_impl; [|exact H]); intros n Hn;
      apply node_is_free_iff; exact Hn. }
  split.
  { rewrite Forall_map, Forall_forall. intros n Hn. simpl.
    apply filter_In in Hn. destruct Hn as [_ Hn].
    unfold Cli.node_is_free in Hn. apply andb_true_iff in Hn.
    destruct Hn as [_ Hn]. apply Z.ltb_lt. exact Hn. }
  intros n _ Hg [g [Hg' _]]. congruence.
Qed.

Lemma insert_free_desc_perm (x : group_result) (l : list group_result) :
  Permutation (Cli.insert_free_desc x l) (x :: l).
Proof.
  induction l as [|y l IH]; simpl; [apply Permutation_refl|].
  destruct (gr_free_nodes x <? gr_free_nodes y)%nat.
  - eapply Permutation_trans; [apply perm_skip; exact IH | apply perm_swap].
  - apply Permutation_refl.
Qed.

Lemma sort_free_desc_perm (l : list group_result) :
  Permutation (Cli.sort_free_desc l) l.
Proof.
  induction l as [|x l IH]; simpl; [constructor|].
  eapply Permutation_trans;
    [apply insert_free_desc_perm | apply perm_skip; exact IH].
Qed.

Lemma insert_free_desc_sorted (x : group_result) (l : list group_result) :
  StronglySorted free_ge l -> StronglySorted free_ge (Cli.insert_free_desc x l).
Proof.
  induction l as [|y l IH]; intros Hs; simpl.
  - constructor; constructor.
  - inversion Hs as [|? ? Hl Hy]; subst.
    destruct (Nat.ltb_spec (gr_free_nodes x) (gr_free_nodes y)) as [Hlt|Hge].
    + constructor; [apply IH; exact Hl|].
      eapply Permutation_Forall;
        [apply Permutation_sym, insert_free_desc_perm|].
      constructor; [unfold free_ge; lia | exact Hy].
    + constructor; [exact Hs|].
      constructor; [exact Hge|].
      eapply Forall_impl; [|exact Hy]. unfold free_ge. intros z Hz. lia.
Qed.

Lemma sort_free_desc_sorted (l : list group_result) :
  StronglySorted free_ge (Cli.sort_free_desc l).
Proof.
  induction l as [|x l IH]; simpl; [constructor|].
  apply insert_free_desc_sorted. exact IH.
Qed.

Lemma insert_free_desc_stable (k : nat) (x : group_result)
    (l : list group_result) :
  filter (fun r => (gr_free_nodes r =? k)%nat) (Cli.insert_free_desc x l)
  = filter (fun r => (gr_free_nodes r =? k)%nat) (x :: l).
Proof.
  induction l as [|y l IH]; [reflexivity|].
  cbn [Cli.insert_free_desc].
  destruct (Nat.ltb_spec (gr_free_nodes x) (gr_free_nodes y)) as [Hlt|Hge];
    [|reflexivity].
  cbn [filter] in *. rewrite IH.
  destruct (Nat.eqb_spec (gr_free_nodes x) k);
    destruct (Nat.eqb_spec (gr_free_nodes y) k); try reflexivity.
  lia.
Qed.

Lemma sort_free_desc_stable (k : nat) (l : list group_result) :
  filter (fun r => (gr_free_nodes r =? k)%nat) (Cli.sort_free_desc l)
  = filter (fun r => (gr_free_nodes r =? k)%nat) l.
Proof.
  induction l as [|x l IH]; [reflexivity|].
  cbn [Cli.sort_free_desc fold_right]. rewrite insert_free_desc_stable.
  cbn [filter]. fold (Cli.sort_free_desc l). rewrite IH. reflexivity.
Qed.

Lemma filter_StronglySorted {A : Type} (R : A -> A -> Prop) (p : A -> bool)
    (l : list A) :
  StronglySorted R l -> StronglySorted R (filter p l).
Proof.
  induction 1 as [|x l Hs IH Hall]; simpl; [constructor|].
  destruct (p x); [|exact IH].
  constructor; [exact IH|].
  apply Forall_forall. intros y Hy. apply filter_In in Hy.
  rewrite Forall_forall in Hall. apply Hall, Hy.
Qed.

Lemma filter_comm {A : Type} (p q : A -> bool) (l : list A) :
  filter p (filter q l) = filter q (filter p l).
Proof.
  induction l as [|x l IH]; simpl; [reflexivity|].
  destruct (q x) eqn:Eq, (p x) eqn:Ep; simpl; rewrite ?Eq, ?Ep, IH; reflexivity.
Qed.

Lemma avail_available_In (required_nodes : Z) (all_results : list group_result)
    (r : group_result) :
  In r (Cli.avail_available required_nodes all_results)
  <-> In r all_results /\ (required_nodes <= Z.of_nat (gr_free_nodes r))%Z.
Proof.
  unfold Cli.avail_available. rewrite filter_In, Z.leb_le. split.
  - intros [Hin Hle]. split; [|exact Hle].
    eapply Permutation_in; [apply sort_free_desc_perm | exact Hin].
  - intros [Hin Hle]. split; [|exact Hle].
    eapply Permutation_in;
      [apply Permutation_sym, sort_free_desc_perm | exact Hin].
Qed.

(** X18. Under [--nodes n] with [n] not zero, [cmd_avail] lists exactly the
    groups with at least [n] free nodes, most free nodes first and groups
    with equally many in the order they were queried; the group it
    recommends has at least [n] free nodes and no queried group has more.
    It returns 1 when no group was queried or none has [n] free nodes, and
    0 otherwise.  [--nodes 0] is treated as no [--nodes] at all: the
    command returns 0 as soon as one group was queried and recommends
    nothing. *)
Theorem avail_report_recommends_most_free (nodes : option Z)
    (all_results : list group_result) :
  (forall n,
      Cli.nodes_required nodes = Some n ->
      let available := Cli.avail_available n all_results in
      StronglySorted free_ge available
      /\ (forall r, In r available
                    <-> In r all_results /\ (n <= Z.of_nat (gr_free_nodes r))%Z)
      /\ (forall k,
            filter (fun r => (gr_free_nodes r =? k)%nat) available
            = filter (fun r => (gr_free_nodes r =? k)%nat)
                (filter (fun r => (n <=? Z.of_nat (gr_free_nodes r))%Z)
                   all_results))
      /\ (forall best,
            snd (Cli.avail_report nodes all_results) = Some best ->
            fst (Cli.avail_report nodes all_results) = 0%Z
            /\ In best all_results
            /\ (n <= Z.of_nat (gr_free_nodes best))%Z
            /\ forall r, In r all_results ->
                         (gr_free_nodes r <= gr_free_nodes best)%nat)
      /\ (fst (Cli.avail_report nodes all_results) = 1%Z
          <-> Forall (fun r => (Z.of_nat (gr_free_nodes r) < n)%Z) all_results)
      /\ (fst (Cli.avail_report nodes all_results) = 0%Z
          <-> exists best, snd (Cli.avail_report nodes all_results) = Some best))
  /\ (Cli.nodes_required nodes = None ->
      Cli.avail_report nodes all_results
      = (match all_results with [] => 1%Z | _ => 0%Z end, None))
  /\ (nodes = Some 0%Z -> Cli.nodes_required nodes = None).
Proof.
  split; [|split].
  - intros n Hn available.
    assert (Hsorted : StronglySorted free_ge available)
      by (apply filter_StronglySorted, sort_free_desc_sorted).
    assert (Hin : forall r, In r available
                    <-> In r all_results /\ (n <= Z.of_nat (gr_free_nodes r))%Z)
      by (intros r; apply avail_available_In).
    split; [exact Hsorted|]. split; [exact Hin|].
    split.
    { intros k. subst available. unfold Cli.avail_available.
      rewrite filter_comm, sort_free_desc_stable. apply filter_comm. }
    assert (Hrep : Cli.avail_report nodes all_results
                   = match all_results with
                     | [] => (1%Z, None)
                     | _ => match available with
                            | [] => (1%Z, None)
                            | best :: _ => (0%Z, Some best)
                            end
                     end).
    { unfold Cli.avail_report. rewrite Hn. reflexivity. }
    assert (Hempty : all_results = [] -> available = []).
    { intros ->. reflexivity. }
    assert (Hnone : available = []
                    <-> Forall (fun r => (Z.of_nat (gr_free_nodes r) < n)%Z)
                          all_results).
    { split.
      - intros He. apply Forall_forall. intros r Hr.
        destruct (Z.lt_ge_cases (Z.of_nat (gr_free_nodes r)) n) as [Hlt|Hge];
          [exact Hlt|].
        exfalso. assert (Hra : In r available) by (apply Hin; split; assumption).
        rewrite He in Hra. exact Hra.
      - intros Hall. destruct available as [|b rest] eqn:E; [reflexivity|].
        exfalso. assert (Hb : In b (b :: rest)) by (left; reflexivity).
        apply Hin in Hb. destruct Hb as [Hb1 Hb2].
        rewrite Forall_forall in Hall. specialize (Hall _ Hb1). lia. }
    assert (Hrep' : Cli.avail_report nodes all_results
                    = match available with
                      | [] => (1%Z, None)
                      | best :: _ => (0%Z, Some best)
                      end).
    { rewrite Hrep. destruct all_results as [|a l]; [|reflexivity].
      rewrite (Hempty eq_refl). reflexivity. }
    rewrite Hrep'.
    split.
    { intros best Hbest. destruct available as [|b rest] eqn:E;
        [discriminate|]. simpl in Hbest. inversion Hbest; subst b.
      assert (Hb : In best (best :: rest)) by (left; reflexivity).
      apply Hin in Hb. destruct Hb as [Hb1 Hb2].
      split; [reflexivity|]. split; [exact Hb1|]. split; [exact Hb2|].
      intros r Hr.
      destruct (Z.lt_ge_cases (Z.of_nat (gr_free_nodes r)) n) as [Hlt|Hge];
        [lia|].
      assert (Hra : In r (best :: rest)) by (apply Hin; split; assumption).
      destruct Hra as [<-|Hra]; [apply Nat.le_refl|].
      inversion Hsorted as [|? ? _ Hall]; subst.
      rewrite Forall_forall in Hall. exact (Hall _ Hra). }
    split.
    { rewrite <- Hnone. destruct available; simpl; split; intros H;
        try reflexivity; discriminate. }
    destruct available as [|b rest]; simpl.
    + split; [discriminate | intros [best H]; discriminate].
    + split; [intros _; exists b; reflexivity | reflexivity].
  - intros Hn. unfold Cli.avail_report. rewrite Hn.
    destruct all_results; reflexivity.
  - intros ->. reflexivity.
Qed.

Lemma avail_report_recommends_most_free_witness :
  let a := mkGroupResult "ws-1" "Alpha" "lcg-a" "A" (JStr "H100") 4 1 [] [] in
  let b := mkGroupResult "ws-1" "Alpha" "lcg-b" "B" (JStr "H100") 8 3 [] [] in
  snd (Cli.avail_report (Some 2%Z) [a; b]) = Some b
  /\ fst (Cli.avail_report (Some 2%Z) [a; b]) = 0%Z
  /\ (2 <= Z.of_nat (gr_free_nodes b))%Z.
Proof.
  cbv zeta. split; [reflexivity|].
  pose proof (proj1 (avail_report_recommends_most_free (Some 2%Z)
    [mkGroupResult "ws-1" "Alpha" "lcg-a" "A" (JStr "H100") 4 1 [] [];
     mkGroupResult "ws-1" "Alpha" "lcg-b" "B" (JStr "H100") 8 3 [] []])
    2%Z eq_refl) as H.
  cbv zeta in H. destruct H as [_ [_ [_ [H _]]]].
  destruct (H _ eq_refl) as [H1 [_ [H3 _]]].
  split; [exact H1 | exact H3].
Defined.

(* ================================================================== *)
(** ** Naming a workspace from the command line *)


